(** * smart-expense-manager: the currency-aware financial engine of [expense.py]

    A shallow embedding of the converter, the budget tracker, the category
    classifier, the ledger and the aggregation code of [src/expense.py],
    followed by the properties established about them.

    Modelling conventions.
    - Python [float] amounts, rates, limits and thresholds are exact rationals
      ([Q]); binary64 rounding is outside the model.  Python's [==] on numbers
      is [Qeq]; where the code hands a number back untouched the statements
      use Leibniz equality.  An accumulated amount is stated as the running
      total the code builds, the addends taken one at a time in the order of
      the code's own additions, so that no statement regroups a sum.
    - True division raises [ZeroDivisionError] on a zero divisor, as in Python.
    - Exceptions are values of [error], threaded through the [result] monad.
    - [str] is [string] over 8-bit characters; [str.lower] is the ASCII
      lower-casing, which is what the library does on ASCII text (its case
      mapping of other characters is outside the model).
    - [datetime.date] is a (year, month, day) triple of integers ordered
      lexicographically; the constructor checks the library's ranges (years
      1 to 9999, months, days of the month) and raises [ValueError] outside
      them.
    - Insertion-ordered dictionaries whose iteration order is observable
      (the tag registry, the per-category and per-month tables) are
      association lists; dictionaries only looked up by key (the rate table,
      the budgets) are [gmap]s.
    - Console output of [Budget.add_spending] is the list of alert events
      the call printed.
    - Line 26 of the source carries a stray leading digit; the member
      [INVESTMENT] is read as the enumeration member it was meant to be. *)

From Stdlib Require Import ZArith QArith Lqa Lia String Ascii List Bool.
From stdpp Require Import gmap strings list.

Open Scope Q_scope.

(** ** Errors *)

Inductive error : Type :=
  | ValueError
  | ZeroDivisionError
  | KeyError.

Inductive result (A : Type) : Type :=
  | Ok (a : A)
  | Raise (e : error).
Arguments Ok {A} a.
Arguments Raise {A} e.

#[global] Instance result_ret : MRet result := fun A a => Ok a.
#[global] Instance result_bind : MBind result := fun A B f m =>
  match m with
  | Ok a => f a
  | Raise e => Raise e
  end.

(** ** Enumerations *)

Inductive ExpenseCategory : Type :=
  | FOOD | TRANSPORTATION | HOUSING | ENTERTAINMENT | UTILITIES | HEALTH
  | EDUCATION | SHOPPING | INVESTMENT | TRAVEL | OTHER.

(** Iteration order of [for category in ExpenseCategory]. *)
Definition all_categories : list ExpenseCategory :=
  [FOOD; TRANSPORTATION; HOUSING; ENTERTAINMENT; UTILITIES; HEALTH;
   EDUCATION; SHOPPING; INVESTMENT; TRAVEL; OTHER].

#[global] Instance ExpenseCategory_eq_dec : EqDecision ExpenseCategory.
Proof. solve_decision. Defined.

Definition ExpenseCategory_to_nat (c : ExpenseCategory) : nat :=
  match c with
  | FOOD => 0 | TRANSPORTATION => 1 | HOUSING => 2 | ENTERTAINMENT => 3
  | UTILITIES => 4 | HEALTH => 5 | EDUCATION => 6 | SHOPPING => 7
  | INVESTMENT => 8 | TRAVEL => 9 | OTHER => 10
  end%nat.

Definition ExpenseCategory_of_nat (n : nat) : option ExpenseCategory :=
  nth_error all_categories n.

#[global] Program Instance ExpenseCategory_countable : Countable ExpenseCategory :=
  inj_countable ExpenseCategory_to_nat ExpenseCategory_of_nat _.
Next Obligation. intros []; reflexivity. Qed.

Inductive Currency : Type :=
  | INR | USD | EUR | GBP | JPY | CAD | AUD | SGD.

#[global] Instance Currency_eq_dec : EqDecision Currency.
Proof. solve_decision. Defined.

(** [Currency.name] *)
Definition Currency_name (c : Currency) : string :=
  match c with
  | INR => "INR" | USD => "USD" | EUR => "EUR" | GBP => "GBP"
  | JPY => "JPY" | CAD => "CAD" | AUD => "AUD" | SGD => "SGD"
  end.

(** ** Dates *)

Module datetime.

Record date : Type := mkDate { year : Z; month : Z; day : Z }.

(** [a < b] and [a <= b] on [datetime.date]. *)
Definition ltb (a b : date) : bool :=
  (year a <? year b)%Z
  || ((year a =? year b)%Z
      && ((month a <? month b)%Z
          || ((month a =? month b)%Z && (day a <? day b)%Z))).

Definition leb (a b : date) : bool := negb (ltb b a).

Definition MINYEAR : Z := 1.
Definition MAXYEAR : Z := 9999.

Definition is_leap (y : Z) : bool :=
  ((y mod 4 =? 0)%Z && (negb (y mod 100 =? 0)%Z || (y mod 400 =? 0)%Z)).

Definition days_in_month (y m : Z) : Z :=
  if (m =? 2)%Z then (if is_leap y then 29 else 28)%Z
  else if ((m =? 4) || (m =? 6) || (m =? 9) || (m =? 11))%Z then 30%Z
  else 31%Z.

(** [datetime.date(year, month, day)]: the constructor call, which raises
    [ValueError] for a year, month or day out of range. *)
Definition date__new__ (y m d : Z) : result date :=
  if ((MINYEAR <=? y) && (y <=? MAXYEAR) && (1 <=? m) && (m <=? 12)
      && (1 <=? d) && (d <=? days_in_month y m))%Z
  then Ok (mkDate y m d)
  else Raise ValueError.

(** The invariant of a constructed [datetime.date]: the ranges the
    constructor checks. *)
Definition valid (d : date) : Prop :=
  (MINYEAR <= year d <= MAXYEAR)%Z
  /\ (1 <= month d <= 12)%Z
  /\ (1 <= day d <= days_in_month (year d) (month d))%Z.

(** Calendar order, stated on the triples: [a] is not after [b]. *)
Definition le (a b : date) : Prop :=
  (year a < year b)%Z
  \/ (year a = year b
      /\ ((month a < month b)%Z
          \/ (month a = month b /\ (day a <= day b)%Z))).

End datetime.

(** ** Strings *)

(** [str.lower] on ASCII text: the letters A-Z are mapped to a-z, every
    other character is kept. *)
Definition lower_ascii (c : ascii) : ascii :=
  let n := nat_of_ascii c in
  if ((65 <=? n) && (n <=? 90))%nat then ascii_of_nat (n + 32) else c.

Fixpoint lower (s : string) : string :=
  match s with
  | EmptyString => EmptyString
  | String c s' => String (lower_ascii c) (lower s')
  end.

Fixpoint startswith (p s : string) : bool :=
  match p, s with
  | EmptyString, _ => true
  | String _ _, EmptyString => false
  | String a p', String b s' => if decide (a = b) then startswith p' s' else false
  end.

(** [sub in s] on [str]. *)
Fixpoint str_in (sub s : string) : bool :=
  startswith sub s
  || match s with
     | EmptyString => false
     | String _ s' => str_in sub s'
     end.

(** [x < y] on numbers. *)
Definition Qlt_bool (x y : Q) : bool := negb (Qle_bool y x).

(** ** Ordered dictionaries *)

Section odict.
Context {K V : Type} `{EqDecision K}.

Fixpoint odict_get (k : K) (d : list (K * V)) : option V :=
  match d with
  | [] => None
  | (k', v) :: d' => if decide (k = k') then Some v else odict_get k d'
  end.

(** [d[k] = v]: overwrite in place, or append a new key. *)
Fixpoint odict_set (k : K) (v : V) (d : list (K * V)) : list (K * V) :=
  match d with
  | [] => [(k, v)]
  | (k', v') :: d' =>
      if decide (k = k') then (k', v) :: d' else (k', v') :: odict_set k v d'
  end.
End odict.

(** ** CurrencyConverter *)

Module CurrencyConverter.

(** The class default of [_rates]. *)
Definition _rates : gmap string Q :=
  list_to_map
    [("INR"%string, 1); ("USD"%string, 12 # 1000); ("EUR"%string, 11 # 1000);
     ("GBP"%string, 95 # 10000); ("JPY"%string, 178 # 100);
     ("CAD"%string, 16 # 1000); ("AUD"%string, 18 # 1000);
     ("SGD"%string, 16 # 1000)].

(** [convert], reading the singleton's current rate table [rates]. *)
Definition convert (rates : gmap string Q) (amount : Q)
    (from_currency to_currency : Currency) : result Q :=
  if decide (from_currency = to_currency) then Ok amount
  else
    let from_code := Currency_name from_currency in
    let to_code := Currency_name to_currency in
    match rates !! from_code, rates !! to_code with
    | Some rate_from, Some rate_to =>
        if Qeq_bool rate_from 0 then Raise ZeroDivisionError
        else
          let inr_amount := amount / rate_from in
          Ok (inr_amount * rate_to)
    | _, _ => Raise ValueError
    end.

End CurrencyConverter.

(** ** Records of the ledger *)

Module ExpenseTag.
Record t : Type := mk { name : string; category : ExpenseCategory }.
End ExpenseTag.

Module Expense.
Record t : Type := mk {
  amount : Q;
  category : ExpenseCategory;
  description : string;
  date : datetime.date;
  currency : Currency;
  is_recurring : bool;
  recurring_period_days : Z;
  tags : list string;
  payment_method : string
}.

Definition convert_to (rates : gmap string Q) (self : t)
    (target_currency : Currency) : result Q :=
  CurrencyConverter.convert rates (amount self) (currency self) target_currency.
End Expense.

(** ** Budget *)

(** What one budget alert prints: the category, the percentage used and the
    remaining budget. *)
Record Alert : Type := mkAlert {
  alert_category : ExpenseCategory;
  alert_percentage : Q;
  alert_remaining : Q
}.

Module Budget.

Record t : Type := mk {
  category : ExpenseCategory;
  monthly_limit : Q;
  currency : Currency;
  current_spending : Q;
  alert_threshold : Q;
  alerts_triggered : bool
}.

(** [Budget.__init__]; [alert_threshold] defaults to 80 at the call sites. *)
Definition __init__ (category : ExpenseCategory) (monthly_limit : Q)
    (currency : Currency) (alert_threshold : Q) : t :=
  mk category monthly_limit currency 0 alert_threshold false.

(** [max(0.0, monthly_limit - current_spending)] *)
Definition remaining_budget (self : t) : Q :=
  let d := monthly_limit self - current_spending self in
  if Qlt_bool 0 d then d else 0.

Definition percentage_used (self : t) : Q :=
  if negb (Qeq_bool (monthly_limit self) 0)
  then (current_spending self / monthly_limit self) * 100
  else 0.

Definition add_spending (rates : gmap string Q) (self : t) (amount : Q)
    (expense_currency : Currency) : result (t * list Alert) :=
  converted_amount ← CurrencyConverter.convert rates amount expense_currency (currency self);
  let self :=
    mk (category self) (monthly_limit self) (currency self)
       (current_spending self + converted_amount)
       (alert_threshold self) (alerts_triggered self) in
  if negb (alerts_triggered self)
     && Qle_bool (alert_threshold self) (percentage_used self)
  then
    let self :=
      mk (category self) (monthly_limit self) (currency self)
         (current_spending self) (alert_threshold self) true in
    let remaining := remaining_budget self in
    Ok (self, [mkAlert (category self) (percentage_used self) remaining])
  else Ok (self, []).

End Budget.

(** ** User: the ledger, the tag registry and the budgets *)

Module User.

Record t : Type := mk {
  name : string;
  default_currency : Currency;
  expenses : list Expense.t;
  budgets : gmap ExpenseCategory Budget.t;
  tags : list (string * ExpenseTag.t);
  payment_methods : list string
}.

Definition default_tags : list ExpenseTag.t :=
  [ExpenseTag.mk "groceries" FOOD;
   ExpenseTag.mk "dining" FOOD;
   ExpenseTag.mk "fuel" TRANSPORTATION;
   ExpenseTag.mk "rent" HOUSING;
   ExpenseTag.mk "movie" ENTERTAINMENT;
   ExpenseTag.mk "electricity" UTILITIES;
   ExpenseTag.mk "doctor" HEALTH;
   ExpenseTag.mk "books" EDUCATION;
   ExpenseTag.mk "shopping" SHOPPING;
   ExpenseTag.mk "mutual fund" INVESTMENT;
   ExpenseTag.mk "flight" TRAVEL].

Definition _initialize_default_tags
    (tags : list (string * ExpenseTag.t)) : list (string * ExpenseTag.t) :=
  fold_left (fun tags tag => odict_set (ExpenseTag.name tag) tag tags)
            default_tags tags.

Definition __init__ (name : string) (default_currency : Currency) : t :=
  mk name default_currency [] ∅ (_initialize_default_tags [])
     ["Cash"; "Credit Card"; "Debit Card"; "UPI"; "Bank Transfer"; "Wallet"]%string.

Fixpoint _categorize_from_tags (registry : list (string * ExpenseTag.t))
    (tags : list string) : option ExpenseCategory :=
  match tags with
  | [] => None
  | tag :: tags' =>
      match odict_get tag registry with
      | Some entry => Some (ExpenseTag.category entry)
      | None => _categorize_from_tags registry tags'
      end
  end.

(** The [for tag_name, tag in self.tags.items()] loop, over the lower-cased
    description. *)
Fixpoint description_scan (description_lower : string)
    (items : list (string * ExpenseTag.t)) : ExpenseCategory :=
  match items with
  | [] => OTHER
  | (tag_name, tag) :: items' =>
      if str_in tag_name description_lower then ExpenseTag.category tag
      else description_scan description_lower items'
  end.

Definition _categorize_from_description
    (registry : list (string * ExpenseTag.t)) (description : string)
    : ExpenseCategory :=
  let description_lower := lower description in
  description_scan description_lower registry.

(** [add_expense].  [today] stands for [datetime.date.today()].  The new
    state comes first: the expense is appended before the budget is
    notified, so it stays in the ledger when the notification raises. *)
Definition add_expense (rates : gmap string Q) (today : datetime.date)
    (self : t) (amount : Q) (description : string)
    (date : option datetime.date) (category : option ExpenseCategory)
    (currency : option Currency) (is_recurring : bool)
    (recurring_period_days : Z) (tags : option (list string))
    (payment_method : option string)
    : t * result (Expense.t * list Alert) :=
  let date := default today date in
  let currency := default (default_currency self) currency in
  let payment_method := default "Cash"%string payment_method in
  let tags := default [] tags in
  let category :=
    match category with
    | Some c => c
    | None =>
        match _categorize_from_tags (User.tags self) tags with
        | Some c => c
        | None => _categorize_from_description (User.tags self) description
        end
    end in
  let expense :=
    Expense.mk amount category description date currency is_recurring
               recurring_period_days tags payment_method in
  let self :=
    mk (name self) (default_currency self) (expenses self ++ [expense])
       (budgets self) (User.tags self) (payment_methods self) in
  match budgets self !! category with
  | Some budget =>
      match Budget.add_spending rates budget amount currency with
      | Ok (budget, alerts) =>
          (mk (name self) (default_currency self) (expenses self)
              (<[category := budget]> (budgets self)) (User.tags self)
              (payment_methods self),
           Ok (expense, alerts))
      | Raise e => (self, Raise e)
      end
  | None => (self, Ok (expense, []))
  end.

Definition set_budget (self : t) (category : ExpenseCategory)
    (monthly_limit : Q) (currency : option Currency) (alert_threshold : Q) : t :=
  let currency := default (default_currency self) currency in
  mk (name self) (default_currency self) (expenses self)
     (<[category := Budget.__init__ category monthly_limit currency alert_threshold]>
        (budgets self))
     (tags self) (payment_methods self).

Definition add_tag (self : t) (name : string) (category : ExpenseCategory) : t :=
  mk (User.name self) (default_currency self) (expenses self) (budgets self)
     (odict_set name (ExpenseTag.mk name category) (tags self))
     (payment_methods self).

(** [d[k] += amount] on a per-category table. *)
Definition bucket_add (k : ExpenseCategory) (amount : Q)
    (d : list (ExpenseCategory * Q)) : result (list (ExpenseCategory * Q)) :=
  match odict_get k d with
  | Some v => Ok (odict_set k (v + amount) d)
  | None => Raise KeyError
  end.

(** [{category: 0.0 for category in ExpenseCategory}] *)
Definition zero_buckets : list (ExpenseCategory * Q) :=
  map (fun category => (category, 0)) all_categories.

(** [expense.amount if expense.currency == target_currency else
    converter.convert(...)] *)
Definition amount_in (rates : gmap string Q) (target_currency : Currency)
    (expense : Expense.t) : result Q :=
  if decide (Expense.currency expense = target_currency)
  then Ok (Expense.amount expense)
  else CurrencyConverter.convert rates (Expense.amount expense)
         (Expense.currency expense) target_currency.

(** The two date guards of the breakdown loop: [true] when the expense is
    skipped by a [continue]. *)
Definition breakdown_skips (start_date end_date : option datetime.date)
    (expense : Expense.t) : bool :=
  match start_date with
  | Some s => datetime.ltb (Expense.date expense) s
  | None => false
  end
  || match end_date with
     | Some e => datetime.ltb e (Expense.date expense)
     | None => false
     end.

Fixpoint breakdown_loop (rates : gmap string Q) (target_currency : Currency)
    (start_date end_date : option datetime.date) (expenses : list Expense.t)
    (breakdown : list (ExpenseCategory * Q))
    : result (list (ExpenseCategory * Q)) :=
  match expenses with
  | [] => Ok breakdown
  | expense :: rest =>
      if breakdown_skips start_date end_date expense
      then breakdown_loop rates target_currency start_date end_date rest breakdown
      else
        amount ← amount_in rates target_currency expense;
        breakdown ← bucket_add (Expense.category expense) amount breakdown;
        breakdown_loop rates target_currency start_date end_date rest breakdown
  end.

Definition get_spending_breakdown (rates : gmap string Q) (self : t)
    (target_currency : option Currency)
    (start_date end_date : option datetime.date)
    : result (list (ExpenseCategory * Q)) :=
  let target_currency := default (default_currency self) target_currency in
  let breakdown := zero_buckets in
  breakdown ← breakdown_loop rates target_currency start_date end_date
                (expenses self) breakdown;
  Ok (List.filter (fun kv => Qlt_bool 0 (snd kv)) breakdown).

Definition get_recurring_expenses (self : t) : list Expense.t :=
  List.filter Expense.is_recurring (expenses self).

End User.

(** ** ReportGenerator: the month-bucketed trend table *)

Module ReportGenerator.

(** [min(expense.date for expense in user.expenses)] and its [max] twin;
    both raise [ValueError] on an empty ledger. *)
Definition min_date (expenses : list Expense.t) : result datetime.date :=
  match expenses with
  | [] => Raise ValueError
  | e :: rest =>
      Ok (fold_left
            (fun best x => if datetime.ltb (Expense.date x) best
                           then Expense.date x else best)
            rest (Expense.date e))
  end.

Definition max_date (expenses : list Expense.t) : result datetime.date :=
  match expenses with
  | [] => Raise ValueError
  | e :: rest =>
      Ok (fold_left
            (fun best x => if datetime.ltb best (Expense.date x)
                           then Expense.date x else best)
            rest (Expense.date e))
  end.

(** "Move to next month": the two constructor calls of lines 396-399. *)
Definition next_month (current_date : datetime.date) : result datetime.date :=
  if (datetime.month current_date =? 12)%Z
  then datetime.date__new__ (datetime.year current_date + 1) 1 1
  else datetime.date__new__ (datetime.year current_date)
                            (datetime.month current_date + 1) 1.

(** The [while current_date <= end_date] loop, bounded by [fuel];
    [None] means the bound was hit before the loop condition failed or a
    constructor call raised. *)
Fixpoint month_loop (fuel : nat) (current_date end_date : datetime.date)
    (monthly_data : list ((Z * Z) * list (ExpenseCategory * Q)))
    : option (result (list ((Z * Z) * list (ExpenseCategory * Q)))) :=
  match fuel with
  | O => None
  | S fuel' =>
      if datetime.leb current_date end_date
      then
        let monthly_data :=
          odict_set (datetime.year current_date, datetime.month current_date)
                    User.zero_buckets monthly_data in
        match next_month current_date with
        | Ok current_date => month_loop fuel' current_date end_date monthly_data
        | Raise e => Some (Raise e)
        end
      else Some (Ok monthly_data)
  end.

(** The [for expense in user.expenses] loop that fills the buckets. *)
Fixpoint trend_loop (rates : gmap string Q) (target_currency : Currency)
    (start_date end_date : datetime.date) (expenses : list Expense.t)
    (monthly_data : list ((Z * Z) * list (ExpenseCategory * Q)))
    : result (list ((Z * Z) * list (ExpenseCategory * Q))) :=
  match expenses with
  | [] => Ok monthly_data
  | expense :: rest =>
      if datetime.ltb (Expense.date expense) start_date
         || datetime.ltb end_date (Expense.date expense)
      then trend_loop rates target_currency start_date end_date rest monthly_data
      else
        let year_month :=
          (datetime.year (Expense.date expense),
           datetime.month (Expense.date expense)) in
        amount ← User.amount_in rates target_currency expense;
        match odict_get year_month monthly_data with
        | None => Raise KeyError
        | Some bucket =>
            bucket ← User.bucket_add (Expense.category expense) amount bucket;
            trend_loop rates target_currency start_date end_date rest
                       (odict_set year_month bucket monthly_data)
        end
  end.

(** [generate_spending_trend] up to the table [monthly_data] it hands to
    the plotting calls (lines 378-408). *)
Definition generate_spending_trend (fuel : nat) (rates : gmap string Q)
    (user : User.t) (target_currency : option Currency)
    (start_date end_date : option datetime.date)
    : option (result (list ((Z * Z) * list (ExpenseCategory * Q)))) :=
  let target_currency := default (User.default_currency user) target_currency in
  let start_date :=
    match start_date with
    | Some d => Ok d
    | None => min_date (User.expenses user)
    end in
  match start_date with
  | Raise e => Some (Raise e)
  | Ok start_date =>
      let end_date :=
        match end_date with
        | Some d => Ok d
        | None => max_date (User.expenses user)
        end in
      match end_date with
      | Raise e => Some (Raise e)
      | Ok end_date =>
          match month_loop fuel start_date end_date [] with
          | None => None
          | Some (Raise e) => Some (Raise e)
          | Some (Ok monthly_data) =>
              Some (trend_loop rates target_currency start_date end_date
                               (User.expenses user) monthly_data)
          end
      end
  end.

End ReportGenerator.

(** ** Sequences of calls on one budget *)

(** One [add_spending] call as the object's owner sees it: the rate table in
    force, the amount and its currency.  A call that raises has not touched
    the budget (the conversion is the first statement) and has printed
    nothing. *)
Definition Budget_step (b : Budget.t) (call : gmap string Q * Q * Currency)
    : Budget.t * list Alert :=
  let '(rates, amount, expense_currency) := call in
  match Budget.add_spending rates b amount expense_currency with
  | Ok (b', alerts) => (b', alerts)
  | Raise _ => (b, [])
  end.

(** The budget after a sequence of calls, with what each call printed. *)
Fixpoint Budget_run (b : Budget.t) (calls : list (gmap string Q * Q * Currency))
    : Budget.t * list (list Alert) :=
  match calls with
  | [] => (b, [])
  | call :: rest =>
      let '(b1, alerts) := Budget_step b call in
      let '(b2, outs) := Budget_run b1 rest in
      (b2, alerts :: outs)
  end.

(** A call whose converted amount, when the conversion returns, is not
    negative. *)
Definition call_converted_nonneg (policy_currency : Currency)
    (call : gmap string Q * Q * Currency) : Prop :=
  let '(rates, amount, expense_currency) := call in
  forall converted,
    CurrencyConverter.convert rates amount expense_currency policy_currency
    = Ok converted ->
    0 <= converted.

(** A call with a non-negative amount, made while the rates of the expense's
    currency and of the policy's currency (where the table has them) are
    strictly positive. *)
Definition call_nonneg_input (policy_currency : Currency)
    (call : gmap string Q * Q * Currency) : Prop :=
  let '(rates, amount, expense_currency) := call in
  0 <= amount
  /\ (forall r, rates !! Currency_name expense_currency = Some r -> 0 < r)
  /\ (forall r, rates !! Currency_name policy_currency = Some r -> 0 < r).

(** ** Classification, in the words of the specification *)

(** "[name] appears as a case-insensitive substring of [description]". *)
Definition ci_substring (name description : string) : bool :=
  str_in (lower name) (lower description).

(** ** Aggregation, in the words of the specification *)

Definition Qsum (l : list Q) : Q := fold_right Qplus 0 l.

(** A date lies within the inclusive bounds; an omitted bound is no bound. *)
Definition within (start_date end_date : option datetime.date)
    (d : datetime.date) : Prop :=
  (forall s, start_date = Some s -> datetime.le s d)
  /\ (forall t, end_date = Some t -> datetime.le d t).

(** The records an aggregation does not skip. *)
Definition included (start_date end_date : option datetime.date)
    (expenses : list Expense.t) : list Expense.t :=
  List.filter (fun e => negb (User.breakdown_skips start_date end_date e)) expenses.

(** The converted amount of a record: what the converter returns for its
    amount, from its currency into the target currency (0 where the
    conversion raises; the statements below only use it where it does
    not). *)
Definition converted (rates : gmap string Q) (target_currency : Currency)
    (e : Expense.t) : Q :=
  match CurrencyConverter.convert rates (Expense.amount e)
          (Expense.currency e) target_currency with
  | Ok a => a
  | Raise _ => 0
  end.

(** Whether the conversion of a record into the target currency returns. *)
Definition converts (rates : gmap string Q) (target_currency : Currency)
    (e : Expense.t) : bool :=
  match CurrencyConverter.convert rates (Expense.amount e)
          (Expense.currency e) target_currency with
  | Ok _ => true
  | Raise _ => false
  end.

(** A running total: the amounts added to [start] one at a time, in list
    order, as repeated [+=] does. *)
Definition running_total (start : Q) (amounts : list Q) : Q :=
  fold_left Qplus amounts start.

Definition of_category (c : ExpenseCategory) (expenses : list Expense.t)
    : list Expense.t :=
  List.filter (fun e => bool_decide (Expense.category e = c)) expenses.

(** Total converted spend of a category over a list of records. *)
Definition category_total (rates : gmap string Q) (target_currency : Currency)
    (expenses : list Expense.t) (c : ExpenseCategory) : Q :=
  Qsum (map (converted rates target_currency) (of_category c expenses)).

(** The records of a category that a budget kept in [target_currency]
    counts: those whose conversion into that currency returns. *)
Definition counted (rates : gmap string Q) (target_currency : Currency)
    (c : ExpenseCategory) (expenses : list Expense.t) : list Expense.t :=
  List.filter (fun e => bool_decide (Expense.category e = c)
                        && converts rates target_currency e) expenses.

(** The accumulated total of a category: the converted amounts of its
    records, in ledger order, added one at a time to 0. *)
Definition category_running_total (rates : gmap string Q)
    (target_currency : Currency) (expenses : list Expense.t)
    (c : ExpenseCategory) : Q :=
  running_total 0 (map (converted rates target_currency) (of_category c expenses)).

Definition year_month (e : Expense.t) : Z * Z :=
  (datetime.year (Expense.date e), datetime.month (Expense.date e)).

Definition of_month (ym : Z * Z) (expenses : list Expense.t) : list Expense.t :=
  List.filter (fun e => bool_decide (year_month e = ym)) expenses.

(** Months counted from year 0: the calendar months between two dates are
    the consecutive indices between theirs. *)
Definition month_index (y m : Z) : Z := 12 * y + (m - 1).

Definition month_of_index (i : Z) : Z * Z := ((i / 12)%Z, (i mod 12 + 1)%Z).

Definition months_between (start_date end_date : datetime.date) : list (Z * Z) :=
  let first := month_index (datetime.year start_date) (datetime.month start_date) in
  let last := month_index (datetime.year end_date) (datetime.month end_date) in
  map month_of_index (seqZ first (last - first + 1)).

(** The amount a per-category table holds for a category. *)
Definition bucket_value (c : ExpenseCategory)
    (bucket : list (ExpenseCategory * Q)) : Q :=
  default 0 (odict_get c bucket).

(** Number of calendar months from the month of [start_date] through the
    month of [end_date]: more fuel than this lets the month loop run to its
    own exit. *)
Definition months_span (start_date end_date : datetime.date) : nat :=
  Z.to_nat (month_index (datetime.year end_date) (datetime.month end_date)
            - month_index (datetime.year start_date) (datetime.month start_date)
            + 1).

(** The table the month loop is expected to build: one empty bucket per
    month, in order. *)
Definition empty_months (months : list (Z * Z))
    : list ((Z * Z) * list (ExpenseCategory * Q)) :=
  map (fun ym => (ym, User.zero_buckets)) months.

(** The accumulated amount of a category within one calendar month: the
    converted amounts of the records of that month and category, in ledger
    order, added one at a time to 0. *)
Definition month_category_running_total (rates : gmap string Q)
    (target_currency : Currency) (expenses : list Expense.t)
    (ym : Z * Z) (c : ExpenseCategory) : Q :=
  running_total 0 (map (converted rates target_currency)
                       (of_month ym (of_category c expenses))).

(** The last calendar month a date can lie in. *)
Definition last_month : Z * Z := (datetime.MAXYEAR, 12%Z).

(** ** A small ledger for the worked examples *)

Definition example_today : datetime.date := datetime.mkDate 2024 5 17.

Definition example_user : User.t :=
  let rates := CurrencyConverter._rates in
  let u := User.__init__ "asha" INR in
  let u := fst (User.add_expense rates example_today u 100 "groceries"
                  (Some (datetime.mkDate 2024 1 20)) None None
                  false 0 None None) in
  let u := fst (User.add_expense rates example_today u 30 "flight to Goa"
                  (Some (datetime.mkDate 2024 3 5)) None (Some USD)
                  false 0 None None) in
  fst (User.add_expense rates example_today u 45 "books"
         (Some (datetime.mkDate 2023 12 30)) None None false 0 None None).

(** * More of the program *)

From Stdlib Require Import Sorted.

(** ** Names and labels of the enumerations *)

(** [ExpenseCategory.name] and [ExpenseCategory.value] *)
Definition ExpenseCategory_name (c : ExpenseCategory) : string :=
  match c with
  | FOOD => "FOOD" | TRANSPORTATION => "TRANSPORTATION" | HOUSING => "HOUSING"
  | ENTERTAINMENT => "ENTERTAINMENT" | UTILITIES => "UTILITIES"
  | HEALTH => "HEALTH" | EDUCATION => "EDUCATION" | SHOPPING => "SHOPPING"
  | INVESTMENT => "INVESTMENT" | TRAVEL => "TRAVEL" | OTHER => "OTHER"
  end.

Definition ExpenseCategory_value (c : ExpenseCategory) : string :=
  match c with
  | FOOD => "Food" | TRANSPORTATION => "Transportation" | HOUSING => "Housing"
  | ENTERTAINMENT => "Entertainment" | UTILITIES => "Utilities"
  | HEALTH => "Health" | EDUCATION => "Education" | SHOPPING => "Shopping"
  | INVESTMENT => "Investment" | TRAVEL => "Travel" | OTHER => "Other"
  end.

(** Iteration order of [for currency in Currency]. *)
Definition all_currencies : list Currency :=
  [INR; USD; EUR; GBP; JPY; CAD; AUD; SGD].

(** [ExpenseCategory[s]] and [Currency[s]]: [None] is the [KeyError]. *)
Definition ExpenseCategory_of_name (s : string) : option ExpenseCategory :=
  List.find (fun c => bool_decide (ExpenseCategory_name c = s)) all_categories.

Definition Currency_of_name (s : string) : option Currency :=
  List.find (fun c => bool_decide (Currency_name c = s)) all_currencies.

(** ** More of User and of the tag menu *)

(** [del d[k]] *)
Definition odict_del {K V : Type} `{EqDecision K} (k : K) (d : list (K * V))
    : list (K * V) :=
  List.filter (fun kv => negb (bool_decide (fst kv = k))) d.

(** [User.get_expenses_by_tag] *)
Definition User_get_expenses_by_tag (self : User.t) (tag : string)
    : list Expense.t :=
  List.filter (fun expense => bool_decide (tag ∈ Expense.tags expense))
              (User.expenses self).

(** The arguments of one [add_expense] call. *)
Record ExpenseRequest : Type := mkRequest {
  req_amount : Q;
  req_description : string;
  req_date : option datetime.date;
  req_category : option ExpenseCategory;
  req_currency : option Currency;
  req_is_recurring : bool;
  req_recurring_period_days : Z;
  req_tags : option (list string);
  req_payment_method : option string
}.

Definition User_request (rates : gmap string Q) (today : datetime.date)
    (u : User.t) (r : ExpenseRequest) : User.t * result (Expense.t * list Alert) :=
  User.add_expense rates today u (req_amount r) (req_description r)
    (req_date r) (req_category r) (req_currency r) (req_is_recurring r)
    (req_recurring_period_days r) (req_tags r) (req_payment_method r).

(** A run of [add_expense] calls whose caller, like the menu, carries on
    after a call that raised. *)
Definition User_requests (rates : gmap string Q) (today : datetime.date)
    (u : User.t) (rs : list ExpenseRequest) : User.t :=
  fold_left (fun u r => fst (User_request rates today u r)) rs u.

(** ** More of ReportGenerator *)

(** One row of the CSV export.  [Date] is kept as the date that
    [isoformat] renders; [Tags] is the [", "]-joined tag list. *)
Record CsvRow : Type := mkCsvRow {
  csv_Date : datetime.date;
  csv_Amount : Q;
  csv_Currency : string;
  csv_Category : string;
  csv_Description : string;
  csv_Payment_Method : string;
  csv_Is_Recurring : bool;
  csv_Recurring_Period : Z;
  csv_Tags : string
}.

(** The [for expense in user.expenses] loop of [generate_csv_report]. *)
Fixpoint csv_loop (rates : gmap string Q) (target_currency : Currency)
    (start_date end_date : option datetime.date) (expenses : list Expense.t)
    (expenses_to_export : list CsvRow) : result (list CsvRow) :=
  match expenses with
  | [] => Ok expenses_to_export
  | expense :: rest =>
      if User.breakdown_skips start_date end_date expense
      then csv_loop rates target_currency start_date end_date rest
                    expenses_to_export
      else
        amount ← User.amount_in rates target_currency expense;
        csv_loop rates target_currency start_date end_date rest
          (expenses_to_export
           ++ [mkCsvRow (Expense.date expense) amount
                 (Currency_name target_currency)
                 (ExpenseCategory_value (Expense.category expense))
                 (Expense.description expense)
                 (Expense.payment_method expense)
                 (Expense.is_recurring expense)
                 (Expense.recurring_period_days expense)
                 (String.concat ", " (Expense.tags expense))])
  end.

(** [generate_csv_report] up to the rows it hands to the CSV writer;
    [None] is the "No expenses to export" return, taken before any file is
    opened. *)
Definition ReportGenerator_generate_csv_report (rates : gmap string Q)
    (user : User.t) (target_currency : option Currency)
    (start_date end_date : option datetime.date)
    : result (option (list CsvRow)) :=
  let target_currency := default (User.default_currency user) target_currency in
  expenses_to_export ← csv_loop rates target_currency start_date end_date
                         (User.expenses user) [];
  match expenses_to_export with
  | [] => Ok None
  | _ => Ok (Some expenses_to_export)
  end.

(** [sum(values)]: Python adds from the left, starting at 0. *)
Definition py_sum (l : list Q) : Q := fold_left Qplus l 0.

(** [sorted(items, key=lambda x: x[1], reverse=True)]: descending by
    amount, items of equal amount in their original order. *)
Fixpoint insert_desc {K : Type} (x : K * Q) (l : list (K * Q)) : list (K * Q) :=
  match l with
  | [] => [x]
  | y :: l' =>
      if Qlt_bool (snd x) (snd y) then y :: insert_desc x l' else x :: y :: l'
  end.

Definition sorted_desc {K : Type} (l : list (K * Q)) : list (K * Q) :=
  fold_right insert_desc [] l.

(** The category lines of [generate_text_report]: category, amount and
    percentage of the total, in the order they are printed. *)
Definition report_category_lines (breakdown : list (ExpenseCategory * Q))
    : list (ExpenseCategory * Q * Q) :=
  let total := py_sum (map snd breakdown) in
  map (fun '(category, amount) =>
         let percentage :=
           if Qlt_bool 0 total then (amount / total) * 100 else 0 in
         (category, amount, percentage))
      (sorted_desc breakdown).

(** ** ExpenseTrackerApp *)

(** What [save_data] writes and [load_data] reads, after JSON parsing:
    enumeration members by name, dates as the dates their ISO text denotes,
    optional keys as options. *)
Record ExpenseData : Type := mkExpenseData {
  d_amount : Q;
  d_description : string;
  d_date : datetime.date;
  d_category : string;
  d_currency : string;
  d_is_recurring : bool;
  d_recurring_period_days : Z;
  d_tags : option (list string);
  d_payment_method : option string
}.

Record BudgetData : Type := mkBudgetData {
  bd_category : string;
  bd_monthly_limit : Q;
  bd_currency : string;
  bd_alert_threshold : option Q
}.

Record Snapshot : Type := mkSnapshot {
  s_name : string;
  s_default_currency : string;
  s_expenses : list ExpenseData;
  s_budgets : list BudgetData;
  s_tags : list (string * string)
}.

(** [l[i]] on a Python list: negative indices count from the end; [None]
    is the [IndexError]. *)
Definition py_index {A : Type} (l : list A) (i : Z) : option A :=
  let n := Z.of_nat (length l) in
  if (0 <=? i)%Z then nth_error l (Z.to_nat i)
  else if (- n <=? i)%Z then nth_error l (Z.to_nat (n + i))
  else None.

Module ExpenseTrackerApp.

(** Choice 3 of [manage_tags]: delete the tag if it is registered; the
    boolean tells whether it was ("Tag not found" otherwise). *)
Definition delete_tag (u : User.t) (tag_name : string) : User.t * bool :=
  match odict_get tag_name (User.tags u) with
  | Some _ =>
      (User.mk (User.name u) (User.default_currency u) (User.expenses u)
               (User.budgets u) (odict_del tag_name (User.tags u))
               (User.payment_methods u),
       true)
  | None => (u, false)
  end.

(** The numbered menus of [set_budget], [generate_reports], [manage_tags]
    and [add_expense]: the item picked for the number typed,
    [items[int(choice) - 1]]. *)
Definition menu_pick {A : Type} (items : list A) (choice : Z) : option A :=
  py_index items (choice - 1).

(** The currency the menu's [add_expense] records an expense in. *)
Fixpoint expense_currency (default_currency : Currency) (tags : list string)
    : Currency :=
  match tags with
  | [] => default_currency
  | tag :: rest =>
      if bool_decide (tag ∈ ["travel"; "flight"; "hotel"]%string) then USD
      else expense_currency default_currency rest
  end.

(** The entries [save_data] writes for an expense, a budget and a tag. *)
Definition expense_entry (expense : Expense.t) : ExpenseData :=
  mkExpenseData (Expense.amount expense) (Expense.description expense)
    (Expense.date expense)
    (ExpenseCategory_name (Expense.category expense))
    (Currency_name (Expense.currency expense))
    (Expense.is_recurring expense)
    (Expense.recurring_period_days expense)
    (Some (Expense.tags expense))
    (Some (Expense.payment_method expense)).

Definition budget_entry (item : ExpenseCategory * Budget.t) : BudgetData :=
  let '(category, budget) := item in
  mkBudgetData (ExpenseCategory_name category)
    (Budget.monthly_limit budget)
    (Currency_name (Budget.currency budget))
    (Some (Budget.alert_threshold budget)).

Definition tag_entry (item : string * ExpenseTag.t) : string * string :=
  let '(tag_name, tag) := item in
  (tag_name, ExpenseCategory_name (ExpenseTag.category tag)).

(** [save_data] for a current user.  The budgets are listed in the order
    of the map, which a reload does not observe. *)
Definition save_data (u : User.t) : Snapshot :=
  mkSnapshot (User.name u) (Currency_name (User.default_currency u))
    (map expense_entry (User.expenses u))
    (map budget_entry (map_to_list (User.budgets u)))
    (map tag_entry (User.tags u)).

(** The three loops of [load_data].  Each stops at the first entry whose
    enumeration name is unknown ([Raise KeyError]) and hands back the user
    as mutated so far. *)
Fixpoint load_expenses (rates : gmap string Q) (today : datetime.date)
    (u : User.t) (l : list ExpenseData) : User.t * result unit :=
  match l with
  | [] => (u, Ok tt)
  | exp_data :: rest =>
      match ExpenseCategory_of_name (d_category exp_data) with
      | None => (u, Raise KeyError)
      | Some category =>
          match Currency_of_name (d_currency exp_data) with
          | None => (u, Raise KeyError)
          | Some currency =>
              match User.add_expense rates today u (d_amount exp_data)
                      (d_description exp_data) (Some (d_date exp_data))
                      (Some category) (Some currency)
                      (d_is_recurring exp_data)
                      (d_recurring_period_days exp_data)
                      (Some (default [] (d_tags exp_data)))
                      (Some (default "Cash"%string (d_payment_method exp_data)))
              with
              | (u, Ok _) => load_expenses rates today u rest
              | (u, Raise e) => (u, Raise e)
              end
          end
      end
  end.

Fixpoint load_budgets (u : User.t) (l : list BudgetData) : User.t * result unit :=
  match l with
  | [] => (u, Ok tt)
  | budget_data :: rest =>
      match ExpenseCategory_of_name (bd_category budget_data) with
      | None => (u, Raise KeyError)
      | Some category =>
          match Currency_of_name (bd_currency budget_data) with
          | None => (u, Raise KeyError)
          | Some currency =>
              load_budgets
                (User.set_budget u category (bd_monthly_limit budget_data)
                   (Some currency)
                   (default 80 (bd_alert_threshold budget_data)))
                rest
          end
      end
  end.

Fixpoint load_tags (u : User.t) (l : list (string * string))
    : User.t * result unit :=
  match l with
  | [] => (u, Ok tt)
  | (tag_name, category_name) :: rest =>
      match ExpenseCategory_of_name category_name with
      | None => (u, Raise KeyError)
      | Some category =>
          load_tags
            (User.mk (User.name u) (User.default_currency u) (User.expenses u)
                     (User.budgets u)
                     (odict_set tag_name (ExpenseTag.mk tag_name category)
                                (User.tags u))
                     (User.payment_methods u))
            rest
      end
  end.

(** [load_data] on a data file that exists and parses to [data]:
    the current user afterwards, and whether the load ran to its end
    ([false]: "Error loading data").  [current_user] is the user before
    the call. *)
Definition load_data (rates : gmap string Q) (today : datetime.date)
    (current_user : option User.t) (data : Snapshot) : option User.t * bool :=
  match Currency_of_name (s_default_currency data) with
  | None => (current_user, false)
  | Some default_currency =>
      let u := User.__init__ (s_name data) default_currency in
      match load_expenses rates today u (s_expenses data) with
      | (u, Raise _) => (Some u, false)
      | (u, Ok _) =>
          match load_budgets u (s_budgets data) with
          | (u, Raise _) => (Some u, false)
          | (u, Ok _) =>
              match load_tags u (s_tags data) with
              | (u, Raise _) => (Some u, false)
              | (u, Ok _) => (Some u, true)
              end
          end
      end
  end.

End ExpenseTrackerApp.

(** The users the program can build: a fresh one, then any of its
    mutating operations. *)
Inductive User_reachable : User.t -> Prop :=
  | reach_init name currency :
      User_reachable (User.__init__ name currency)
  | reach_add_expense rates today u r :
      User_reachable u ->
      User_reachable (fst (User_request rates today u r))
  | reach_set_budget u category monthly_limit currency alert_threshold :
      User_reachable u ->
      User_reachable (User.set_budget u category monthly_limit currency
                        alert_threshold)
  | reach_add_tag u name category :
      User_reachable u ->
      User_reachable (User.add_tag u name category)
  | reach_delete_tag u tag_name :
      User_reachable u ->
      User_reachable (fst (ExpenseTrackerApp.delete_tag u tag_name)).

(** The CSV row of a record, as the export loop builds it. *)
Definition csv_row (rates : gmap string Q) (target_currency : Currency)
    (expense : Expense.t) : CsvRow :=
  mkCsvRow (Expense.date expense) (converted rates target_currency expense)
    (Currency_name target_currency)
    (ExpenseCategory_value (Expense.category expense))
    (Expense.description expense) (Expense.payment_method expense)
    (Expense.is_recurring expense) (Expense.recurring_period_days expense)
    (String.concat ", " (Expense.tags expense)).

(** What a reload makes of a saved policy: a fresh policy with the saved
    limit, currency and threshold. *)
Definition reloaded_budget (category : ExpenseCategory) (budget : Budget.t)
    : Budget.t :=
  Budget.__init__ category (Budget.monthly_limit budget)
    (Budget.currency budget) (Budget.alert_threshold budget).

(** * Properties *)

(** ** CurrencyConverter.convert *)

Lemma convert_same (rates : gmap string Q) (x : Q) (c : Currency) :
  CurrencyConverter.convert rates x c c = Ok x.
Proof. unfold CurrencyConverter.convert. by rewrite decide_True. Qed.

Lemma convert_missing (rates : gmap string Q) (x : Q) (c1 c2 : Currency) :
  c1 <> c2 ->
  rates !! Currency_name c1 = None \/ rates !! Currency_name c2 = None ->
  CurrencyConverter.convert rates x c1 c2 = Raise ValueError.
Proof.
  intros Hne Habs. unfold CurrencyConverter.convert.
  rewrite decide_False by exact Hne.
  destruct Habs as [-> | H2]; [reflexivity |].
  rewrite H2. by destruct (rates !! Currency_name c1).
Qed.

Lemma convert_present (rates : gmap string Q) (x : Q) (c1 c2 : Currency)
    (r1 r2 : Q) :
  c1 <> c2 ->
  rates !! Currency_name c1 = Some r1 ->
  rates !! Currency_name c2 = Some r2 ->
  CurrencyConverter.convert rates x c1 c2 =
    if Qeq_bool r1 0 then Raise ZeroDivisionError else Ok (x / r1 * r2).
Proof.
  intros Hne H1 H2. unfold CurrencyConverter.convert.
  rewrite decide_False by exact Hne. by rewrite H1, H2.
Qed.

(** C6.  For every currency [c], every amount [x] and every state of the rate
    table, [convert x c c] hands back [x] itself: the early return runs before
    any table lookup or arithmetic. *)
Theorem convert_identity_exact (rates : gmap string Q) (x : Q) (c : Currency) :
  CurrencyConverter.convert rates x c c = Ok x.
Proof. apply convert_same. Qed.

(** C4, against the claim as written: both codes have an entry, the
    currencies differ, and the call raises [ZeroDivisionError] instead of
    returning, because the source currency's rate is zero. *)
Lemma convert_zero_rate_counterexample :
  let rates : gmap string Q := <["USD"%string := 0]> CurrencyConverter._rates in
  USD <> INR
  /\ rates !! Currency_name USD = Some 0
  /\ rates !! Currency_name INR = Some 1
  /\ CurrencyConverter.convert rates 5 USD INR = Raise ZeroDivisionError.
Proof. repeat split; try discriminate; vm_compute; reflexivity. Qed.

(** C4, amended.  For distinct currencies whose codes both have an entry in
    the rate table, [convert] returns exactly [x / rate[from] * rate[to]]
    provided [rate[from]] is not zero, and raises [ZeroDivisionError] when it
    is; if either code has no entry it raises [ValueError] (the
    unsupported-currency failure). *)
Theorem convert_distinct_currencies (rates : gmap string Q) (x : Q)
    (from_currency to_currency : Currency) :
  from_currency <> to_currency ->
  (forall rate_from rate_to,
      rates !! Currency_name from_currency = Some rate_from ->
      rates !! Currency_name to_currency = Some rate_to ->
      ~ rate_from == 0 ->
      CurrencyConverter.convert rates x from_currency to_currency
      = Ok (x / rate_from * rate_to))
  /\ (forall rate_from rate_to,
      rates !! Currency_name from_currency = Some rate_from ->
      rates !! Currency_name to_currency = Some rate_to ->
      rate_from == 0 ->
      CurrencyConverter.convert rates x from_currency to_currency
      = Raise ZeroDivisionError)
  /\ (rates !! Currency_name from_currency = None
      \/ rates !! Currency_name to_currency = None ->
      CurrencyConverter.convert rates x from_currency to_currency
      = Raise ValueError).
Proof.
  intros Hne. split; [| split].
  - intros r1 r2 H1 H2 Hnz. rewrite (convert_present _ _ _ _ _ _ Hne H1 H2).
    destruct (Qeq_bool r1 0) eqn:E; [| reflexivity].
    apply Qeq_bool_iff in E. contradiction.
  - intros r1 r2 H1 H2 Hz. rewrite (convert_present _ _ _ _ _ _ Hne H1 H2).
    apply Qeq_bool_iff in Hz. by rewrite Hz.
  - apply convert_missing, Hne.
Qed.

Lemma convert_distinct_currencies_witness :
  CurrencyConverter.convert CurrencyConverter._rates 100 INR USD
  = Ok (100 / 1 * (12 # 1000)).
Proof.
  refine (proj1 (convert_distinct_currencies CurrencyConverter._rates 100
                   INR USD _) 1 (12 # 1000) _ _ _).
  - discriminate.
  - vm_compute; reflexivity.
  - vm_compute; reflexivity.
  - intros H; discriminate H.
Defined.

(** C5, against the claim as written: with [from == to] the call returns the
    amount even though the code has no entry in the table. *)
Lemma convert_same_absent_counterexample :
  (∅ : gmap string Q) !! Currency_name USD = None
  /\ CurrencyConverter.convert ∅ 7 USD USD = Ok 7.
Proof. split; vm_compute; reflexivity. Qed.

(** C5, amended.  When the two currencies differ and at least one code is
    absent from the rate table, [convert] raises [ValueError] and the error
    propagates out of [Budget.add_spending], which returns no new budget
    state; when the two currencies are equal [convert] returns the amount
    whatever the table holds. *)
Theorem convert_unsupported_currency (rates : gmap string Q) (x : Q)
    (from_currency to_currency : Currency) :
  (from_currency <> to_currency ->
   rates !! Currency_name from_currency = None
   \/ rates !! Currency_name to_currency = None ->
   CurrencyConverter.convert rates x from_currency to_currency = Raise ValueError
   /\ forall b : Budget.t,
        Budget.currency b = to_currency ->
        Budget.add_spending rates b x from_currency = Raise ValueError)
  /\ (from_currency = to_currency ->
      CurrencyConverter.convert rates x from_currency to_currency = Ok x).
Proof.
  split.
  - intros Hne Habs.
    pose proof (convert_missing rates x _ _ Hne Habs) as Hc.
    split; [exact Hc |].
    intros b <-. unfold Budget.add_spending. by rewrite Hc.
  - intros ->. apply convert_same.
Qed.

Lemma convert_unsupported_currency_witness :
  CurrencyConverter.convert (delete "EUR"%string CurrencyConverter._rates)
    3 EUR INR = Raise ValueError.
Proof.
  refine (proj1 (proj1 (convert_unsupported_currency
                          (delete "EUR"%string CurrencyConverter._rates)
                          3 EUR INR) _ _)).
  - discriminate.
  - left. vm_compute; reflexivity.
Defined.

(** ** Budget.add_spending *)

(** What a returning call did: the converted amount went onto the running
    spend, every other field but the flag is as before, and either the alert
    fired (flag was down, threshold reached) or nothing was printed. *)
Lemma add_spending_inv (rates : gmap string Q) (b : Budget.t) (x : Q)
    (cur : Currency) (b' : Budget.t) (alerts : list Alert) :
  Budget.add_spending rates b x cur = Ok (b', alerts) ->
  exists conv,
    CurrencyConverter.convert rates x cur (Budget.currency b) = Ok conv
    /\ Budget.category b' = Budget.category b
    /\ Budget.monthly_limit b' = Budget.monthly_limit b
    /\ Budget.currency b' = Budget.currency b
    /\ Budget.alert_threshold b' = Budget.alert_threshold b
    /\ Budget.current_spending b' = Budget.current_spending b + conv
    /\ ((Budget.alerts_triggered b = false
         /\ Budget.alert_threshold b' <= Budget.percentage_used b'
         /\ Budget.alerts_triggered b' = true
         /\ alerts = [mkAlert (Budget.category b') (Budget.percentage_used b')
                              (Budget.remaining_budget b')])
        \/ ((Budget.alerts_triggered b = true
             \/ ~ Budget.alert_threshold b' <= Budget.percentage_used b')
            /\ Budget.alerts_triggered b' = Budget.alerts_triggered b
            /\ alerts = [])).
Proof.
  unfold Budget.add_spending.
  destruct (CurrencyConverter.convert rates x cur (Budget.currency b))
    as [conv | e]; simpl; [| discriminate].
  intros H. exists conv. split; [reflexivity |].
  destruct (Budget.alerts_triggered b) eqn:Eflag; simpl in H.
  - injection H as <- <-. simpl.
    repeat split; try reflexivity. right. auto.
  - match type of H with
    | (if Qle_bool ?t ?p then _ else _) = _ => destruct (Qle_bool t p) eqn:Ele
    end; injection H as <- <-; simpl.
    + repeat split; try reflexivity. left.
      apply Qle_bool_iff in Ele. repeat split; auto.
    + repeat split; try reflexivity. right.
      repeat split; auto. right. intros Hle.
      apply Qle_bool_iff in Hle. unfold Budget.percentage_used in *.
      simpl in *. congruence.
Qed.

Lemma add_spending_raise_iff (rates : gmap string Q) (b : Budget.t) (x : Q)
    (cur : Currency) (e : error) :
  Budget.add_spending rates b x cur = Raise e
  <-> CurrencyConverter.convert rates x cur (Budget.currency b) = Raise e.
Proof.
  unfold Budget.add_spending.
  destruct (CurrencyConverter.convert rates x cur (Budget.currency b))
    as [conv | e']; simpl.
  - split; [| discriminate].
    destruct (negb _ && _); discriminate.
  - split; intros [= ->]; reflexivity.
Qed.

Lemma Budget_step_inv (b : Budget.t) (rates : gmap string Q) (x : Q)
    (cur : Currency) (b' : Budget.t) (alerts : list Alert) :
  Budget_step b (rates, x, cur) = (b', alerts) ->
  Budget.add_spending rates b x cur = Ok (b', alerts)
  \/ ((exists e, Budget.add_spending rates b x cur = Raise e)
      /\ b' = b /\ alerts = []).
Proof.
  unfold Budget_step.
  destruct (Budget.add_spending rates b x cur) as [[b1 al] | e].
  - intros [= <- <-]. by left.
  - intros [= <- <-]. right. eauto.
Qed.

(** The flag after a step is the flag before, raised if the step printed;
    a step prints at most one alert, and none once the flag is up. *)
Lemma Budget_step_flag (b : Budget.t) (call : gmap string Q * Q * Currency)
    (b' : Budget.t) (alerts : list Alert) :
  Budget_step b call = (b', alerts) ->
  (Budget.alerts_triggered b' = true
   <-> Budget.alerts_triggered b = true \/ alerts <> [])
  /\ (length alerts <= if Budget.alerts_triggered b then 0 else 1)%nat.
Proof.
  destruct call as [[rates x] cur]. intros H.
  apply Budget_step_inv in H as [H | (_ & -> & ->)].
  - apply add_spending_inv in H
      as (conv & _ & _ & _ & _ & _ & _ &
          [(Hf & _ & Hf' & ->) | (_ & Hf' & ->)]).
    + rewrite Hf, Hf'. simpl. split; [| lia]. split; [| reflexivity].
      intros _. right. discriminate.
    + rewrite Hf'. simpl. split; [| destruct (Budget.alerts_triggered b); lia].
      split; [by left | intros [? | ?]; congruence].
  - simpl. split; [| destruct (Budget.alerts_triggered b); lia].
    split; [by left | intros [? | ?]; congruence].
Qed.

Lemma Budget_run_flag (calls : list (gmap string Q * Q * Currency)) :
  forall (b b' : Budget.t) (outs : list (list Alert)),
    Budget_run b calls = (b', outs) ->
    (Budget.alerts_triggered b' = true
     <-> Budget.alerts_triggered b = true \/ concat outs <> [])
    /\ (length (concat outs) <= if Budget.alerts_triggered b then 0 else 1)%nat.
Proof.
  induction calls as [| call rest IH]; intros b b' outs H; simpl in H.
  - injection H as <- <-. simpl. split; [| destruct (Budget.alerts_triggered b); lia].
    split; [by left | intros [? | ?]; congruence].
  - destruct (Budget_step b call) as [b1 alerts] eqn:Es.
    destruct (Budget_run b1 rest) as [b2 outs'] eqn:Er.
    injection H as <- <-.
    apply Budget_step_flag in Es as [Hs1 Hs2].
    apply IH in Er as [Hr1 Hr2].
    simpl. rewrite length_app. split.
    + rewrite Hr1, Hs1. split.
      * intros [[? | Ha] | Ho]; [by left | |]; right;
          intros Happ; apply app_eq_nil in Happ as [? ?]; contradiction.
      * intros [? | Hne]; [by left; left |].
        destruct alerts as [| a al]; [right; exact Hne | left; right; discriminate].
    + destruct (Budget.alerts_triggered b) eqn:Eb.
      * assert (Budget.alerts_triggered b1 = true) as E1 by (apply Hs1; by left).
        rewrite E1 in Hr2. lia.
      * destruct alerts as [| a al]; simpl in *.
        -- destruct (Budget.alerts_triggered b1); lia.
        -- assert (Budget.alerts_triggered b1 = true) as E1
             by (apply Hs1; right; discriminate).
           rewrite E1 in Hr2. lia.
Qed.

Lemma Budget_init_flag (c : ExpenseCategory) (l : Q) (cur : Currency) (thr : Q) :
  Budget.alerts_triggered (Budget.__init__ c l cur thr) = false.
Proof. reflexivity. Qed.

(** C1.  One-shot alert discipline of a budget policy.
    (1) At any point of any history of [add_spending] calls on a policy
        built by the constructor, a returning call emits an alert exactly
        when the usage percentage after adding the converted amount reaches
        the threshold and no earlier call of the history has emitted one; it
        emits at most that one alert, which carries the category, the
        percentage used and the remaining budget.
    (2) Once some call of the history has emitted an alert, no later call
        emits another, whatever is spent; a whole history emits at most one.
    (3) With limit 1000 and threshold 80: the call bringing the spend to 799
        emits nothing, the call bringing it to 800 emits exactly one alert
        (80 percent used, 200 remaining), and the calls taking it on to 1500
        emit nothing. *)
Theorem budget_alert_one_shot :
  (forall category monthly_limit currency alert_threshold history b outs,
      Budget_run (Budget.__init__ category monthly_limit currency alert_threshold)
                 history = (b, outs) ->
      forall rates amount expense_currency b' alerts,
        Budget.add_spending rates b amount expense_currency = Ok (b', alerts) ->
        (exists converted,
            CurrencyConverter.convert rates amount expense_currency
              (Budget.currency b) = Ok converted
            /\ Budget.current_spending b'
               = Budget.current_spending b + converted)
        /\ (alerts <> []
            <-> Budget.alert_threshold b' <= Budget.percentage_used b'
                /\ concat outs = [])
        /\ (alerts = []
            \/ alerts = [mkAlert (Budget.category b') (Budget.percentage_used b')
                                 (Budget.remaining_budget b')]))
  /\ (forall category monthly_limit currency alert_threshold history b outs,
      Budget_run (Budget.__init__ category monthly_limit currency alert_threshold)
                 history = (b, outs) ->
      (length (concat outs) <= 1)%nat
      /\ (concat outs <> [] ->
          forall later, concat (snd (Budget_run b later)) = []))
  /\ (forall category currency rates,
      exists alert,
        snd (Budget_run (Budget.__init__ category 1000 currency 80)
               [(rates, 799, currency); (rates, 1, currency);
                (rates, 200, currency); (rates, 500, currency)])
        = [[]; [alert]; []; []]
        /\ alert_category alert = category
        /\ alert_percentage alert == 80
        /\ alert_remaining alert == 200).
Proof.
  split; [| split].
  - intros c l cur thr history b outs Hrun rates x ecur b' alerts Hadd.
    apply Budget_run_flag in Hrun as [Hflag _].
    rewrite Budget_init_flag in Hflag.
    apply add_spending_inv in Hadd
      as (conv & Hc & _ & _ & _ & _ & Hs &
          [(Hf & Hle & _ & ->) | (Hor & _ & ->)]).
    + split; [eauto |]. split; [| by right].
      split; [| intros _; discriminate].
      intros _. split; [exact Hle |].
      destruct (concat outs) eqn:E; [reflexivity |].
      assert (Budget.alerts_triggered b = true)
        by (apply Hflag; right; discriminate).
      congruence.
    + split; [eauto |]. split; [| by left].
      split; [congruence |].
      intros [Hle Hnone]. destruct Hor as [Ht | Hn]; [| contradiction].
      apply Hflag in Ht as [? | ?]; [discriminate | contradiction].
  - intros c l cur thr history b outs Hrun.
    apply Budget_run_flag in Hrun as [Hflag Hlen].
    rewrite Budget_init_flag in Hflag, Hlen. split; [exact Hlen |].
    intros Hne later.
    assert (Budget.alerts_triggered b = true) as Ht by (apply Hflag; by right).
    destruct (Budget_run b later) as [b2 outs2] eqn:E2.
    apply Budget_run_flag in E2 as [_ Hlen2]. rewrite Ht in Hlen2.
    simpl. destruct (concat outs2); [reflexivity | simpl in Hlen2; lia].
  - intros c cur rates.
    destruct cur; eexists; (split; [vm_compute; reflexivity |]);
      repeat split; reflexivity.
Qed.

Lemma budget_alert_one_shot_witness :
  let rates := CurrencyConverter._rates in
  let history := [(rates, 799, INR)] in
  let b := fst (Budget_run (Budget.__init__ FOOD 1000 INR 80) history) in
  let outs := snd (Budget_run (Budget.__init__ FOOD 1000 INR 80) history) in
  exists b' alerts,
    Budget.add_spending rates b 1 INR = Ok (b', alerts)
    /\ (alerts <> []
        <-> Budget.alert_threshold b' <= Budget.percentage_used b'
            /\ concat outs = []).
Proof.
  intros rates history b outs.
  destruct (Budget.add_spending rates b 1 INR) as [[b' alerts] | err] eqn:E;
    [| vm_compute in E; discriminate E].
  exists b', alerts. split; [reflexivity |].
  refine (proj1 (proj2 (proj1 budget_alert_one_shot FOOD 1000 INR 80 history
                          b outs _ rates 1 INR b' alerts E))).
  reflexivity.
Defined.

(** ** Running spend of a budget *)

Lemma convert_nonneg (rates : gmap string Q) (x : Q) (c1 c2 : Currency) (y : Q) :
  0 <= x ->
  (forall r, rates !! Currency_name c1 = Some r -> 0 < r) ->
  (forall r, rates !! Currency_name c2 = Some r -> 0 < r) ->
  CurrencyConverter.convert rates x c1 c2 = Ok y ->
  0 <= y.
Proof.
  intros Hx H1 H2. unfold CurrencyConverter.convert.
  destruct (decide (c1 = c2)) as [_ | _]; [intros [= <-]; exact Hx |].
  destruct (rates !! Currency_name c1) as [r1 |] eqn:E1; [| discriminate].
  destruct (rates !! Currency_name c2) as [r2 |] eqn:E2; [| discriminate].
  destruct (Qeq_bool r1 0); [discriminate |].
  intros [= <-].
  specialize (H1 r1 eq_refl). specialize (H2 r2 eq_refl).
  apply Qmult_le_0_compat; [| lra].
  apply Qle_shift_div_l; lra.
Qed.

Lemma call_nonneg_input_converted (policy_currency : Currency)
    (call : gmap string Q * Q * Currency) :
  call_nonneg_input policy_currency call ->
  call_converted_nonneg policy_currency call.
Proof.
  destruct call as [[rates x] cur]. intros (Hx & H1 & H2) y Hy.
  exact (convert_nonneg rates x cur policy_currency y Hx H1 H2 Hy).
Qed.

(** A step keeps the limit, the currency and the threshold, and moves the
    running spend by the converted amount of a returning call. *)
Lemma Budget_step_spend (b : Budget.t) (call : gmap string Q * Q * Currency)
    (b' : Budget.t) (alerts : list Alert) :
  Budget_step b call = (b', alerts) ->
  Budget.monthly_limit b' = Budget.monthly_limit b
  /\ Budget.currency b' = Budget.currency b
  /\ (call_converted_nonneg (Budget.currency b) call ->
      Budget.current_spending b <= Budget.current_spending b').
Proof.
  destruct call as [[rates x] cur]. intros H.
  apply Budget_step_inv in H as [H | (_ & -> & ->)].
  - apply add_spending_inv in H as (conv & Hc & _ & Hl & Hcur & _ & Hs & _).
    repeat split; auto. intros Hnn. rewrite Hs.
    specialize (Hnn conv Hc). lra.
  - repeat split; auto. intros _. lra.
Qed.

Lemma Budget_run_app (l1 l2 : list (gmap string Q * Q * Currency)) :
  forall b : Budget.t,
    Budget_run b (l1 ++ l2)
    = (fst (Budget_run (fst (Budget_run b l1)) l2),
       snd (Budget_run b l1) ++ snd (Budget_run (fst (Budget_run b l1)) l2)).
Proof.
  induction l1 as [| call rest IH]; intros b; simpl.
  - by destruct (Budget_run b l2).
  - destruct (Budget_step b call) as [b1 alerts].
    rewrite IH. by destruct (Budget_run b1 rest).
Qed.

Lemma Budget_run_spend (calls : list (gmap string Q * Q * Currency)) :
  forall b : Budget.t,
    Budget.monthly_limit (fst (Budget_run b calls)) = Budget.monthly_limit b
    /\ Budget.currency (fst (Budget_run b calls)) = Budget.currency b
    /\ (Forall (call_converted_nonneg (Budget.currency b)) calls ->
        Budget.current_spending b
        <= Budget.current_spending (fst (Budget_run b calls))).
Proof.
  induction calls as [| call rest IH]; intros b; simpl.
  - repeat split; auto. intros _. lra.
  - destruct (Budget_step b call) as [b1 alerts] eqn:Es.
    apply Budget_step_spend in Es as (Hl & Hc & Hs).
    destruct (IH b1) as (Hl' & Hc' & Hs').
    destruct (Budget_run b1 rest) as [b2 outs]. simpl in *.
    repeat split; [congruence | congruence |].
    intros HF. apply Forall_cons in HF as [Hcall Hrest].
    rewrite Hc in Hs'. specialize (Hs Hcall). specialize (Hs' Hrest). lra.
Qed.

Lemma percentage_used_mono (b1 b2 : Budget.t) :
  Budget.monthly_limit b2 = Budget.monthly_limit b1 ->
  0 < Budget.monthly_limit b1 ->
  Budget.current_spending b1 <= Budget.current_spending b2 ->
  Budget.percentage_used b1 <= Budget.percentage_used b2.
Proof.
  intros Hl Hpos Hle. unfold Budget.percentage_used. rewrite Hl.
  destruct (Qeq_bool (Budget.monthly_limit b1) 0) eqn:E.
  - apply Qeq_bool_iff in E. lra.
  - simpl. apply Qmult_le_compat_r; [| lra].
    unfold Qdiv. apply Qmult_le_compat_r; [exact Hle |].
    apply Qlt_le_weak, Qinv_lt_0_compat, Hpos.
Qed.

(** C8, against the claim as written: the interface accepts a negative
    amount, and one such call on a fresh policy leaves the running spend
    below zero. *)
Lemma budget_negative_spend_counterexample :
  Budget.add_spending CurrencyConverter._rates
    (Budget.__init__ FOOD 1000 INR 80) (-5) INR
  = Ok (Budget.mk FOOD 1000 INR (-5) 80 false, [])
  /\ Budget.current_spending (Budget.mk FOOD 1000 INR (-5) 80 false) < 0.
Proof. split; [vm_compute; reflexivity | reflexivity]. Qed.

(** C8, amended.  The running spend of a budget policy is at least 0
    initially and after every sequence of [add_spending] calls whose
    converted amounts are all non-negative. *)
Theorem budget_spending_nonneg (category : ExpenseCategory) (monthly_limit : Q)
    (currency : Currency) (alert_threshold : Q)
    (calls : list (gmap string Q * Q * Currency)) :
  Forall (call_converted_nonneg currency) calls ->
  0 <= Budget.current_spending
         (Budget.__init__ category monthly_limit currency alert_threshold)
  /\ 0 <= Budget.current_spending
            (fst (Budget_run
                    (Budget.__init__ category monthly_limit currency alert_threshold)
                    calls)).
Proof.
  intros HF. split; [simpl; lra |].
  destruct (Budget_run_spend calls
              (Budget.__init__ category monthly_limit currency alert_threshold))
    as (_ & _ & Hs).
  apply Hs, HF.
Qed.

Lemma budget_spending_nonneg_witness :
  0 <= Budget.current_spending
         (fst (Budget_run (Budget.__init__ FOOD 1000 INR 80)
                 [(CurrencyConverter._rates, 12, USD);
                  (CurrencyConverter._rates, 50, INR)])).
Proof.
  refine (proj2 (budget_spending_nonneg FOOD 1000 INR 80 _ _)).
  repeat constructor; intros conv H; vm_compute in H;
    injection H as <-; discriminate.
Defined.

(** C10.  Along any sequence of [add_spending] calls with non-negative
    amounts and strictly positive rates for the currencies involved, the
    running spend never decreases from an earlier point of the sequence to a
    later one; it therefore stays at least 0 when it starts there (the
    constructor starts it at 0); and the usage percentage never decreases
    either when the monthly limit is positive. *)
Theorem budget_spending_monotone (b : Budget.t)
    (earlier later : list (gmap string Q * Q * Currency)) :
  Forall (call_nonneg_input (Budget.currency b)) (earlier ++ later) ->
  Budget.current_spending (fst (Budget_run b earlier))
  <= Budget.current_spending (fst (Budget_run b (earlier ++ later)))
  /\ (0 <= Budget.current_spending b ->
      0 <= Budget.current_spending (fst (Budget_run b (earlier ++ later))))
  /\ (0 < Budget.monthly_limit b ->
      Budget.percentage_used (fst (Budget_run b earlier))
      <= Budget.percentage_used (fst (Budget_run b (earlier ++ later)))).
Proof.
  intros HF.
  assert (Forall (call_converted_nonneg (Budget.currency b)) (earlier ++ later))
    as HF' by (eapply Forall_impl; [exact HF |];
               apply call_nonneg_input_converted).
  pose proof HF' as Hall.
  apply Forall_app in HF' as [HF1 HF2].
  destruct (Budget_run_spend earlier b) as (Hl1 & Hc1 & Hs1).
  destruct (Budget_run_spend later (fst (Budget_run b earlier)))
    as (Hl2 & Hc2 & Hs2).
  destruct (Budget_run_spend (earlier ++ later) b) as (_ & _ & Hs).
  rewrite Hc1 in Hs2. specialize (Hs2 HF2). specialize (Hs Hall).
  rewrite Budget_run_app. cbn [fst].
  split; [exact Hs2 | split].
  - intros H0. rewrite Budget_run_app in Hs. cbn [fst] in Hs. lra.
  - intros Hpos. apply percentage_used_mono; [congruence | | exact Hs2].
    rewrite Hl1. exact Hpos.
Qed.

Lemma budget_spending_monotone_witness :
  Budget.current_spending
    (fst (Budget_run (Budget.__init__ FOOD 1000 INR 80)
            [(CurrencyConverter._rates, 12, USD)]))
  <= Budget.current_spending
       (fst (Budget_run (Budget.__init__ FOOD 1000 INR 80)
               ([(CurrencyConverter._rates, 12, USD)]
                ++ [(CurrencyConverter._rates, 50, INR)]))).
Proof.
  refine (proj1 (budget_spending_monotone (Budget.__init__ FOOD 1000 INR 80)
                   [(CurrencyConverter._rates, 12, USD)]
                   [(CurrencyConverter._rates, 50, INR)] _)).
  repeat constructor; try discriminate;
    intros r H; vm_compute in H; injection H as <-; reflexivity.
Defined.

(** ** Category resolution *)




(** What [add_expense] leaves in the ledger, whether or not the budget
    notification raises. *)
Lemma add_expense_stored (rates : gmap string Q) (today : datetime.date)
    (u : User.t) (amount : Q) (description : string)
    (date : option datetime.date) (category : option ExpenseCategory)
    (currency : option Currency) (is_recurring : bool) (period : Z)
    (tags : option (list string)) (payment_method : option string) :
  let resolved :=
    match category with
    | Some c => c
    | None =>
        match User._categorize_from_tags (User.tags u) (default [] tags) with
        | Some c => c
        | None => User._categorize_from_description (User.tags u) description
        end
    end in
  let expense :=
    Expense.mk amount resolved description (default today date)
      (default (User.default_currency u) currency) is_recurring period
      (default [] tags) (default "Cash"%string payment_method) in
  let out :=
    User.add_expense rates today u amount description date category currency
      is_recurring period tags payment_method in
  User.expenses (fst out) = User.expenses u ++ [expense]
  /\ User.tags (fst out) = User.tags u
  /\ ((exists e, snd out = Raise e) \/ (exists alerts, snd out = Ok (expense, alerts))).
Proof.
  intros resolved expense out. subst out. unfold User.add_expense.
  fold resolved. fold expense. cbn [User.budgets User.expenses User.tags].
  destruct (User.budgets u !! resolved) as [budget |]; cbn.
  - destruct (Budget.add_spending rates budget amount
                (default (User.default_currency u) currency))
      as [[b' alerts] | e]; cbn; eauto 6.
  - eauto 6.
Qed.



(** ** The description fallback *)

(** C9, where the code departs from the claim.  The registry holds the
    built-in tags and the tag "Gym" (health); the description is
    "Gym membership".  The name "Gym" occurs in the description, also up to
    letter case, and no earlier registry name does, so the claim's answer is
    [HEALTH]; the fallback answers [OTHER], because line 249 lower-cases the
    description while line 251 compares the registry name as it is written.
    The same description resolves to [HEALTH] once the tag is registered in
    lower case. *)
Theorem categorize_from_description_case_slip :
  let u := User.__init__ "asha" INR in
  let registry := User.tags (User.add_tag u "Gym" HEALTH) in
  registry = User.tags u ++ [("Gym"%string, ExpenseTag.mk "Gym" HEALTH)]
  /\ Forall (fun kv => ci_substring (fst kv) "Gym membership" = false)
            (User.tags u)
  /\ ci_substring "Gym" "Gym membership" = true
  /\ User._categorize_from_description registry "Gym membership" = OTHER
  /\ User._categorize_from_description
       (User.tags (User.add_tag u "gym" HEALTH)) "Gym membership" = HEALTH.
Proof.
  split; [reflexivity |]. split; [repeat constructor |].
  repeat split; vm_compute; reflexivity.
Qed.

(** ** Ordered dictionaries *)

Section odict_facts.
Context {K V : Type} `{EqDecision K}.
Implicit Types (k : K) (v : V) (d : list (K * V)).

Lemma odict_get_set_eq k v d : odict_get k (odict_set k v d) = Some v.
Proof.
  induction d as [| [k' v'] d IH]; simpl.
  - by rewrite decide_True.
  - destruct (decide (k = k')) as [-> | Hne]; simpl.
    + by rewrite decide_True.
    + by rewrite decide_False.
Qed.

Lemma odict_get_set_ne k k' v d :
  k <> k' -> odict_get k' (odict_set k v d) = odict_get k' d.
Proof.
  intros Hne. induction d as [| [k0 v0] d IH]; simpl.
  - rewrite decide_False; [reflexivity | congruence].
  - destruct (decide (k = k0)) as [-> | Hne0]; simpl.
    + rewrite !decide_False; [reflexivity | congruence | congruence].
    + by rewrite IH.
Qed.

Lemma odict_get_None k d : odict_get k d = None <-> k ∉ map fst d.
Proof.
  induction d as [| [k' v'] d IH]; simpl.
  - split; [intros _; apply not_elem_of_nil | reflexivity].
  - rewrite not_elem_of_cons. destruct (decide (k = k')) as [-> | Hne].
    + split; [discriminate | intros [? _]; contradiction].
    + rewrite IH. tauto.
Qed.

Lemma odict_elem_get k v d :
  NoDup (map fst d) -> (k, v) ∈ d -> odict_get k d = Some v.
Proof.
  induction d as [| [k' v'] d IH]; simpl; intros Hnd Hin.
  - by apply elem_of_nil in Hin.
  - apply NoDup_cons in Hnd as [Hk' Hnd].
    apply elem_of_cons in Hin as [[= -> ->] | Hin].
    + by rewrite decide_True.
    + rewrite decide_False; [by apply IH |].
      intros ->. apply Hk'.
      apply (list_elem_of_fmap_2 fst) in Hin. exact Hin.
Qed.

Lemma odict_set_keys k v d :
  is_Some (odict_get k d) -> map fst (odict_set k v d) = map fst d.
Proof.
  induction d as [| [k' v'] d IH]; simpl; intros [w Hw]; [discriminate |].
  destruct (decide (k = k')) as [-> | Hne]; simpl; [reflexivity |].
  f_equal. apply IH. eauto.
Qed.

Lemma odict_set_fresh k v d :
  k ∉ map fst d -> odict_set k v d = d ++ [(k, v)].
Proof.
  induction d as [| [k' v'] d IH]; simpl; intros Hk; [reflexivity |].
  apply not_elem_of_cons in Hk as [Hne Hk].
  rewrite decide_False by exact Hne. by rewrite IH.
Qed.

End odict_facts.

(** ** Running totals *)

Lemma running_total_cons (a x : Q) (l : list Q) :
  running_total a (x :: l) = running_total (a + x) l.
Proof. reflexivity. Qed.

(** In exact arithmetic a running total is its start plus the sum of the
    amounts. *)
Lemma running_total_Qsum (l : list Q) :
  forall a : Q, running_total a l == a + Qsum l.
Proof.
  induction l as [| x l IH]; intros a.
  - unfold running_total, Qsum. cbn [fold_left fold_right]. lra.
  - rewrite running_total_cons, IH. unfold Qsum. cbn [fold_right]. lra.
Qed.

(** ** Dates *)

Ltac case_Z_tests :=
  repeat match goal with
    | |- context [(?a <? ?b)%Z] => destruct (Z.ltb_spec a b)
    | |- context [(?a =? ?b)%Z] => destruct (Z.eqb_spec a b)
    end.

Lemma datetime_leb_le (a b : datetime.date) :
  datetime.leb a b = true <-> datetime.le a b.
Proof.
  unfold datetime.leb, datetime.ltb, datetime.le. case_Z_tests; simpl; split;
    intros; try discriminate; try reflexivity; try lia.
Qed.

Lemma breakdown_skips_within (start_date end_date : option datetime.date)
    (e : Expense.t) :
  User.breakdown_skips start_date end_date e = false
  <-> within start_date end_date (Expense.date e).
Proof.
  unfold User.breakdown_skips, within. rewrite orb_false_iff.
  assert (forall a b, datetime.ltb a b = false <-> datetime.le b a) as Hlt.
  { intros a b. rewrite <- datetime_leb_le. unfold datetime.leb.
    destruct (datetime.ltb a b); simpl; split; congruence. }
  destruct start_date as [s |], end_date as [t |]; rewrite ?Hlt; split;
    try (intros [H1 H2]); try (intros H1); repeat split;
    try (intros ? [= <-]); try discriminate; auto.
Qed.

(** The included records are exactly the records whose date lies within the
    bounds. *)
Lemma included_iff (start_date end_date : option datetime.date)
    (expenses : list Expense.t) (e : Expense.t) :
  In e (included start_date end_date expenses)
  <-> In e expenses /\ within start_date end_date (Expense.date e).
Proof.
  unfold included. rewrite filter_In, negb_true_iff, breakdown_skips_within.
  reflexivity.
Qed.

Lemma included_cons (start_date end_date : option datetime.date)
    (x : Expense.t) (es : list Expense.t) :
  included start_date end_date (x :: es)
  = if User.breakdown_skips start_date end_date x
    then included start_date end_date es
    else x :: included start_date end_date es.
Proof.
  unfold included. simpl.
  by destruct (User.breakdown_skips start_date end_date x).
Qed.

(** ** Per-category tables *)

Lemma all_categories_complete (c : ExpenseCategory) : c ∈ all_categories.
Proof.
  destruct c; unfold all_categories; rewrite !elem_of_cons; tauto.
Qed.

Lemma all_categories_NoDup : NoDup all_categories.
Proof.
  unfold all_categories.
  repeat (apply NoDup_cons_2;
          [rewrite ?not_elem_of_cons; repeat split; try discriminate;
           apply not_elem_of_nil |]).
  apply NoDup_nil_2.
Qed.

Lemma zero_buckets_keys : map fst User.zero_buckets = all_categories.
Proof. reflexivity. Qed.

Lemma bucket_value_zero (c : ExpenseCategory) :
  bucket_value c User.zero_buckets = 0.
Proof. destruct c; reflexivity. Qed.

Lemma bucket_lookup (c : ExpenseCategory) (d : list (ExpenseCategory * Q)) :
  map fst d = all_categories ->
  odict_get c d = Some (bucket_value c d).
Proof.
  intros Hk. unfold bucket_value.
  destruct (odict_get c d) as [v |] eqn:E; [reflexivity |].
  apply odict_get_None in E. rewrite Hk in E.
  destruct (E (all_categories_complete c)).
Qed.

(** A table with distinct keys is the list of its keys, each with the value
    looked up for it. *)
Lemma odict_table {K : Type} `{EqDecision K} (d : list (K * Q)) :
  NoDup (map fst d) ->
  d = map (fun k => (k, default 0 (odict_get k d))) (map fst d).
Proof.
  induction d as [| [k v] d IH]; intros Hnd; [reflexivity |].
  cbn [map fst] in *. apply NoDup_cons in Hnd as [Hk Hnd].
  cbn [odict_get]. rewrite decide_True by reflexivity. cbn [default].
  f_equal. rewrite (IH Hnd) at 1. apply map_ext_in. intros k' Hk'.
  rewrite decide_False; [reflexivity |].
  intros ->. by apply Hk, list_elem_of_In.
Qed.

Lemma bucket_table (d : list (ExpenseCategory * Q)) :
  map fst d = all_categories ->
  d = map (fun c => (c, bucket_value c d)) all_categories.
Proof.
  intros Hk. rewrite (odict_table d) at 1.
  - by rewrite Hk.
  - rewrite Hk. apply all_categories_NoDup.
Qed.

(** [d[k] += a] on a table holding every category: the keys stay, the
    amount of [k] grows by [a], the others are untouched. *)
Lemma bucket_add_spec (k : ExpenseCategory) (a : Q)
    (d : list (ExpenseCategory * Q)) :
  map fst d = all_categories ->
  exists d',
    User.bucket_add k a d = Ok d'
    /\ map fst d' = all_categories
    /\ forall c,
         bucket_value c d'
         = if bool_decide (k = c) then bucket_value k d + a else bucket_value c d.
Proof.
  intros Hk. unfold User.bucket_add. rewrite (bucket_lookup k d Hk).
  eexists. split; [reflexivity |]. split.
  - rewrite odict_set_keys; [exact Hk |]. rewrite (bucket_lookup k d Hk). eauto.
  - intros c. unfold bucket_value at 1. case_bool_decide as Hc.
    + subst c. by rewrite odict_get_set_eq.
    + by rewrite odict_get_set_ne.
Qed.

Lemma of_category_cons (c : ExpenseCategory) (e : Expense.t)
    (es : list Expense.t) :
  of_category c (e :: es)
  = if bool_decide (Expense.category e = c)
    then e :: of_category c es else of_category c es.
Proof. reflexivity. Qed.

(** ** The amount a loop adds for a record *)

(** The guarded expression of the aggregation loops is the converter's
    answer: the converter itself hands the amount back when the two
    currencies are the same. *)
Lemma amount_in_convert (rates : gmap string Q) (tc : Currency) (e : Expense.t) :
  User.amount_in rates tc e
  = CurrencyConverter.convert rates (Expense.amount e) (Expense.currency e) tc.
Proof.
  unfold User.amount_in, CurrencyConverter.convert.
  by destruct (decide (Expense.currency e = tc)).
Qed.

Lemma amount_in_converted (rates : gmap string Q) (tc : Currency)
    (e : Expense.t) (a : Q) :
  User.amount_in rates tc e = Ok a ->
  converted rates tc e = a
  /\ CurrencyConverter.convert rates (Expense.amount e) (Expense.currency e) tc
     = Ok (converted rates tc e).
Proof.
  rewrite amount_in_convert. unfold converted. intros ->. by split.
Qed.

(** ** The breakdown loop *)

(** Each bucket the loop returns is the bucket it was given with the
    converted amounts of the included records of its category added one at
    a time, in ledger order. *)
Lemma breakdown_loop_exact (rates : gmap string Q) (tc : Currency)
    (start_date end_date : option datetime.date) (es : list Expense.t) :
  forall bd bd' : list (ExpenseCategory * Q),
    map fst bd = all_categories ->
    User.breakdown_loop rates tc start_date end_date es bd = Ok bd' ->
    map fst bd' = all_categories
    /\ Forall (fun e => CurrencyConverter.convert rates (Expense.amount e)
                          (Expense.currency e) tc
                        = Ok (converted rates tc e))
              (included start_date end_date es)
    /\ forall c,
         bucket_value c bd'
         = running_total (bucket_value c bd)
             (map (converted rates tc)
                  (of_category c (included start_date end_date es))).
Proof.
  induction es as [| e es IH]; intros bd bd' Hk Hloop; simpl in Hloop.
  - injection Hloop as <-. split; [exact Hk |]. split; [constructor |].
    reflexivity.
  - rewrite included_cons.
    destruct (User.breakdown_skips start_date end_date e) eqn:Eskip.
    + apply (IH bd bd' Hk Hloop).
    + destruct (User.amount_in rates tc e) as [a | err] eqn:Ea;
        simpl in Hloop; [| discriminate].
      destruct (amount_in_converted rates tc e a Ea) as [Hca Hconv_e].
      destruct (bucket_add_spec (Expense.category e) a bd Hk)
        as (bd1 & Hadd & Hk1 & Hval).
      rewrite Hadd in Hloop. simpl in Hloop.
      destruct (IH bd1 bd' Hk1 Hloop) as (Hk' & Hconv & Htot).
      split; [exact Hk' |]. split; [by constructor |].
      intros c. rewrite Htot, Hval, of_category_cons.
      case_bool_decide as Hc; [| reflexivity].
      subst c. cbn [map]. by rewrite running_total_cons, Hca.
Qed.

Lemma breakdown_loop_spec (rates : gmap string Q) (tc : Currency)
    (start_date end_date : option datetime.date) (es : list Expense.t) :
  forall bd bd' : list (ExpenseCategory * Q),
    map fst bd = all_categories ->
    User.breakdown_loop rates tc start_date end_date es bd = Ok bd' ->
    map fst bd' = all_categories
    /\ Forall (fun e => User.amount_in rates tc e = Ok (converted rates tc e))
              (included start_date end_date es)
    /\ forall c,
         bucket_value c bd'
         == bucket_value c bd
            + category_total rates tc (included start_date end_date es) c.
Proof.
  intros bd bd' Hk Hloop.
  destruct (breakdown_loop_exact rates tc start_date end_date es bd bd' Hk Hloop)
    as (Hk' & Hconv & Htot).
  split; [exact Hk' |]. split.
  - eapply Forall_impl; [exact Hconv |]. intros e He.
    by rewrite amount_in_convert.
  - intros c. rewrite Htot, running_total_Qsum. reflexivity.
Qed.

Lemma breakdown_loop_returns (rates : gmap string Q) (tc : Currency)
    (start_date end_date : option datetime.date) (es : list Expense.t) :
  forall bd : list (ExpenseCategory * Q),
    map fst bd = all_categories ->
    Forall (fun e => exists a, User.amount_in rates tc e = Ok a)
           (included start_date end_date es) ->
    exists bd', User.breakdown_loop rates tc start_date end_date es bd = Ok bd'.
Proof.
  induction es as [| e es IH]; intros bd Hk Hall; simpl.
  - eauto.
  - rewrite included_cons in Hall.
    destruct (User.breakdown_skips start_date end_date e).
    + by apply IH.
    + apply Forall_cons in Hall as [[a Ha] Hall]. rewrite Ha. simpl.
      destruct (bucket_add_spec (Expense.category e) a bd Hk)
        as (bd1 & Hadd & Hk1 & _).
      rewrite Hadd. simpl. by apply IH.
Qed.

(** ** What the breakdown returns *)

Lemma Qlt_bool_iff (x y : Q) : Qlt_bool x y = true <-> x < y.
Proof.
  unfold Qlt_bool. rewrite negb_true_iff.
  destruct (Qle_bool y x) eqn:E.
  - apply Qle_bool_iff in E. split; [discriminate | lra].
  - split; [| reflexivity]. intros _.
    destruct (Qlt_le_dec x y) as [Hlt | Hle]; [exact Hlt |].
    apply Qle_bool_iff in Hle. congruence.
Qed.

Lemma Qlt_bool_comp (x y : Q) : x == y -> Qlt_bool 0 x = Qlt_bool 0 y.
Proof. intros Hxy. unfold Qlt_bool. by rewrite Hxy. Qed.

Lemma filter_map_comm {A B : Type} (f : A -> B) (p : B -> bool) (l : list A) :
  List.filter p (map f l) = map f (List.filter (fun a => p (f a)) l).
Proof.
  induction l as [| a l IH]; simpl; [reflexivity |].
  destruct (p (f a)); simpl; by rewrite IH.
Qed.

Lemma NoDup_keys_filter {K V : Type} (p : K * V -> bool) (l : list (K * V)) :
  NoDup (map fst l) -> NoDup (map fst (List.filter p l)).
Proof.
  induction l as [| kv l IH]; simpl; intros Hnd; [exact Hnd |].
  apply NoDup_cons in Hnd as [Hk Hnd].
  destruct (p kv); simpl; [| by apply IH].
  apply NoDup_cons_2; [| by apply IH].
  intros Hin. apply Hk.
  apply list_elem_of_In, in_map_iff in Hin as (kv' & Heq & Hin').
  apply filter_In in Hin' as [Hin' _].
  apply list_elem_of_In, in_map_iff. eauto.
Qed.

(** The breakdown returns whenever every included record converts. *)
Lemma get_spending_breakdown_returns (rates : gmap string Q) (u : User.t)
    (target_currency : option Currency)
    (start_date end_date : option datetime.date) :
  Forall (fun e => exists a,
            User.amount_in rates
              (default (User.default_currency u) target_currency) e = Ok a)
         (included start_date end_date (User.expenses u)) ->
  exists bd,
    User.get_spending_breakdown rates u target_currency start_date end_date
    = Ok bd.
Proof.
  intros Hall. unfold User.get_spending_breakdown.
  destruct (breakdown_loop_returns rates _ start_date end_date (User.expenses u)
              User.zero_buckets zero_buckets_keys Hall) as [bd' Hbd'].
  rewrite Hbd'. simpl. eauto.
Qed.

(** The returned breakdown, entry by entry: the categories, in enumeration
    order, whose accumulated total is strictly positive, each with that
    total. *)
Lemma get_spending_breakdown_exact (rates : gmap string Q) (u : User.t)
    (target_currency : option Currency)
    (start_date end_date : option datetime.date)
    (bd : list (ExpenseCategory * Q)) :
  User.get_spending_breakdown rates u target_currency start_date end_date
  = Ok bd ->
  let tc := default (User.default_currency u) target_currency in
  let inc := included start_date end_date (User.expenses u) in
  let total := category_running_total rates tc inc in
  Forall (fun e => CurrencyConverter.convert rates (Expense.amount e)
                     (Expense.currency e) tc
                   = Ok (converted rates tc e)) inc
  /\ bd = map (fun c => (c, total c))
              (List.filter (fun c => Qlt_bool 0 (total c)) all_categories).
Proof.
  intros Hret tc inc total. unfold User.get_spending_breakdown in Hret.
  fold tc in Hret.
  destruct (User.breakdown_loop rates tc start_date end_date (User.expenses u)
              User.zero_buckets) as [bd' | err] eqn:Eloop;
    simpl in Hret; [| discriminate].
  injection Hret as <-.
  destruct (breakdown_loop_exact rates tc start_date end_date (User.expenses u)
              User.zero_buckets bd' zero_buckets_keys Eloop)
    as (Hk & Hconv & Htot).
  split; [exact Hconv |].
  rewrite (bucket_table bd' Hk) at 1.
  rewrite (map_ext (fun c => (c, bucket_value c bd')) (fun c => (c, total c))).
  - by rewrite filter_map_comm.
  - intros c. by rewrite Htot, bucket_value_zero.
Qed.

(** C2, against the claim as written: a refund of 30 entered as a negative
    amount gives its category a negative total; the category is dropped by
    the [v > 0] filter and the returned values sum to 100, not to the 70 the
    included records sum to. *)
Lemma breakdown_negative_total_counterexample :
  let today := datetime.mkDate 2024 5 17 in
  let rates := CurrencyConverter._rates in
  let u0 := User.__init__ "asha" INR in
  let u1 := fst (User.add_expense rates today u0 100 "groceries"
                   None None None false 0 None None) in
  let u2 := fst (User.add_expense rates today u1 (-30) "shopping refund"
                   None None None false 0 None None) in
  User.get_spending_breakdown rates u2 None None None = Ok [(FOOD, 100)]
  /\ map (fun e => (Expense.category e, converted rates INR e))
         (included None None (User.expenses u2))
     = [(FOOD, 100); (SHOPPING, -30)]
  /\ Qsum (map snd [(FOOD, 100)]) == 100
  /\ Qsum (map (converted rates INR) (included None None (User.expenses u2)))
     == 70
  /\ ~ Qsum (map snd [(FOOD, 100)])
       == Qsum (map (converted rates INR) (included None None (User.expenses u2))).
Proof.
  repeat split; try (vm_compute; reflexivity).
  intros H. vm_compute in H. discriminate H.
Qed.

(** C2, amended.  When [get_spending_breakdown] returns, the records it has
    included are exactly the ledger's records whose date lies within the
    inclusive bounds, and the conversion of each of them into the target
    currency has returned.  The accumulated total of a category is the
    running total of the converted amounts of its included records, added
    one at a time to 0 in ledger order.  The breakdown lists exactly the
    categories whose accumulated total is strictly positive, once each, in
    enumeration order, each with that total; so the returned values add up
    to the accumulated totals of the returned categories. *)
Theorem spending_breakdown_spec (rates : gmap string Q) (u : User.t)
    (target_currency : option Currency)
    (start_date end_date : option datetime.date)
    (bd : list (ExpenseCategory * Q)) :
  User.get_spending_breakdown rates u target_currency start_date end_date
  = Ok bd ->
  let tc := default (User.default_currency u) target_currency in
  let inc := included start_date end_date (User.expenses u) in
  let total := category_running_total rates tc inc in
  let returned := List.filter (fun c => Qlt_bool 0 (total c)) all_categories in
  (forall e, In e inc
             <-> In e (User.expenses u)
                 /\ within start_date end_date (Expense.date e))
  /\ Forall (fun e => CurrencyConverter.convert rates (Expense.amount e)
                        (Expense.currency e) tc
                      = Ok (converted rates tc e)) inc
  /\ bd = map (fun c => (c, total c)) returned
  /\ NoDup (map fst bd)
  /\ (forall c v, In (c, v) bd <-> 0 < total c /\ v = total c)
  /\ running_total 0 (map snd bd) = running_total 0 (map total returned).
Proof.
  intros Hret tc inc total returned.
  destruct (get_spending_breakdown_exact rates u target_currency start_date
              end_date bd Hret) as [Hconv Hbd].
  fold tc inc total returned in Hconv, Hbd.
  split; [apply included_iff |]. split; [exact Hconv |].
  split; [exact Hbd |]. subst bd. split; [| split].
  - rewrite map_map. cbn [fst]. rewrite map_id. unfold returned.
    apply NoDup_ListNoDup, List.NoDup_filter, NoDup_ListNoDup,
      all_categories_NoDup.
  - intros c v. rewrite in_map_iff. unfold returned. split.
    + intros (c' & [= <- <-] & Hin). apply filter_In in Hin as [_ Hpos].
      split; [by apply Qlt_bool_iff | reflexivity].
    + intros [Hpos ->]. exists c. split; [reflexivity |].
      apply filter_In. split.
      * apply list_elem_of_In, all_categories_complete.
      * by apply Qlt_bool_iff.
  - by rewrite map_map.
Qed.

(** The ledger of the worked examples, restricted to 15 January - 10 March
    2024 and reported in INR: 100 of groceries, and a flight of 30 USD that
    the converter turns into 2500 INR. *)
Lemma spending_breakdown_spec_witness :
  exists bd,
    User.get_spending_breakdown CurrencyConverter._rates example_user
      (Some INR) (Some (datetime.mkDate 2024 1 15))
      (Some (datetime.mkDate 2024 3 10)) = Ok bd
    /\ map fst bd = [FOOD; TRAVEL]
    /\ Forall2 Qeq (map snd bd) [100; 2500].
Proof.
  destruct (User.get_spending_breakdown CurrencyConverter._rates example_user
              (Some INR) (Some (datetime.mkDate 2024 1 15))
              (Some (datetime.mkDate 2024 3 10))) as [bd | err] eqn:E;
    [| vm_compute in E; discriminate E].
  exists bd. split; [reflexivity |].
  pose proof (spending_breakdown_spec CurrencyConverter._rates example_user
                (Some INR) (Some (datetime.mkDate 2024 1 15))
                (Some (datetime.mkDate 2024 3 10)) bd E)
    as (_ & _ & Hbd & _).
  rewrite Hbd. split; [vm_compute; reflexivity |].
  vm_compute. repeat constructor.
Defined.

(** ** Calendar months *)

Lemma month_of_index_inj (i j : Z) :
  month_of_index i = month_of_index j -> i = j.
Proof.
  unfold month_of_index. intros [= H1 H2].
  pose proof (Z.div_mod i 12 ltac:(lia)).
  pose proof (Z.div_mod j 12 ltac:(lia)). lia.
Qed.

Lemma month_of_index_index (y m : Z) :
  (1 <= m <= 12)%Z -> month_of_index (month_index y m) = (y, m).
Proof.
  intros Hm. unfold month_of_index, month_index.
  assert ((12 * y + (m - 1)) / 12 = y)%Z as Hq
    by (symmetry; apply (Z.div_unique _ 12 y (m - 1)); lia).
  assert ((12 * y + (m - 1)) mod 12 = m - 1)%Z as Hr
    by (symmetry; apply (Z.mod_unique _ 12 y (m - 1)); lia).
  rewrite Hq, Hr. f_equal. lia.
Qed.

Lemma month_of_index_valid (i : Z) :
  (1 <= snd (month_of_index i) <= 12)%Z
  /\ month_index (fst (month_of_index i)) (snd (month_of_index i)) = i.
Proof.
  unfold month_of_index, month_index. simpl.
  pose proof (Z.mod_pos_bound i 12 ltac:(lia)).
  pose proof (Z.div_mod i 12 ltac:(lia)). lia.
Qed.

Lemma days_in_month_bounds (y m : Z) :
  (28 <= datetime.days_in_month y m <= 31)%Z.
Proof.
  unfold datetime.days_in_month.
  destruct (m =? 2)%Z; [destruct (datetime.is_leap y); lia |].
  destruct ((m =? 4)%Z || (m =? 6)%Z || (m =? 9)%Z || (m =? 11)%Z); lia.
Qed.

(** The constructor accepts the first day of every month of the years 1 to
    9999. *)
Lemma date_new_first (y m : Z) :
  (datetime.MINYEAR <= y <= datetime.MAXYEAR)%Z -> (1 <= m <= 12)%Z ->
  datetime.date__new__ y m 1 = Ok (datetime.mkDate y m 1).
Proof.
  intros Hy Hm. unfold datetime.date__new__.
  pose proof (days_in_month_bounds y m) as Hd.
  assert (forall a b : Z, (a <= b)%Z -> (a <=? b)%Z = true) as Hleb
    by (intros a b; apply Z.leb_le).
  rewrite !Hleb by lia. reflexivity.
Qed.

Lemma date_new_year (y m d : Z) :
  (datetime.MAXYEAR < y)%Z -> datetime.date__new__ y m d = Raise ValueError.
Proof.
  intros Hy. unfold datetime.date__new__.
  assert ((y <=? datetime.MAXYEAR)%Z = false) as -> by (apply Z.leb_gt; lia).
  by rewrite andb_false_r.
Qed.

(** Before the last month, the step to the next month returns the first day
    of the calendar month that follows. *)
Lemma next_month_index (d : datetime.date) :
  (datetime.MINYEAR <= datetime.year d)%Z ->
  (1 <= datetime.month d <= 12)%Z ->
  (month_index (datetime.year d) (datetime.month d)
   < month_index datetime.MAXYEAR 12)%Z ->
  exists d',
    ReportGenerator.next_month d = Ok d'
    /\ (datetime.MINYEAR <= datetime.year d')%Z
    /\ (1 <= datetime.month d' <= 12)%Z
    /\ datetime.day d' = 1%Z
    /\ month_index (datetime.year d') (datetime.month d')
       = (month_index (datetime.year d) (datetime.month d) + 1)%Z.
Proof.
  intros Hy Hm Hlast. unfold ReportGenerator.next_month.
  unfold month_index, datetime.MAXYEAR, datetime.MINYEAR in *.
  destruct (Z.eqb_spec (datetime.month d) 12) as [H12 | H12].
  - rewrite date_new_first
      by (unfold datetime.MAXYEAR, datetime.MINYEAR; lia).
    eexists. split; [reflexivity |]. simpl. lia.
  - rewrite date_new_first
      by (unfold datetime.MAXYEAR, datetime.MINYEAR; lia).
    eexists. split; [reflexivity |]. simpl. lia.
Qed.

(** From the last month there is no next month: the constructor is asked
    for the year 10000. *)
Lemma next_month_last (d : datetime.date) :
  (datetime.year d, datetime.month d) = last_month ->
  ReportGenerator.next_month d = Raise ValueError.
Proof.
  intros [= Hy Hm]. unfold ReportGenerator.next_month.
  rewrite Hm, Hy. cbn [Z.eqb Pos.eqb]. apply date_new_year.
  unfold datetime.MAXYEAR. lia.
Qed.

(** For a first-of-month date (and for any date not after [end_date]) the
    loop condition compares month indices. *)
Lemma leb_month_index (d end_date : datetime.date) :
  (1 <= datetime.month d <= 12)%Z ->
  (1 <= datetime.month end_date <= 12)%Z ->
  (datetime.day d <= datetime.day end_date)%Z \/ datetime.le d end_date ->
  (datetime.leb d end_date = true
   <-> (month_index (datetime.year d) (datetime.month d)
        <= month_index (datetime.year end_date) (datetime.month end_date))%Z).
Proof.
  intros Hd He Hor. rewrite datetime_leb_le.
  unfold datetime.le in *. unfold month_index. lia.
Qed.

Lemma months_between_NoDup (s e : datetime.date) : NoDup (months_between s e).
Proof.
  unfold months_between.
  apply (NoDup_fmap_2_strong month_of_index); [| apply NoDup_seqZ].
  intros i j _ _. apply month_of_index_inj.
Qed.

Lemma months_between_elem (s e : datetime.date) (y m : Z) :
  (y, m) ∈ months_between s e
  <-> (1 <= m <= 12)%Z
      /\ (month_index (datetime.year s) (datetime.month s)
          <= month_index y m
          <= month_index (datetime.year e) (datetime.month e))%Z.
Proof.
  unfold months_between.
  change (map month_of_index ?l) with (month_of_index <$> l).
  rewrite list_elem_of_fmap. split.
  - intros (i & Heq & Hi). apply elem_of_seqZ in Hi.
    pose proof (month_of_index_valid i) as [Hv Hidx].
    rewrite <- Heq in Hv, Hidx. simpl in Hv, Hidx. lia.
  - intros [Hm Hb]. exists (month_index y m). split.
    + symmetry. by apply month_of_index_index.
    + apply elem_of_seqZ. lia.
Qed.

(** ** The month loop *)

(** Started on a date whose month index is [n] months before the one after
    [end_date]'s, where [end_date] lies before the last month, with more
    than [n] units of fuel and a table that has none of the coming months
    yet, the loop stops by its own condition and has appended one empty
    bucket per month. *)
Lemma month_loop_spec (end_date : datetime.date) (n : nat) :
  (1 <= datetime.month end_date <= 12)%Z ->
  (1 <= datetime.day end_date)%Z ->
  (month_index (datetime.year end_date) (datetime.month end_date)
   < month_index datetime.MAXYEAR 12)%Z ->
  forall (fuel : nat) (cur : datetime.date)
         (acc : list ((Z * Z) * list (ExpenseCategory * Q))),
    (datetime.MINYEAR <= datetime.year cur)%Z ->
    (1 <= datetime.month cur <= 12)%Z ->
    (datetime.day cur = 1%Z \/ datetime.le cur end_date) ->
    (month_index (datetime.year end_date) (datetime.month end_date) + 1
     - month_index (datetime.year cur) (datetime.month cur) = Z.of_nat n)%Z ->
    (n < fuel)%nat ->
    (forall j, (month_index (datetime.year cur) (datetime.month cur) <= j)%Z ->
               month_of_index j ∉ map fst acc) ->
    ReportGenerator.month_loop fuel cur end_date acc
    = Some (Ok (acc ++ empty_months
                         (map month_of_index
                            (seqZ (month_index (datetime.year cur)
                                               (datetime.month cur))
                                  (Z.of_nat n))))).
Proof.
  intros He Hde Hlast. induction n as [| n IH];
    intros fuel cur acc Hy Hc Hday Hidx Hfuel Hfresh;
    (destruct fuel as [| fuel]; [lia |]); simpl ReportGenerator.month_loop;
    assert ((datetime.day cur <= datetime.day end_date)%Z
            \/ datetime.le cur end_date) as Hor
      by (destruct Hday as [-> | Hle]; [left; lia | by right]);
    pose proof (leb_month_index cur end_date Hc He Hor) as Hcond.
  - assert (datetime.leb cur end_date = false) as ->.
    { destruct (datetime.leb cur end_date); [| reflexivity].
      pose proof (proj1 Hcond eq_refl). lia. }
    by rewrite seqZ_nil, app_nil_r by lia.
  - assert (datetime.leb cur end_date = true) as ->
      by (apply Hcond; lia).
    destruct (next_month_index cur Hy Hc ltac:(lia))
      as (next & -> & Hy' & Hc' & Hd' & Hi').
    rewrite odict_set_fresh.
    2:{ rewrite <- (month_of_index_index _ _ Hc). apply Hfresh. lia. }
    assert (forall j,
              (month_index (datetime.year next) (datetime.month next) <= j)%Z ->
              month_of_index j
              ∉ map fst (acc ++ [((datetime.year cur, datetime.month cur),
                                  User.zero_buckets)])) as Hfresh'.
    { intros j Hj. rewrite map_app. simpl map. intros Hin.
      apply elem_of_app in Hin as [Hin | Hin].
      - revert Hin. apply Hfresh. lia.
      - apply list_elem_of_singleton in Hin.
        rewrite <- (month_of_index_index _ _ Hc) in Hin.
        apply month_of_index_inj in Hin. lia. }
    rewrite (IH fuel next _ Hy' Hc' (or_introl Hd') ltac:(lia) ltac:(lia) Hfresh').
    rewrite Hi', (seqZ_cons _ (Z.of_nat (S n))) by lia.
    replace (Z.pred (Z.of_nat (S n))) with (Z.of_nat n) by lia.
    unfold Z.succ. simpl map. unfold empty_months at 2. simpl map.
    rewrite (month_of_index_index _ _ Hc), <- app_assoc. reflexivity.
Qed.

(** When [end_date] lies in the last month, the loop reaches that month,
    asks for the month after it and raises [ValueError]. *)
Lemma month_loop_last (end_date : datetime.date) (n : nat) :
  (1 <= datetime.day end_date)%Z ->
  (datetime.year end_date, datetime.month end_date) = last_month ->
  forall (fuel : nat) (cur : datetime.date)
         (acc : list ((Z * Z) * list (ExpenseCategory * Q))),
    (datetime.MINYEAR <= datetime.year cur)%Z ->
    (1 <= datetime.month cur <= 12)%Z ->
    (datetime.day cur = 1%Z \/ datetime.le cur end_date) ->
    (month_index (datetime.year end_date) (datetime.month end_date)
     - month_index (datetime.year cur) (datetime.month cur) = Z.of_nat n)%Z ->
    (S n < fuel)%nat ->
    ReportGenerator.month_loop fuel cur end_date acc = Some (Raise ValueError).
Proof.
  intros Hde Hlast. pose proof Hlast as [= Hye Hme].
  assert (1 <= datetime.month end_date <= 12)%Z as He by lia.
  induction n as [| n IH];
    intros fuel cur acc Hy Hc Hday Hidx Hfuel;
    (destruct fuel as [| fuel]; [lia |]); simpl ReportGenerator.month_loop;
    assert ((datetime.day cur <= datetime.day end_date)%Z
            \/ datetime.le cur end_date) as Hor
      by (destruct Hday as [-> | Hle]; [left; lia | by right]);
    pose proof (leb_month_index cur end_date Hc He Hor) as Hcond;
    (assert (datetime.leb cur end_date = true) as -> by (apply Hcond; lia)).
  - rewrite next_month_last; [reflexivity |].
    unfold last_month. unfold month_index in Hidx.
    f_equal; unfold datetime.MAXYEAR in *; lia.
  - destruct (next_month_index cur Hy Hc)
      as (next & -> & Hy' & Hc' & Hd' & Hi').
    { rewrite Hye, Hme in Hidx. lia. }
    apply IH; try assumption; [by left | lia | lia].
Qed.

Lemma empty_months_keys (months : list (Z * Z)) :
  map fst (empty_months months) = months.
Proof.
  unfold empty_months. induction months as [| ym l IH]; simpl; [reflexivity |].
  by rewrite IH.
Qed.

(** From an empty table, with enough fuel, the month loop builds the empty
    buckets of [months_between] when the range ends before the last month,
    and raises when it ends in the last month. *)
Lemma month_loop_from_start (s e : datetime.date) (fuel : nat) :
  datetime.valid s -> datetime.valid e -> datetime.le s e ->
  (months_span s e < fuel)%nat ->
  ReportGenerator.month_loop fuel s e []
  = Some (if bool_decide ((datetime.year e, datetime.month e) = last_month)
          then Raise ValueError
          else Ok (empty_months (months_between s e))).
Proof.
  intros (Hys & Hs & _) (Hye & He & Hde) Hle Hfuel. unfold months_span in Hfuel.
  assert (month_index (datetime.year s) (datetime.month s)
          <= month_index (datetime.year e) (datetime.month e))%Z as Hidx
    by (unfold datetime.le in Hle; unfold month_index; lia).
  case_bool_decide as Hlast.
  - apply (month_loop_last e
             (Z.to_nat (month_index (datetime.year e) (datetime.month e)
                        - month_index (datetime.year s) (datetime.month s))));
      try assumption; try lia; by right.
  - rewrite (month_loop_spec e (months_span s e) He ltac:(lia));
      unfold months_span; try lia.
    + unfold months_between. rewrite Z2Nat.id by lia. reflexivity.
    + unfold last_month in Hlast. unfold month_index.
      unfold datetime.MAXYEAR in *.
      destruct (Z.eq_dec (datetime.year e) 9999%Z) as [Hy9 | Hy9]; [| lia].
      destruct (Z.eq_dec (datetime.month e) 12%Z) as [Hm12 | Hm12]; [| lia].
      exfalso. apply Hlast. by rewrite Hy9, Hm12.
    + by right.
    + intros j _. apply not_elem_of_nil.
Qed.

(** ** The loop that fills the month buckets *)

Lemma month_category_cons (x : Expense.t) (es : list Expense.t) (ym : Z * Z)
    (c : ExpenseCategory) :
  of_month ym (of_category c (x :: es))
  = if bool_decide (Expense.category x = c) && bool_decide (year_month x = ym)
    then x :: of_month ym (of_category c es)
    else of_month ym (of_category c es).
Proof.
  rewrite of_category_cons.
  destruct (bool_decide (Expense.category x = c)); [| reflexivity].
  unfold of_month. cbn [List.filter andb].
  by destruct (bool_decide (year_month x = ym)).
Qed.

Lemma empty_months_get (months : list (Z * Z)) (ym : Z * Z) :
  odict_get ym (empty_months months)
  = if bool_decide (ym ∈ months) then Some User.zero_buckets else None.
Proof.
  unfold empty_months. induction months as [| k l IH]; cbn [map odict_get].
  - case_bool_decide as Hin; [by apply elem_of_nil in Hin | reflexivity].
  - destruct (decide (ym = k)) as [-> | Hne].
    + by rewrite bool_decide_eq_true_2 by apply list_elem_of_here.
    + rewrite IH. repeat case_bool_decide; rewrite ?elem_of_cons in *;
        try reflexivity; tauto.
Qed.

(** Each cell of the table the loop returns is the cell it was given with
    the converted amounts of the in-range records of its month and category
    added one at a time, in ledger order. *)
Lemma trend_loop_exact (rates : gmap string Q) (tc : Currency)
    (s e : datetime.date) (es : list Expense.t) :
  forall md md' : list ((Z * Z) * list (ExpenseCategory * Q)),
    (forall ym b, odict_get ym md = Some b -> map fst b = all_categories) ->
    ReportGenerator.trend_loop rates tc s e es md = Ok md' ->
    map fst md' = map fst md
    /\ forall ym b',
         odict_get ym md' = Some b' ->
         map fst b' = all_categories
         /\ exists b,
              odict_get ym md = Some b
              /\ forall c,
                   bucket_value c b'
                   = running_total (bucket_value c b)
                       (map (converted rates tc)
                          (of_month ym
                             (of_category c (included (Some s) (Some e) es)))).
Proof.
  induction es as [| x es IH]; intros md md' Hwf Hloop; simpl in Hloop.
  - injection Hloop as <-. split; [reflexivity |].
    intros ym b' Hb'. split; [by apply (Hwf ym) |].
    exists b'. split; [exact Hb' |]. reflexivity.
  - change (datetime.ltb (Expense.date x) s || datetime.ltb e (Expense.date x))
      with (User.breakdown_skips (Some s) (Some e) x) in Hloop.
    rewrite included_cons.
    destruct (User.breakdown_skips (Some s) (Some e) x) eqn:Eskip.
    + apply (IH md md' Hwf Hloop).
    + destruct (User.amount_in rates tc x) as [a | err] eqn:Ea;
        simpl in Hloop; [| discriminate].
      destruct (amount_in_converted rates tc x a Ea) as [Hca _].
      destruct (odict_get (datetime.year (Expense.date x),
                           datetime.month (Expense.date x)) md)
        as [bucket |] eqn:Eget; [| discriminate].
      fold (year_month x) in Eget.
      destruct (bucket_add_spec (Expense.category x) a bucket
                  (Hwf _ _ Eget)) as (bucket1 & Hadd & Hk1 & Hval).
      rewrite Hadd in Hloop. simpl in Hloop. fold (year_month x) in Hloop.
      assert (forall ym b,
                odict_get ym (odict_set (year_month x) bucket1 md) = Some b ->
                map fst b = all_categories) as Hwf1.
      { intros ym b. destruct (decide (year_month x = ym)) as [<- | Hne].
        - rewrite odict_get_set_eq. by intros [= <-].
        - rewrite odict_get_set_ne by exact Hne. apply Hwf. }
      destruct (IH _ md' Hwf1 Hloop) as (Hkeys & Hcells).
      split.
      * rewrite Hkeys. apply odict_set_keys. eauto.
      * intros ym b' Hb'. destruct (Hcells ym b' Hb') as (Hkb' & b1 & Hb1 & Hsum).
        split; [exact Hkb' |].
        destruct (decide (year_month x = ym)) as [<- | Hne].
        -- rewrite odict_get_set_eq in Hb1. injection Hb1 as <-.
           exists bucket. split; [exact Eget |]. intros c.
           rewrite Hsum, Hval, month_category_cons.
           rewrite (bool_decide_eq_true_2 (year_month x = year_month x))
             by reflexivity.
           case_bool_decide as Hc; cbn [andb]; [| reflexivity].
           subst c. cbn [map]. by rewrite running_total_cons, Hca.
        -- rewrite odict_get_set_ne in Hb1 by exact Hne.
           exists b1. split; [exact Hb1 |]. intros c.
           rewrite Hsum, month_category_cons.
           rewrite (bool_decide_eq_false_2 (year_month x = ym)) by exact Hne.
           by rewrite andb_false_r.
Qed.

Lemma trend_loop_returns (rates : gmap string Q) (tc : Currency)
    (s e : datetime.date) (es : list Expense.t) :
  forall md : list ((Z * Z) * list (ExpenseCategory * Q)),
    (forall ym b, odict_get ym md = Some b -> map fst b = all_categories) ->
    Forall (fun x => (exists a, User.amount_in rates tc x = Ok a)
                     /\ is_Some (odict_get (year_month x) md))
           (included (Some s) (Some e) es) ->
    exists md', ReportGenerator.trend_loop rates tc s e es md = Ok md'.
Proof.
  induction es as [| x es IH]; intros md Hwf Hall; simpl.
  - eauto.
  - change (datetime.ltb (Expense.date x) s || datetime.ltb e (Expense.date x))
      with (User.breakdown_skips (Some s) (Some e) x).
    rewrite included_cons in Hall.
    destruct (User.breakdown_skips (Some s) (Some e) x).
    + by apply IH.
    + apply Forall_cons in Hall as [[[a Ha] [bucket Hget]] Hall].
      rewrite Ha. simpl. fold (year_month x). rewrite Hget.
      destruct (bucket_add_spec (Expense.category x) a bucket (Hwf _ _ Hget))
        as (bucket1 & Hadd & Hk1 & _).
      rewrite Hadd. simpl. apply IH.
      * intros ym b. destruct (decide (year_month x = ym)) as [<- | Hne].
        -- rewrite odict_get_set_eq. by intros [= <-].
        -- rewrite odict_get_set_ne by exact Hne. apply Hwf.
      * eapply Forall_impl; [exact Hall |]. intros y [Hy [by' Hby]].
        split; [exact Hy |].
        destruct (decide (year_month x = year_month y)) as [<- | Hne].
        -- rewrite odict_get_set_eq. eauto.
        -- rewrite odict_get_set_ne by exact Hne. eauto.
Qed.

(** ** The monthly trend table *)

(** A valid date within a range of valid dates falls in one of the range's
    calendar months. *)
Lemma year_month_in_range (s e : datetime.date) (x : Expense.t) :
  datetime.valid s -> datetime.valid e -> datetime.valid (Expense.date x) ->
  within (Some s) (Some e) (Expense.date x) ->
  year_month x ∈ months_between s e.
Proof.
  intros (_ & Hs & _) (_ & He & _) (_ & Hx & _) [Hsx Hxe].
  specialize (Hsx s eq_refl). specialize (Hxe e eq_refl).
  unfold year_month. apply months_between_elem.
  unfold datetime.le in *. unfold month_index. lia.
Qed.

(** The table the trend computation returns for an explicit range of valid
    dates that ends before the last month and whose in-range records
    convert. *)
Lemma trend_table_explicit (rates : gmap string Q) (u : User.t)
    (target_currency : option Currency) (s e : datetime.date) :
  datetime.valid s -> datetime.valid e -> datetime.le s e ->
  (datetime.year e, datetime.month e) <> last_month ->
  Forall (fun x => datetime.valid (Expense.date x)) (User.expenses u) ->
  let tc := default (User.default_currency u) target_currency in
  let inc := included (Some s) (Some e) (User.expenses u) in
  Forall (fun x => exists a,
            CurrencyConverter.convert rates (Expense.amount x)
              (Expense.currency x) tc = Ok a) inc ->
  exists monthly_data,
    (forall fuel, (months_span s e < fuel)%nat ->
       ReportGenerator.generate_spending_trend fuel rates u target_currency
         (Some s) (Some e) = Some (Ok monthly_data))
    /\ map fst monthly_data = months_between s e
    /\ (forall ym bucket,
          In (ym, bucket) monthly_data ->
          bucket = map (fun c => (c, month_category_running_total rates tc inc ym c))
                       all_categories)
    /\ (forall x, In x inc ->
          exists bucket, In (year_month x, bucket) monthly_data).
Proof.
  intros Hs He Hle Hlast Hdates tc inc Hconv.
  assert (Forall (fun x => year_month x ∈ months_between s e) inc) as Hym.
  { apply Forall_forall. intros x Hx.
    apply list_elem_of_In, included_iff in Hx as [Hx Hw].
    apply year_month_in_range; try assumption.
    rewrite Forall_forall in Hdates. by apply Hdates, list_elem_of_In. }
  assert (forall ym b,
            odict_get ym (empty_months (months_between s e)) = Some b ->
            b = User.zero_buckets) as Hzero.
  { intros ym b. rewrite empty_months_get. case_bool_decide; congruence. }
  assert (forall ym b,
            odict_get ym (empty_months (months_between s e)) = Some b ->
            map fst b = all_categories) as Hwf
    by (intros ym b Hb; by rewrite (Hzero ym b Hb)).
  destruct (trend_loop_returns rates tc s e (User.expenses u)
              (empty_months (months_between s e)) Hwf) as [md' Hloop].
  { fold inc. rewrite Forall_forall in Hconv, Hym.
    apply Forall_forall. intros x Hx. split.
    - rewrite amount_in_convert. by apply Hconv.
    - rewrite empty_months_get, bool_decide_eq_true_2 by (by apply Hym). eauto. }
  destruct (trend_loop_exact rates tc s e (User.expenses u) _ md' Hwf Hloop)
    as (Hkeys & Hcells).
  fold inc in Hcells. rewrite empty_months_keys in Hkeys.
  assert (NoDup (map fst md')) as Hnd
    by (rewrite Hkeys; apply months_between_NoDup).
  exists md'. split; [| split; [exact Hkeys | split]].
  - intros fuel Hfuel. unfold ReportGenerator.generate_spending_trend.
    rewrite (month_loop_from_start s e fuel Hs He Hle Hfuel).
    rewrite bool_decide_eq_false_2 by exact Hlast.
    fold tc. by rewrite Hloop.
  - intros ym b Hin. apply list_elem_of_In in Hin.
    apply (odict_elem_get ym b md' Hnd) in Hin.
    destruct (Hcells ym b Hin) as (Hkb & b0 & Hb0 & Hsum).
    rewrite (bucket_table b Hkb) at 1. apply map_ext. intros c.
    by rewrite Hsum, (Hzero ym b0 Hb0), bucket_value_zero.
  - intros x Hx. rewrite Forall_forall in Hym.
    apply list_elem_of_In, Hym in Hx. rewrite <- Hkeys in Hx.
    apply list_elem_of_In, in_map_iff in Hx as ([ym b] & Heq & Hin).
    simpl in Heq. subst ym. eauto.
Qed.




(** ** An end-to-end run *)

(** The end-to-end example of the specification: 500 tagged "groceries"
    resolves to food and leaves a 2000/50 food policy at 25 percent without
    an alert; a further 600 takes it to 55 percent and fires the one alert. *)
Example end_to_end_groceries :
  let rates := CurrencyConverter._rates in
  let u0 := User.set_budget (User.__init__ "asha" INR) FOOD 2000 None 50 in
  let '(u1, r1) := User.add_expense rates example_today u0 500 "weekly shop"
                     None None None false 0 (Some ["groceries"%string]) None in
  let '(u2, r2) := User.add_expense rates example_today u1 600 "market"
                     None None None false 0 (Some ["groceries"%string]) None in
  exists e1 e2 a b1 b2,
    r1 = Ok (e1, []) /\ Expense.category e1 = FOOD
    /\ User.budgets u1 !! FOOD = Some b1 /\ Budget.percentage_used b1 == 25
    /\ r2 = Ok (e2, [a]) /\ alert_percentage a == 55
    /\ User.budgets u2 !! FOOD = Some b2 /\ Budget.current_spending b2 == 1100.
Proof.
  vm_compute. do 5 eexists. repeat split; reflexivity.
Qed.

(** * Further properties of the code *)

(** ** Remaining budget and usage *)

(** The remaining budget is the unspent part of the limit, floored at 0;
    for a positive limit it is 0 exactly when the usage is at least 100
    percent. *)
Theorem remaining_budget_floor (b : Budget.t) :
  0 <= Budget.remaining_budget b
  /\ (Budget.current_spending b <= Budget.monthly_limit b ->
      Budget.remaining_budget b
      == Budget.monthly_limit b - Budget.current_spending b)
  /\ (Budget.monthly_limit b <= Budget.current_spending b ->
      Budget.remaining_budget b == 0)
  /\ (0 < Budget.monthly_limit b ->
      (Budget.remaining_budget b == 0 <-> 100 <= Budget.percentage_used b)).
Proof.
  unfold Budget.remaining_budget, Budget.percentage_used.
  set (l := Budget.monthly_limit b). set (s := Budget.current_spending b).
  destruct (Qlt_bool 0 (l - s)) eqn:E.
  - apply Qlt_bool_iff in E. repeat split; intros; try lra.
    + exfalso. destruct (Qeq_bool l 0) eqn:El; simpl in *.
      * apply Qeq_bool_iff in El. lra.
      * assert (s / l < 1) by (apply Qlt_shift_div_r; lra). lra.
  - assert (l - s <= 0) as Hle.
    { destruct (Qlt_le_dec 0 (l - s)) as [Hlt | Hle]; [| exact Hle].
      apply Qlt_bool_iff in Hlt. congruence. }
    repeat split; intros; try lra.
    destruct (Qeq_bool l 0) eqn:El; simpl.
    + apply Qeq_bool_iff in El. lra.
    + assert (1 <= s / l) by (apply Qle_shift_div_l; lra). lra.
Qed.

(** A policy whose limit is 0 reports 0 percent used whatever has been
    spent, so with a positive threshold it never alerts, over any sequence
    of calls. *)
Theorem zero_limit_never_alerts (b : Budget.t)
    (calls : list (gmap string Q * Q * Currency)) :
  Budget.monthly_limit b == 0 ->
  0 < Budget.alert_threshold b ->
  Budget.alerts_triggered b = false ->
  concat (snd (Budget_run b calls)) = []
  /\ Budget.percentage_used (fst (Budget_run b calls)) = 0
  /\ Budget.alerts_triggered (fst (Budget_run b calls)) = false.
Proof.
  revert b. induction calls as [| [[rates x] cur] rest IH];
    intros b Hl Hthr Hflag.
  - simpl. repeat split; [| exact Hflag].
    unfold Budget.percentage_used.
    apply Qeq_bool_iff in Hl. by rewrite Hl.
  - cbn [Budget_run].
    destruct (Budget_step b (rates, x, cur)) as [b1 alerts] eqn:Es.
    assert (Budget.monthly_limit b1 == 0 /\ 0 < Budget.alert_threshold b1
            /\ Budget.alerts_triggered b1 = false /\ alerts = [])
      as (Hl1 & Hthr1 & Hflag1 & ->).
    { apply Budget_step_inv in Es as [Hadd | (_ & -> & ->)]; [| auto].
      apply add_spending_inv in Hadd
        as (conv & _ & _ & Hlim & _ & Hth & _ &
            [(_ & Hle & _ & _) | (_ & Hf' & ->)]).
      - exfalso. unfold Budget.percentage_used in Hle.
        rewrite Hlim in Hle. apply Qeq_bool_iff in Hl. rewrite Hl in Hle.
        simpl in Hle. rewrite Hth in Hle. lra.
      - rewrite Hlim, Hth, Hf'. auto. }
    destruct (IH b1 Hl1 Hthr1 Hflag1) as (Hout & Hpct & Hfl).
    destruct (Budget_run b1 rest) as [b2 outs].
    cbn [fst snd concat app] in *. auto.
Qed.

Lemma zero_limit_never_alerts_witness :
  concat (snd (Budget_run (Budget.__init__ FOOD 0 INR 80)
                 [(CurrencyConverter._rates, 500, INR);
                  (CurrencyConverter._rates, 40, USD)])) = [].
Proof.
  refine (proj1 (zero_limit_never_alerts (Budget.__init__ FOOD 0 INR 80) _ _ _ _));
    reflexivity.
Defined.

(** ** What add_expense changes *)

(** [add_expense] always appends exactly one expense to the ledger, also
    when it raises, and never touches the name, the default currency, the
    tag registry or the payment methods.  It raises exactly when the
    category of the new expense has a policy and the conversion into that
    policy's currency raises; the budgets are then as they were, while the
    expense stays in the ledger. *)
Theorem add_expense_appends_even_on_error (rates : gmap string Q)
    (today : datetime.date) (u : User.t) (r : ExpenseRequest) :
  let out := User_request rates today u r in
  exists expense,
    User.expenses (fst out) = User.expenses u ++ [expense]
    /\ User.name (fst out) = User.name u
    /\ User.default_currency (fst out) = User.default_currency u
    /\ User.tags (fst out) = User.tags u
    /\ User.payment_methods (fst out) = User.payment_methods u
    /\ (forall e,
          snd out = Raise e
          <-> exists budget,
                User.budgets u !! Expense.category expense = Some budget
                /\ CurrencyConverter.convert rates (Expense.amount expense)
                     (Expense.currency expense) (Budget.currency budget)
                   = Raise e)
    /\ (forall e, snd out = Raise e -> User.budgets (fst out) = User.budgets u).
Proof.
  intros out. subst out. unfold User_request, User.add_expense.
  match goal with
  | |- context [Expense.mk ?a ?c ?d ?dt ?cur ?ir ?p ?t ?pm] =>
      set (expense := Expense.mk a c d dt cur ir p t pm)
  end.
  exists expense.
  cbn [User.budgets User.expenses User.tags User.name User.default_currency
       User.payment_methods].
  change (Expense.category expense) with
    (match req_category r with
     | Some c => c
     | None =>
         match User._categorize_from_tags (User.tags u) (default [] (req_tags r)) with
         | Some c => c
         | None => User._categorize_from_description (User.tags u) (req_description r)
         end
     end).
  set (cat := match req_category r with Some c => c | None => _ end).
  destruct (User.budgets u !! cat) as [budget |] eqn:Eb.
  - destruct (Budget.add_spending rates budget (req_amount r)
                (default (User.default_currency u) (req_currency r)))
      as [[b' alerts] | err] eqn:Eadd; cbn.
    + repeat split; try reflexivity; try discriminate.
      intros (budget' & [= <-] & Hc).
      apply add_spending_inv in Eadd as (conv & Hconv & _). congruence.
    + repeat split; try reflexivity.
      * intros [= <-]. exists budget. split; [reflexivity |].
        by apply add_spending_raise_iff.
      * intros (budget' & [= <-] & Hc).
        apply add_spending_raise_iff in Eadd. congruence.
  - cbn. repeat split; try reflexivity; try discriminate.
    intros (budget' & Hb & _). discriminate.
Qed.

(** When [add_expense] returns, the policy of the new expense's category
    (if there is one) has grown by the converted amount and kept its limit,
    currency and threshold; every other category's policy is untouched;
    without a policy nothing is printed and no rate is read. *)
Theorem add_expense_budget_effect (rates : gmap string Q)
    (today : datetime.date) (u : User.t) (r : ExpenseRequest)
    (expense : Expense.t) (alerts : list Alert) :
  snd (User_request rates today u r) = Ok (expense, alerts) ->
  let u' := fst (User_request rates today u r) in
  (forall c, c <> Expense.category expense ->
             User.budgets u' !! c = User.budgets u !! c)
  /\ match User.budgets u !! Expense.category expense with
     | None =>
         User.budgets u' !! Expense.category expense = None /\ alerts = []
     | Some b =>
         exists b' converted,
           User.budgets u' !! Expense.category expense = Some b'
           /\ CurrencyConverter.convert rates (Expense.amount expense)
                (Expense.currency expense) (Budget.currency b) = Ok converted
           /\ Budget.current_spending b' = Budget.current_spending b + converted
           /\ Budget.monthly_limit b' = Budget.monthly_limit b
           /\ Budget.currency b' = Budget.currency b
           /\ Budget.alert_threshold b' = Budget.alert_threshold b
     end.
Proof.
  unfold User_request, User.add_expense.
  match goal with
  | |- context [Expense.mk ?a ?c ?d ?dt ?cur ?ir ?p ?t ?pm] =>
      set (e0 := Expense.mk a c d dt cur ir p t pm)
  end.
  cbn [User.budgets User.expenses User.tags User.name User.default_currency
       User.payment_methods].
  set (cat := match req_category r with Some c => c | None => _ end).
  destruct (User.budgets u !! cat) as [budget |] eqn:Eb.
  - destruct (Budget.add_spending rates budget (req_amount r)
                (default (User.default_currency u) (req_currency r)))
      as [[b' al] | err] eqn:Eadd; cbn; [| discriminate].
    intros [= <- <-]. cbn. fold cat. rewrite Eb. split.
    + intros c Hc. by rewrite lookup_insert_ne.
    + apply add_spending_inv in Eadd
        as (conv & Hconv & _ & Hl & Hc & Ht & Hs & _).
      exists b', conv. rewrite lookup_insert_eq. auto 10.
  - cbn. intros [= <- <-]. cbn. fold cat. rewrite Eb. auto.
Qed.

Lemma add_expense_budget_effect_witness :
  let u := User.set_budget (User.__init__ "asha" INR) TRAVEL 50000 None 80 in
  let r := mkRequest 30 "flight to Goa" None None (Some USD) false 0 None None in
  exists expense alerts b',
    snd (User_request CurrencyConverter._rates example_today u r)
    = Ok (expense, alerts)
    /\ User.budgets (fst (User_request CurrencyConverter._rates example_today u r))
       !! TRAVEL = Some b'
    /\ Budget.current_spending b' == 2500.
Proof.
  intros u r.
  destruct (snd (User_request CurrencyConverter._rates example_today u r))
    as [[expense alerts] | err] eqn:E; [| vm_compute in E; discriminate E].
  assert (Expense.category expense = TRAVEL) as Hcat
    by (vm_compute in E; injection E as <- _; reflexivity).
  pose proof (proj2 (add_expense_budget_effect CurrencyConverter._rates
                       example_today u r expense alerts E)) as H.
  rewrite Hcat in H. cbv zeta in H.
  change (User.budgets u !! TRAVEL)
    with (Some (Budget.__init__ TRAVEL 50000 INR 80)) in H.
  destruct H as (b' & conv & Hb' & Hconv & Hs & _).
  exists expense, alerts, b'. repeat split; [exact Hb' |].
  rewrite Hs.
  assert (Expense.amount expense = 30 /\ Expense.currency expense = USD) as [Ha Hc]
    by (vm_compute in E; injection E as <- _; split; reflexivity).
  rewrite Ha, Hc in Hconv. vm_compute in Hconv. injection Hconv as <-.
  reflexivity.
Defined.

(** ** Budgets follow the ledger *)

Lemma counted_cons (rates : gmap string Q) (tc : Currency) (c : ExpenseCategory)
    (e : Expense.t) (es : list Expense.t) :
  counted rates tc c (e :: es)
  = if bool_decide (Expense.category e = c) && converts rates tc e
    then e :: counted rates tc c es else counted rates tc c es.
Proof. reflexivity. Qed.

(** One [add_expense] call, seen from the policy of category [c]: the
    policy grows by the converted amount of the new expense when the expense
    is of that category and its conversion returns, and is untouched
    otherwise. *)
Lemma request_budget_step (rates : gmap string Q) (today : datetime.date)
    (u : User.t) (r : ExpenseRequest) (c : ExpenseCategory) (b : Budget.t) :
  User.budgets u !! c = Some b ->
  exists e b1,
    User.expenses (fst (User_request rates today u r)) = User.expenses u ++ [e]
    /\ User.budgets (fst (User_request rates today u r)) !! c = Some b1
    /\ Budget.currency b1 = Budget.currency b
    /\ Budget.current_spending b1
       = running_total (Budget.current_spending b)
           (map (converted rates (Budget.currency b))
                (counted rates (Budget.currency b) c [e])).
Proof.
  intros Hb. unfold User_request, User.add_expense.
  match goal with
  | |- context [Expense.mk ?a ?ca ?d ?dt ?cur ?ir ?p ?t ?pm] =>
      set (e0 := Expense.mk a ca d dt cur ir p t pm)
  end.
  cbn [User.budgets User.expenses User.tags User.name User.default_currency
       User.payment_methods].
  set (cat := match req_category r with Some c => c | None => _ end).
  assert (Expense.category e0 = cat) as Hcat by reflexivity.
  exists e0. rewrite counted_cons, Hcat.
  change (counted rates (Budget.currency b) c []) with (@nil Expense.t).
  assert (CurrencyConverter.convert rates (Expense.amount e0)
            (Expense.currency e0) (Budget.currency b)
          = CurrencyConverter.convert rates (req_amount r)
              (default (User.default_currency u) (req_currency r))
              (Budget.currency b)) as He0 by reflexivity.
  destruct (User.budgets u !! cat) as [budget |] eqn:Eb.
  - destruct (Budget.add_spending rates budget (req_amount r)
                (default (User.default_currency u) (req_currency r)))
      as [[b' al] | err] eqn:Eadd; cbn [fst User.budgets User.expenses].
    + case_bool_decide as Hc.
      * subst c. assert (budget = b) as -> by congruence.
        apply add_spending_inv in Eadd as (conv & Hconv & _ & _ & Hcur & _ & Hs & _).
        exists b'. rewrite lookup_insert_eq. repeat split; [exact Hcur |].
        unfold converts. rewrite He0, Hconv. cbn [andb map].
        unfold converted. rewrite He0, Hconv.
        rewrite running_total_cons. exact Hs.
      * exists b. rewrite lookup_insert_ne by exact Hc.
        split; [reflexivity |]. split; [exact Hb |]. split; reflexivity.
    + exists b. split; [reflexivity |]. split; [exact Hb |].
      split; [reflexivity |].
      case_bool_decide as Hc; [| reflexivity].
      subst c. assert (budget = b) as -> by congruence.
      apply add_spending_raise_iff in Eadd.
      unfold converts. by rewrite He0, Eadd.
  - cbn [fst User.budgets User.expenses]. exists b.
    case_bool_decide as Hc; [congruence |].
    split; [reflexivity |]. split; [exact Hb |]. split; reflexivity.
Qed.

(** Over any run of [add_expense] calls under one rate table, the running
    spend of a category's policy is what it was before the run with the
    converted amounts of the expenses the run recorded in that category
    added to it one at a time, in call order; an expense whose conversion
    into the policy's currency raised is not among them: it is in the
    ledger but not in the budget. *)
Theorem budget_tracks_ledger (rates : gmap string Q) (today : datetime.date)
    (rs : list ExpenseRequest) :
  forall (u : User.t) (c : ExpenseCategory) (b : Budget.t),
    User.budgets u !! c = Some b ->
    exists new b',
      User.expenses (User_requests rates today u rs) = User.expenses u ++ new
      /\ length new = length rs
      /\ User.budgets (User_requests rates today u rs) !! c = Some b'
      /\ Budget.currency b' = Budget.currency b
      /\ Budget.current_spending b'
         = running_total (Budget.current_spending b)
             (map (converted rates (Budget.currency b))
                  (counted rates (Budget.currency b) c new)).
Proof.
  induction rs as [| r rs IH]; intros u c b Hb.
  - exists [], b. rewrite app_nil_r. repeat split. exact Hb.
  - destruct (request_budget_step rates today u r c b Hb)
      as (e & b1 & Hexp & Hb1 & Hcur & Hs).
    destruct (IH (fst (User_request rates today u r)) c b1 Hb1)
      as (new & b' & Hexp' & Hlen & Hb' & Hcur' & Hs').
    exists (e :: new), b'. unfold User_requests in *. cbn [fold_left].
    rewrite Hexp', Hexp, <- app_assoc. repeat split.
    + simpl. by rewrite Hlen.
    + exact Hb'.
    + congruence.
    + rewrite Hs', Hs, Hcur. rewrite !counted_cons.
      destruct (bool_decide (Expense.category e = c)
                && converts rates (Budget.currency b) e); reflexivity.
Qed.

(** A food budget of 2000 INR and three calls: groceries for 500, a flight
    paid in USD (another category), dinner for 600: the budget holds 0 with
    500 and then 600 added. *)
Lemma budget_tracks_ledger_witness :
  let u := User.set_budget (User.__init__ "asha" INR) FOOD 2000 None 50 in
  let rs := [mkRequest 500 "groceries" None None None false 0 None None;
             mkRequest 30 "flight to Goa" None None (Some USD) false 0 None None;
             mkRequest 600 "dining out" None None None false 0 None None] in
  exists b',
    User.budgets (User_requests CurrencyConverter._rates example_today u rs)
    !! FOOD = Some b'
    /\ Budget.current_spending b' = running_total 0 [500; 600]
    /\ Budget.current_spending b' == 1100.
Proof.
  intros u rs.
  destruct (budget_tracks_ledger CurrencyConverter._rates example_today rs u
              FOOD (Budget.__init__ FOOD 2000 INR 50) eq_refl)
    as (new & b' & Hexp & _ & Hb' & _ & Hs).
  exists b'. split; [exact Hb' |].
  assert (new = skipn 0 (User.expenses
                           (User_requests CurrencyConverter._rates example_today
                                          u rs))) as ->
    by (rewrite Hexp; reflexivity).
  rewrite Hs. split; vm_compute; reflexivity.
Defined.

(** ** The tag registry *)

Lemma odict_get_del_eq {K V : Type} `{EqDecision K} (k : K) (d : list (K * V)) :
  odict_get k (odict_del k d) = None.
Proof.
  unfold odict_del. induction d as [| [k' v'] d IH]; simpl; [reflexivity |].
  case_bool_decide as Hk; simpl; [exact IH |].
  rewrite decide_False; [exact IH | congruence].
Qed.

Lemma odict_get_del_ne {K V : Type} `{EqDecision K} (k k' : K)
    (d : list (K * V)) :
  k <> k' -> odict_get k' (odict_del k d) = odict_get k' d.
Proof.
  intros Hne. unfold odict_del.
  induction d as [| [k0 v0] d IH]; simpl; [reflexivity |].
  case_bool_decide as Hk; simpl.
  - subst k0. rewrite decide_False; [exact IH | congruence].
  - by rewrite IH.
Qed.

Lemma odict_set_keys_cases {K V : Type} `{EqDecision K} (k : K) (v : V)
    (d : list (K * V)) :
  map fst (odict_set k v d)
  = match odict_get k d with
    | Some _ => map fst d
    | None => map fst d ++ [k]
    end.
Proof.
  destruct (odict_get k d) as [w |] eqn:E.
  - apply odict_set_keys. eauto.
  - apply odict_get_None in E. rewrite (odict_set_fresh k v d E), map_app.
    reflexivity.
Qed.

Lemma odict_del_keys {K V : Type} `{EqDecision K} (k : K) (d : list (K * V)) :
  map fst (odict_del k d)
  = List.filter (fun k' => negb (bool_decide (k' = k))) (map fst d).
Proof.
  unfold odict_del. induction d as [| [k0 v0] d IH]; [reflexivity |].
  cbn [List.filter map fst].
  destruct (bool_decide (k0 = k)); cbn [negb map fst]; by rewrite IH.
Qed.

Lemma categorize_from_tags_agree (reg1 reg2 : list (string * ExpenseTag.t))
    (ts : list string) :
  (forall t, t ∈ ts -> odict_get t reg1 = odict_get t reg2) ->
  User._categorize_from_tags reg1 ts = User._categorize_from_tags reg2 ts.
Proof.
  induction ts as [| t ts IH]; intros Hagree; simpl; [reflexivity |].
  rewrite (Hagree t) by apply list_elem_of_here.
  rewrite IH; [reflexivity |].
  intros t' Ht'. by apply Hagree, list_elem_of_further.
Qed.

(** Registering a tag makes it resolve as a tag from then on, re-maps it
    in place when the name was registered already (the scan order of the
    description fallback is unchanged), appends it otherwise, and leaves
    the resolution of every tag list that does not mention it as it was. *)
Theorem add_tag_then_resolve (u : User.t) (name : string)
    (category : ExpenseCategory) :
  let u' := User.add_tag u name category in
  (forall rest, User._categorize_from_tags (User.tags u') (name :: rest)
                = Some category)
  /\ (forall ts, name ∉ ts ->
        User._categorize_from_tags (User.tags u') ts
        = User._categorize_from_tags (User.tags u) ts)
  /\ map fst (User.tags u')
     = match odict_get name (User.tags u) with
       | Some _ => map fst (User.tags u)
       | None => map fst (User.tags u) ++ [name]
       end
  /\ User.expenses u' = User.expenses u
  /\ User.budgets u' = User.budgets u.
Proof.
  intros u'. subst u'. unfold User.add_tag. cbn [User.tags User.expenses User.budgets].
  split; [| split; [| split; [| split]]]; try reflexivity.
  - intros rest. simpl. by rewrite odict_get_set_eq.
  - intros ts Hts. apply categorize_from_tags_agree.
    intros t Ht. apply odict_get_set_ne. intros ->. contradiction.
  - apply odict_set_keys_cases.
Qed.

(** Deleting a registered tag from the menu makes it stop resolving, keeps
    the other tags and their order, and reports success; deleting a name
    that is not registered changes nothing and reports "not found". *)
Theorem delete_tag_then_resolve (u : User.t) (tag_name : string) :
  let out := ExpenseTrackerApp.delete_tag u tag_name in
  (forall rest,
      User._categorize_from_tags (User.tags (fst out)) (tag_name :: rest)
      = User._categorize_from_tags (User.tags (fst out)) rest)
  /\ (forall ts, tag_name ∉ ts ->
        User._categorize_from_tags (User.tags (fst out)) ts
        = User._categorize_from_tags (User.tags u) ts)
  /\ map fst (User.tags (fst out))
     = List.filter (fun k => negb (bool_decide (k = tag_name)))
                   (map fst (User.tags u))
  /\ (snd out = true <-> tag_name ∈ map fst (User.tags u))
  /\ (snd out = false -> fst out = u).
Proof.
  intros out. subst out. unfold ExpenseTrackerApp.delete_tag.
  destruct (odict_get tag_name (User.tags u)) as [entry |] eqn:E;
    cbn [fst snd User.tags].
  - split; [| split; [| split; [| split]]].
    + intros rest. simpl. by rewrite odict_get_del_eq.
    + intros ts Hts. apply categorize_from_tags_agree.
      intros t Ht. apply odict_get_del_ne. intros ->. contradiction.
    + apply odict_del_keys.
    + split; [| reflexivity]. intros _.
      destruct (decide (tag_name ∈ map fst (User.tags u))) as [Hin | Hnin];
        [exact Hin |].
      apply odict_get_None in Hnin. congruence.
    + discriminate.
  - pose proof (proj1 (odict_get_None tag_name (User.tags u)) E) as Hnin.
    split; [| split; [| split; [| split]]].
    + intros rest. simpl. by rewrite E.
    + reflexivity.
    + clear E. induction (User.tags u) as [| [k v] d IH]; simpl; [reflexivity |].
      simpl in Hnin. apply not_elem_of_cons in Hnin as [Hne Hnin].
      rewrite bool_decide_eq_false_2 by congruence. simpl. f_equal. by apply IH.
    + split; [discriminate | intros Hin; contradiction].
    + reflexivity.
Qed.

Lemma odict_del_keys_NoDup {K V : Type} `{EqDecision K} (k : K)
    (d : list (K * V)) :
  NoDup (map fst d) -> NoDup (map fst (odict_del k d)).
Proof. apply NoDup_keys_filter. Qed.

Lemma odict_set_keys_NoDup {K V : Type} `{EqDecision K} (k : K) (v : V)
    (d : list (K * V)) :
  NoDup (map fst d) -> NoDup (map fst (odict_set k v d)).
Proof.
  intros Hnd. rewrite odict_set_keys_cases.
  destruct (odict_get k d) eqn:E; [exact Hnd |].
  apply odict_get_None in E. apply NoDup_app. repeat split; [exact Hnd | |].
  - intros x Hx Hx'. apply list_elem_of_singleton in Hx'. by subst.
  - apply NoDup_singleton.
Qed.

Lemma odict_set_named (name : string) (c : ExpenseCategory)
    (d : list (string * ExpenseTag.t)) :
  Forall (fun kv => fst kv = ExpenseTag.name (snd kv)) d ->
  Forall (fun kv => fst kv = ExpenseTag.name (snd kv))
         (odict_set name (ExpenseTag.mk name c) d).
Proof.
  induction 1 as [| [k v] d Hk Hd IH]; simpl.
  - constructor; [reflexivity | constructor].
  - destruct (decide (name = k)) as [<- | Hne].
    + constructor; [reflexivity | exact Hd].
    + constructor; [exact Hk | exact IH].
Qed.

(** Helper facts about one [add_expense] call, whatever its outcome. *)
Lemma request_frame (rates : gmap string Q) (today : datetime.date)
    (u : User.t) (r : ExpenseRequest) :
  User.tags (fst (User_request rates today u r)) = User.tags u
  /\ User.payment_methods (fst (User_request rates today u r))
     = User.payment_methods u
  /\ ((forall c b, User.budgets u !! c = Some b -> Budget.category b = c) ->
      forall c b,
        User.budgets (fst (User_request rates today u r)) !! c = Some b ->
        Budget.category b = c).
Proof.
  unfold User_request, User.add_expense.
  cbn [User.budgets User.expenses User.tags User.name User.default_currency
       User.payment_methods].
  set (cat := match req_category r with Some c => c | None => _ end).
  destruct (User.budgets u !! cat) as [budget |] eqn:Eb.
  - destruct (Budget.add_spending rates budget (req_amount r)
                (default (User.default_currency u) (req_currency r)))
      as [[b' al] | err] eqn:Eadd; cbn; repeat split; auto.
    intros Hinv c b. destruct (decide (cat = c)) as [<- | Hne].
    + rewrite lookup_insert_eq. intros [= <-].
      apply add_spending_inv in Eadd as (conv & _ & Hcat & _).
      rewrite Hcat. by apply Hinv.
    + rewrite lookup_insert_ne by exact Hne. apply Hinv.
  - cbn. repeat split; auto.
Qed.

(** Whatever sequence of operations built a user, its registry holds each
    name once, every entry is stored under its own tag's name, every policy
    is stored under its own category, and the payment methods are the six
    built-in ones. *)
Theorem reachable_user_well_formed (u : User.t) :
  User_reachable u ->
  NoDup (map fst (User.tags u))
  /\ Forall (fun kv => fst kv = ExpenseTag.name (snd kv)) (User.tags u)
  /\ (forall c b, User.budgets u !! c = Some b -> Budget.category b = c)
  /\ User.payment_methods u
     = ["Cash"; "Credit Card"; "Debit Card"; "UPI"; "Bank Transfer"; "Wallet"]%string.
Proof.
  induction 1 as [name currency
                 | rates today u r _ (Hnd & Hnm & Hb & Hpm)
                 | u c l cur thr _ (Hnd & Hnm & Hb & Hpm)
                 | u name c _ (Hnd & Hnm & Hb & Hpm)
                 | u t _ (Hnd & Hnm & Hb & Hpm)].
  - split; [| split; [| split]]; try reflexivity.
    + vm_compute. repeat (apply NoDup_cons_2;
        [rewrite ?not_elem_of_cons; repeat split; try discriminate;
         apply not_elem_of_nil |]). apply NoDup_nil_2.
    + vm_compute. repeat constructor.
    + intros c b Hcb. unfold User.__init__ in Hcb.
      cbn [User.budgets] in Hcb. rewrite lookup_empty in Hcb. discriminate.
  - destruct (request_frame rates today u r) as (Htags & Hpm' & Hcat).
    rewrite Htags, Hpm'. repeat split; auto.
  - unfold User.set_budget. cbn [User.tags User.budgets User.payment_methods].
    repeat split; auto.
    intros c' b. destruct (decide (c = c')) as [<- | Hne].
    + rewrite lookup_insert_eq. by intros [= <-].
    + rewrite lookup_insert_ne by exact Hne. apply Hb.
  - unfold User.add_tag. cbn [User.tags User.budgets User.payment_methods].
    repeat split; auto.
    + by apply odict_set_keys_NoDup.
    + by apply odict_set_named.
  - unfold ExpenseTrackerApp.delete_tag.
    destruct (odict_get t (User.tags u)); cbn [fst]; [| auto].
    cbn [User.tags User.budgets User.payment_methods].
    repeat split; auto.
    + by apply odict_del_keys_NoDup.
    + unfold odict_del. clear -Hnm.
      induction Hnm as [| kv d Hk _ IH]; simpl; [constructor |].
      destruct (negb (bool_decide (fst kv = t))); [constructor |]; assumption.
Qed.

Lemma reachable_user_well_formed_witness :
  NoDup (map fst (User.tags example_user)).
Proof.
  refine (proj1 (reachable_user_well_formed example_user _)).
  unfold example_user. cbv zeta.
  apply (reach_add_expense _ _ _ (mkRequest 45 "books"
           (Some (datetime.mkDate 2023 12 30)) None None false 0 None None)).
  apply (reach_add_expense _ _ _ (mkRequest 30 "flight to Goa"
           (Some (datetime.mkDate 2024 3 5)) None (Some USD) false 0 None None)).
  apply (reach_add_expense _ _ _ (mkRequest 100 "groceries"
           (Some (datetime.mkDate 2024 1 20)) None None false 0 None None)).
  apply reach_init.
Defined.

(** ** Queries on the ledger *)

(** After [add_expense], the expenses found under a tag are those found
    before, followed by the new one exactly when the call listed that tag;
    likewise for the recurring expenses.  This holds whether or not the
    call raised. *)
Theorem add_expense_then_query (rates : gmap string Q) (today : datetime.date)
    (u : User.t) (r : ExpenseRequest) :
  let u' := fst (User_request rates today u r) in
  exists expense,
    User.expenses u' = User.expenses u ++ [expense]
    /\ (forall tag,
          User_get_expenses_by_tag u' tag
          = User_get_expenses_by_tag u tag
            ++ (if bool_decide (tag ∈ default [] (req_tags r))
                then [expense] else []))
    /\ User.get_recurring_expenses u'
       = User.get_recurring_expenses u
         ++ (if req_is_recurring r then [expense] else []).
Proof.
  intros u'. subst u'.
  pose proof (add_expense_stored rates today u (req_amount r)
                (req_description r) (req_date r) (req_category r)
                (req_currency r) (req_is_recurring r)
                (req_recurring_period_days r) (req_tags r)
                (req_payment_method r)) as (Hled & _ & _).
  cbv zeta in Hled. fold (User_request rates today u r) in Hled.
  eexists. split; [exact Hled |]. split.
  - intros tag. unfold User_get_expenses_by_tag.
    rewrite Hled, List.filter_app. reflexivity.
  - unfold User.get_recurring_expenses. rewrite Hled, List.filter_app. simpl.
    by destruct (req_is_recurring r).
Qed.

(** ** More on the breakdown *)

(** The table behind a returned breakdown: every category, each with its
    total, before the [v > 0] filter. *)
Lemma get_spending_breakdown_inv (rates : gmap string Q) (u : User.t)
    (target_currency : option Currency)
    (start_date end_date : option datetime.date)
    (bd : list (ExpenseCategory * Q)) :
  User.get_spending_breakdown rates u target_currency start_date end_date
  = Ok bd ->
  let tc := default (User.default_currency u) target_currency in
  let inc := included start_date end_date (User.expenses u) in
  exists bd',
    bd = List.filter (fun kv => Qlt_bool 0 (snd kv)) bd'
    /\ map fst bd' = all_categories
    /\ (forall c v, (c, v) ∈ bd' -> v == category_total rates tc inc c)
    /\ Forall (fun e => User.amount_in rates tc e = Ok (converted rates tc e)) inc.
Proof.
  intros Hret tc inc. unfold User.get_spending_breakdown in Hret.
  fold tc in Hret.
  destruct (User.breakdown_loop rates tc start_date end_date (User.expenses u)
              User.zero_buckets) as [bd' | err] eqn:Eloop;
    simpl in Hret; [| discriminate].
  injection Hret as <-.
  destruct (breakdown_loop_spec rates tc start_date end_date (User.expenses u)
              User.zero_buckets bd' zero_buckets_keys Eloop)
    as (Hk & Hconv & Htot).
  exists bd'. repeat split; auto.
  intros c v Hin.
  assert (NoDup (map fst bd')) as Hnd
    by (rewrite Hk; apply all_categories_NoDup).
  apply (odict_elem_get c v bd' Hnd) in Hin.
  rewrite (bucket_lookup c bd' Hk) in Hin. injection Hin as <-.
  rewrite Htot, bucket_value_zero. unfold inc. lra.
Qed.

Lemma breakdown_loop_raises (rates : gmap string Q) (tc : Currency)
    (start_date end_date : option datetime.date) (es : list Expense.t) :
  forall (bd : list (ExpenseCategory * Q)) (pre : list Expense.t)
         (x : Expense.t) (post : list Expense.t) (err : error),
    map fst bd = all_categories ->
    included start_date end_date es = pre ++ x :: post ->
    Forall (fun y => exists a, User.amount_in rates tc y = Ok a) pre ->
    User.amount_in rates tc x = Raise err ->
    User.breakdown_loop rates tc start_date end_date es bd = Raise err.
Proof.
  induction es as [| y es IH]; intros bd pre x post err Hk Hinc Hpre Hx.
  - by destruct pre.
  - rewrite included_cons in Hinc. simpl.
    destruct (User.breakdown_skips start_date end_date y).
    + by apply (IH bd pre x post).
    + destruct pre as [| y' pre]; simpl in Hinc; injection Hinc as -> Hinc.
      * by rewrite Hx.
      * apply Forall_cons in Hpre as [[a Ha] Hpre]. rewrite Ha. simpl.
        destruct (bucket_add_spec (Expense.category y') a bd Hk)
          as (bd1 & Hadd & Hk1 & _).
        rewrite Hadd. simpl. by apply (IH bd1 pre x post).
Qed.

(** The breakdown returns exactly when every record within the bounds
    converts; otherwise it raises the error of the first such record, in
    ledger order, that does not.  Records outside the bounds are never
    converted. *)
Theorem spending_breakdown_error_behaviour (rates : gmap string Q) (u : User.t)
    (target_currency : option Currency)
    (start_date end_date : option datetime.date) :
  let tc := default (User.default_currency u) target_currency in
  let inc := included start_date end_date (User.expenses u) in
  ((exists bd,
       User.get_spending_breakdown rates u target_currency start_date end_date
       = Ok bd)
   <-> Forall (fun x => exists a, User.amount_in rates tc x = Ok a) inc)
  /\ (forall pre x post err,
        inc = pre ++ x :: post ->
        Forall (fun y => exists a, User.amount_in rates tc y = Ok a) pre ->
        User.amount_in rates tc x = Raise err ->
        User.get_spending_breakdown rates u target_currency start_date end_date
        = Raise err).
Proof.
  intros tc inc. split; [split |].
  - intros [bd Hbd].
    destruct (get_spending_breakdown_inv rates u target_currency start_date
                end_date bd Hbd) as (bd' & _ & _ & _ & Hconv).
    eapply Forall_impl; [exact Hconv |]. intros x Hx.
    exists (converted rates tc x). exact Hx.
  - apply get_spending_breakdown_returns.
  - intros pre x post err Hinc Hpre Hx. unfold User.get_spending_breakdown.
    fold tc.
    rewrite (breakdown_loop_raises rates tc start_date end_date (User.expenses u)
               User.zero_buckets pre x post err zero_buckets_keys Hinc Hpre Hx).
    reflexivity.
Qed.

Lemma breakdown_loop_same_currency (rates1 rates2 : gmap string Q)
    (tc : Currency) (start_date end_date : option datetime.date)
    (es : list Expense.t) :
  Forall (fun x => Expense.currency x = tc) (included start_date end_date es) ->
  forall bd : list (ExpenseCategory * Q),
    User.breakdown_loop rates1 tc start_date end_date es bd
    = User.breakdown_loop rates2 tc start_date end_date es bd.
Proof.
  induction es as [| y es IH]; intros Hall bd; [reflexivity |].
  rewrite included_cons in Hall. simpl.
  destruct (User.breakdown_skips start_date end_date y); [by apply IH |].
  apply Forall_cons in Hall as [Hy Hall].
  unfold User.amount_in. rewrite !decide_True by exact Hy. simpl.
  destruct (User.bucket_add (Expense.category y) (Expense.amount y) bd);
    simpl; [by apply IH | reflexivity].
Qed.

(** When every record within the bounds is already in the target currency,
    the breakdown returns, and returns the same thing whatever the rate
    table holds: no rate is read. *)
Theorem spending_breakdown_same_currency (rates1 rates2 : gmap string Q)
    (u : User.t) (target_currency : option Currency)
    (start_date end_date : option datetime.date) :
  Forall (fun x => Expense.currency x
                   = default (User.default_currency u) target_currency)
         (included start_date end_date (User.expenses u)) ->
  (exists bd,
      User.get_spending_breakdown rates1 u target_currency start_date end_date
      = Ok bd)
  /\ User.get_spending_breakdown rates1 u target_currency start_date end_date
     = User.get_spending_breakdown rates2 u target_currency start_date end_date.
Proof.
  intros Hall. split.
  - apply get_spending_breakdown_returns.
    eapply Forall_impl; [exact Hall |]. intros x Hx.
    exists (Expense.amount x). unfold User.amount_in.
    by rewrite decide_True.
  - unfold User.get_spending_breakdown.
    by rewrite (breakdown_loop_same_currency rates1 rates2 _ _ _ _ Hall).
Qed.

Lemma spending_breakdown_same_currency_witness :
  User.get_spending_breakdown ∅ example_user (Some INR)
    (Some (datetime.mkDate 2023 12 1)) (Some (datetime.mkDate 2024 1 31))
  = User.get_spending_breakdown CurrencyConverter._rates example_user (Some INR)
      (Some (datetime.mkDate 2023 12 1)) (Some (datetime.mkDate 2024 1 31)).
Proof.
  refine (proj2 (spending_breakdown_same_currency ∅ CurrencyConverter._rates
                   example_user (Some INR) (Some (datetime.mkDate 2023 12 1))
                   (Some (datetime.mkDate 2024 1 31)) _)).
  vm_compute. repeat (apply Forall_cons_2; [reflexivity |]). apply Forall_nil_2.
Defined.

Lemma sublist_keys_filter {K V : Type} (p : K * V -> bool) (l : list (K * V)) :
  sublist (map fst (List.filter p l)) (map fst l).
Proof.
  induction l as [| kv l IH]; simpl; [constructor |].
  destruct (p kv); simpl; [by apply sublist_skip | by apply sublist_cons].
Qed.

(** The categories of a returned breakdown come in the order of the
    enumeration; and when no record lies within the bounds the breakdown is
    empty. *)
Theorem spending_breakdown_order (rates : gmap string Q) (u : User.t)
    (target_currency : option Currency)
    (start_date end_date : option datetime.date)
    (bd : list (ExpenseCategory * Q)) :
  User.get_spending_breakdown rates u target_currency start_date end_date
  = Ok bd ->
  sublist (map fst bd) all_categories
  /\ (included start_date end_date (User.expenses u) = [] -> bd = []).
Proof.
  intros Hret.
  destruct (get_spending_breakdown_inv rates u target_currency start_date
              end_date bd Hret) as (bd' & -> & Hk & Hval & _).
  split.
  - rewrite <- Hk. apply sublist_keys_filter.
  - intros Hinc. rewrite Hinc in Hval.
    assert (Forall (fun kv => Qlt_bool 0 (snd kv) = false) bd') as Hall.
    { apply Forall_forall. intros [c v] Hin. simpl.
      rewrite (Qlt_bool_comp v 0) by (rewrite (Hval c v Hin); reflexivity).
      reflexivity. }
    clear -Hall. induction Hall as [| kv l Hkv _ IH]; simpl; [reflexivity |].
    by rewrite Hkv.
Qed.

Lemma spending_breakdown_order_witness :
  exists bd,
    User.get_spending_breakdown CurrencyConverter._rates example_user (Some INR)
      None None = Ok bd
    /\ sublist (map fst bd) all_categories.
Proof.
  eexists. split; [vm_compute; reflexivity |].
  refine (proj1 (spending_breakdown_order CurrencyConverter._rates example_user
                   (Some INR) None None _ _)).
  vm_compute; reflexivity.
Defined.

(** ** More on the monthly trend *)

Lemma datetime_ltb_false (a b : datetime.date) :
  datetime.ltb a b = false <-> datetime.le b a.
Proof.
  rewrite <- datetime_leb_le. unfold datetime.leb.
  destruct (datetime.ltb a b); simpl; split; congruence.
Qed.

Lemma datetime_le_refl (a : datetime.date) : datetime.le a a.
Proof. unfold datetime.le. lia. Qed.

Lemma datetime_le_trans (a b c : datetime.date) :
  datetime.le a b -> datetime.le b c -> datetime.le a c.
Proof. unfold datetime.le. lia. Qed.

Lemma datetime_le_total (a b : datetime.date) :
  datetime.le a b \/ datetime.le b a.
Proof. unfold datetime.le. lia. Qed.

Lemma datetime_ltb_true (a b : datetime.date) :
  datetime.ltb a b = true <-> ~ datetime.le b a.
Proof.
  rewrite <- datetime_ltb_false. destruct (datetime.ltb a b); split; congruence.
Qed.

Lemma trend_loop_all_skipped (rates : gmap string Q) (tc : Currency)
    (s e : datetime.date) (es : list Expense.t)
    (md : list ((Z * Z) * list (ExpenseCategory * Q))) :
  included (Some s) (Some e) es = [] ->
  ReportGenerator.trend_loop rates tc s e es md = Ok md.
Proof.
  induction es as [| x es IH]; intros Hinc; [reflexivity |].
  rewrite included_cons in Hinc. simpl.
  change (datetime.ltb (Expense.date x) s || datetime.ltb e (Expense.date x))
    with (User.breakdown_skips (Some s) (Some e) x).
  destruct (User.breakdown_skips (Some s) (Some e) x); [by apply IH | discriminate].
Qed.

(** With the start of the range after its end, the trend computation
    builds no bucket and returns the empty table without converting or
    raising anything, whatever the ledger holds. *)
Theorem spending_trend_reversed_range (rates : gmap string Q) (u : User.t)
    (target_currency : option Currency) (s e : datetime.date) (fuel : nat) :
  datetime.ltb e s = true ->
  ReportGenerator.generate_spending_trend (S fuel) rates u target_currency
    (Some s) (Some e) = Some (Ok []).
Proof.
  intros Hlt. unfold ReportGenerator.generate_spending_trend.
  cbn [ReportGenerator.month_loop]. unfold datetime.leb. rewrite Hlt.
  cbn [negb]. rewrite trend_loop_all_skipped; [reflexivity |].
  apply datetime_ltb_true in Hlt.
  induction (User.expenses u) as [| x es IH]; [reflexivity |].
  rewrite included_cons.
  destruct (User.breakdown_skips (Some s) (Some e) x) eqn:E; [exact IH |].
  exfalso. apply breakdown_skips_within in E as [Hs He].
  apply Hlt. eapply datetime_le_trans; [by apply Hs | by apply He].
Qed.

Lemma spending_trend_reversed_range_witness :
  ReportGenerator.generate_spending_trend 1 CurrencyConverter._rates
    example_user None (Some (datetime.mkDate 2024 3 10))
    (Some (datetime.mkDate 2024 1 15)) = Some (Ok []).
Proof.
  refine (spending_trend_reversed_range CurrencyConverter._rates example_user
            None (datetime.mkDate 2024 3 10) (datetime.mkDate 2024 1 15) 0 _).
  reflexivity.
Defined.

Lemma fold_min_date (rest : list Expense.t) :
  forall d0 : datetime.date,
    let m := fold_left
               (fun best x => if datetime.ltb (Expense.date x) best
                              then Expense.date x else best) rest d0 in
    datetime.le m d0
    /\ Forall (fun x => datetime.le m (Expense.date x)) rest
    /\ (m = d0 \/ Exists (fun x => m = Expense.date x) rest).
Proof.
  induction rest as [| x rest IH]; intros d0; cbn [fold_left].
  - split; [apply datetime_le_refl |]. split; [constructor | by left].
  - set (d1 := if datetime.ltb (Expense.date x) d0 then Expense.date x else d0).
    destruct (IH d1) as (Hm1 & Hall & Hex).
    assert (datetime.le d1 d0 /\ datetime.le d1 (Expense.date x)
            /\ (d1 = d0 \/ d1 = Expense.date x)) as (H10 & H1x & Hd1).
    { subst d1. destruct (datetime.ltb (Expense.date x) d0) eqn:E.
      - split; [| split; [apply datetime_le_refl | by right]].
        apply datetime_ltb_true in E.
        destruct (datetime_le_total (Expense.date x) d0); [assumption | contradiction].
      - apply datetime_ltb_false in E.
        split; [apply datetime_le_refl | split; [exact E | by left]]. }
    split; [eapply datetime_le_trans; eassumption |]. split.
    + constructor; [eapply datetime_le_trans; eassumption | exact Hall].
    + destruct Hex as [-> | Hex]; [| right; by apply Exists_cons_tl].
      destruct Hd1 as [-> | ->]; [by left | right; by apply Exists_cons_hd].
Qed.

Lemma fold_max_date (rest : list Expense.t) :
  forall d0 : datetime.date,
    let m := fold_left
               (fun best x => if datetime.ltb best (Expense.date x)
                              then Expense.date x else best) rest d0 in
    datetime.le d0 m
    /\ Forall (fun x => datetime.le (Expense.date x) m) rest
    /\ (m = d0 \/ Exists (fun x => m = Expense.date x) rest).
Proof.
  induction rest as [| x rest IH]; intros d0; cbn [fold_left].
  - split; [apply datetime_le_refl |]. split; [constructor | by left].
  - set (d1 := if datetime.ltb d0 (Expense.date x) then Expense.date x else d0).
    destruct (IH d1) as (Hm1 & Hall & Hex).
    assert (datetime.le d0 d1 /\ datetime.le (Expense.date x) d1
            /\ (d1 = d0 \/ d1 = Expense.date x)) as (H10 & H1x & Hd1).
    { subst d1. destruct (datetime.ltb d0 (Expense.date x)) eqn:E.
      - split; [| split; [apply datetime_le_refl | by right]].
        apply datetime_ltb_true in E.
        destruct (datetime_le_total d0 (Expense.date x)); [assumption | contradiction].
      - apply datetime_ltb_false in E.
        split; [apply datetime_le_refl | split; [exact E | by left]]. }
    split; [eapply datetime_le_trans; eassumption |]. split.
    + constructor; [eapply datetime_le_trans; eassumption | exact Hall].
    + destruct Hex as [-> | Hex]; [| right; by apply Exists_cons_tl].
      destruct Hd1 as [-> | ->]; [by left | right; by apply Exists_cons_hd].
Qed.

(** On a non-empty ledger the default range runs from the earliest to the
    latest date of the ledger, both dates of the ledger. *)
Lemma default_range_bounds (es : list Expense.t) :
  es <> [] ->
  exists s e,
    ReportGenerator.min_date es = Ok s
    /\ ReportGenerator.max_date es = Ok e
    /\ Forall (fun x => datetime.le s (Expense.date x)
                        /\ datetime.le (Expense.date x) e) es
    /\ Exists (fun x => s = Expense.date x) es
    /\ Exists (fun x => e = Expense.date x) es.
Proof.
  destruct es as [| x0 rest]; [congruence |]. intros _.
  unfold ReportGenerator.min_date, ReportGenerator.max_date.
  destruct (fold_min_date rest (Expense.date x0)) as (Hm0 & Hmall & Hmex).
  destruct (fold_max_date rest (Expense.date x0)) as (HM0 & HMall & HMex).
  cbv zeta in *. eexists. eexists.
  split; [reflexivity |]. split; [reflexivity |]. split; [| split].
  - constructor; [by split |].
    rewrite Forall_forall in Hmall, HMall. apply Forall_forall.
    intros x Hx. split; [by apply Hmall | by apply HMall].
  - destruct Hmex as [-> | Hex]; [by apply Exists_cons_hd | by apply Exists_cons_tl].
  - destruct HMex as [-> | Hex]; [by apply Exists_cons_hd | by apply Exists_cons_tl].
Qed.

Lemma included_all (s e : datetime.date) (es : list Expense.t) :
  Forall (fun x => datetime.le s (Expense.date x)
                   /\ datetime.le (Expense.date x) e) es ->
  included (Some s) (Some e) es = es.
Proof.
  induction 1 as [| x es [Hs He] _ IH]; [reflexivity |].
  rewrite included_cons, IH.
  assert (User.breakdown_skips (Some s) (Some e) x = false) as ->; [| reflexivity].
  apply breakdown_skips_within. split; intros ? [= <-]; assumption.
Qed.

(** With a bound omitted, the trend computation raises [ValueError] on an
    empty ledger.  With both omitted, on a non-empty ledger of valid dates
    whose latest date lies before December 9999 and whose records all
    convert, it spans the months from the earliest to the latest date of the
    ledger, every record of the ledger has its month among the buckets, and
    the bucket of a month holds, for every category, the running total of
    the converted amounts of that month's records of the category, added one
    at a time to 0 in ledger order. *)
Theorem spending_trend_default_range (rates : gmap string Q) (u : User.t)
    (target_currency : option Currency) :
  (User.expenses u = [] ->
   forall fuel end_date start_date,
     ReportGenerator.generate_spending_trend fuel rates u target_currency
       None end_date = Some (Raise ValueError)
     /\ ReportGenerator.generate_spending_trend fuel rates u target_currency
          (Some start_date) None = Some (Raise ValueError))
  /\ (User.expenses u <> [] ->
      Forall (fun x => datetime.valid (Expense.date x)
                       /\ year_month x <> last_month) (User.expenses u) ->
      let tc := default (User.default_currency u) target_currency in
      Forall (fun x => exists a,
                CurrencyConverter.convert rates (Expense.amount x)
                  (Expense.currency x) tc = Ok a)
             (User.expenses u) ->
      exists s e monthly_data,
        ReportGenerator.min_date (User.expenses u) = Ok s
        /\ ReportGenerator.max_date (User.expenses u) = Ok e
        /\ (forall fuel, (months_span s e < fuel)%nat ->
              ReportGenerator.generate_spending_trend fuel rates u
                target_currency None None = Some (Ok monthly_data))
        /\ map fst monthly_data = months_between s e
        /\ (forall x, In x (User.expenses u) ->
              In (year_month x) (map fst monthly_data))
        /\ (forall ym bucket,
              In (ym, bucket) monthly_data ->
              bucket
              = map (fun c => (c, month_category_running_total rates tc
                                    (User.expenses u) ym c))
                    all_categories)).
Proof.
  split.
  - intros Hempty fuel end_date start_date.
    unfold ReportGenerator.generate_spending_trend. rewrite Hempty.
    split; reflexivity.
  - intros Hne Hdates tc Hconv.
    destruct (default_range_bounds (User.expenses u) Hne)
      as (s & e & Hmin & Hmax & Hall & Hexs & Hexe).
    pose proof (included_all s e (User.expenses u) Hall) as Hinc.
    assert (datetime.valid s) as Hs.
    { apply Exists_exists in Hexs as (x & Hx & ->).
      rewrite Forall_forall in Hdates. by apply Hdates. }
    assert (datetime.valid e /\ (datetime.year e, datetime.month e) <> last_month)
      as [He Hlast].
    { apply Exists_exists in Hexe as (x & Hx & ->).
      rewrite Forall_forall in Hdates. by apply Hdates. }
    assert (datetime.le s e) as Hle.
    { apply Exists_exists in Hexs as (x & Hx & ->).
      rewrite Forall_forall in Hall. by apply (Hall x Hx). }
    destruct (trend_table_explicit rates u target_currency s e Hs He Hle Hlast)
      as (md & Hrun & Hkeys & Hbuckets & Hown).
    { eapply Forall_impl; [exact Hdates |]. by intros x [Hx _]. }
    { fold tc. rewrite Hinc. exact Hconv. }
    fold tc in Hbuckets. rewrite Hinc in Hbuckets, Hown.
    exists s, e, md. repeat split; try assumption.
    + intros fuel Hfuel. specialize (Hrun fuel Hfuel).
      unfold ReportGenerator.generate_spending_trend in *.
      by rewrite Hmin, Hmax.
    + intros x Hx. destruct (Hown x Hx) as [bucket Hin].
      apply in_map_iff. by exists (year_month x, bucket).
Qed.

(** The ledger of the worked examples, no range given, in INR: December
    2023 to March 2024, with the flight of 30 USD in the March bucket as
    2500 INR. *)
Lemma spending_trend_default_range_witness :
  exists monthly_data,
    ReportGenerator.generate_spending_trend 5 CurrencyConverter._rates
      example_user (Some INR) None None = Some (Ok monthly_data)
    /\ map fst monthly_data = [(2023, 12); (2024, 1); (2024, 2); (2024, 3)]%Z
    /\ forall bucket,
         In ((2024, 3)%Z, bucket) monthly_data ->
         bucket_value TRAVEL bucket == 2500.
Proof.
  destruct (proj2 (spending_trend_default_range CurrencyConverter._rates
                     example_user (Some INR)))
    as (s & e & md & Hmin & Hmax & Hrun & Hkeys & _ & Hbuckets).
  - discriminate.
  - repeat (apply Forall_cons_2;
            [split; [vm_compute; intuition discriminate | discriminate] |]).
    apply Forall_nil_2.
  - vm_compute.
    repeat (apply Forall_cons_2; [eexists; reflexivity |]). apply Forall_nil_2.
  - vm_compute in Hmin, Hmax. injection Hmin as <-. injection Hmax as <-.
    exists md. split; [apply Hrun; vm_compute; lia |].
    split; [exact Hkeys |].
    intros bucket Hin. rewrite (Hbuckets _ _ Hin). vm_compute. reflexivity.
Defined.

(** ** The CSV export *)

Lemma csv_loop_spec (rates : gmap string Q) (tc : Currency)
    (start_date end_date : option datetime.date) (es : list Expense.t) :
  forall rows rows' : list CsvRow,
    csv_loop rates tc start_date end_date es rows = Ok rows' ->
    rows' = rows ++ map (csv_row rates tc) (included start_date end_date es)
    /\ Forall (fun x => User.amount_in rates tc x = Ok (converted rates tc x))
              (included start_date end_date es).
Proof.
  induction es as [| x es IH]; intros rows rows' Hloop; simpl in Hloop.
  - injection Hloop as <-. split; [by rewrite app_nil_r | constructor].
  - rewrite included_cons.
    destruct (User.breakdown_skips start_date end_date x); [by apply IH |].
    destruct (User.amount_in rates tc x) as [a | err] eqn:Ea;
      simpl in Hloop; [| discriminate].
    destruct (amount_in_converted rates tc x a Ea) as [Hca _].
    destruct (IH _ _ Hloop) as [-> Hall]. split.
    + rewrite <- app_assoc. simpl. unfold csv_row at 2. by rewrite Hca.
    + constructor; [by rewrite Hca | exact Hall].
Qed.

Lemma csv_loop_returns (rates : gmap string Q) (tc : Currency)
    (start_date end_date : option datetime.date) (es : list Expense.t) :
  forall rows : list CsvRow,
    Forall (fun x => exists a, User.amount_in rates tc x = Ok a)
           (included start_date end_date es) ->
    exists rows', csv_loop rates tc start_date end_date es rows = Ok rows'.
Proof.
  induction es as [| x es IH]; intros rows Hall; simpl; [eauto |].
  rewrite included_cons in Hall.
  destruct (User.breakdown_skips start_date end_date x); [by apply IH |].
  apply Forall_cons in Hall as [[a Ha] Hall]. rewrite Ha. simpl. by apply IH.
Qed.

(** What [generate_csv_report] prepares for the writer: one row per record
    within the bounds, in ledger order, carrying the converted amount, the
    target currency's code and the category's label; nothing at all (the
    "No expenses to export" return) exactly when no record lies within the
    bounds.  The export gets that far exactly when the breakdown over the
    same range returns. *)
Theorem csv_report_rows (rates : gmap string Q) (u : User.t)
    (target_currency : option Currency)
    (start_date end_date : option datetime.date) :
  let tc := default (User.default_currency u) target_currency in
  let inc := included start_date end_date (User.expenses u) in
  (forall out,
      ReportGenerator_generate_csv_report rates u target_currency start_date
        end_date = Ok out ->
      out = (if bool_decide (inc = []) then None
             else Some (map (csv_row rates tc) inc)))
  /\ ((exists out,
          ReportGenerator_generate_csv_report rates u target_currency
            start_date end_date = Ok out)
      <-> exists bd,
            User.get_spending_breakdown rates u target_currency start_date
              end_date = Ok bd).
Proof.
  intros tc inc. split.
  - intros out Hout. unfold ReportGenerator_generate_csv_report in Hout.
    fold tc in Hout.
    destruct (csv_loop rates tc start_date end_date (User.expenses u) [])
      as [rows | err] eqn:Eloop; simpl in Hout; [| discriminate].
    apply csv_loop_spec in Eloop as [-> _]. simpl in Hout. fold inc in Hout.
    destruct inc as [| x inc']; simpl in Hout.
    + by injection Hout as <-.
    + injection Hout as <-. rewrite bool_decide_eq_false_2 by discriminate.
      reflexivity.
  - assert ((exists out,
               ReportGenerator_generate_csv_report rates u target_currency
                 start_date end_date = Ok out)
            <-> Forall (fun x => exists a, User.amount_in rates tc x = Ok a) inc)
      as ->.
    { split.
      - intros [out Hout]. unfold ReportGenerator_generate_csv_report in Hout.
        fold tc in Hout.
        destruct (csv_loop rates tc start_date end_date (User.expenses u) [])
          as [rows | err] eqn:Eloop; simpl in Hout; [| discriminate].
        apply csv_loop_spec in Eloop as [_ Hall].
        eapply Forall_impl; [exact Hall |]. intros x Hx.
        exists (converted rates tc x). exact Hx.
      - intros Hall. unfold ReportGenerator_generate_csv_report. fold tc.
        destruct (csv_loop_returns rates tc start_date end_date
                    (User.expenses u) [] Hall) as [rows Hrows].
        rewrite Hrows. simpl. destruct rows; eauto. }
    split.
    + apply get_spending_breakdown_returns.
    + intros [bd Hbd].
      destruct (get_spending_breakdown_inv rates u target_currency start_date
                  end_date bd Hbd) as (bd' & _ & _ & _ & Hconv).
      eapply Forall_impl; [exact Hconv |]. intros x Hx.
      exists (converted rates tc x). exact Hx.
Qed.




(** ** The text report *)

Lemma insert_desc_perm {K : Type} (x : K * Q) (l : list (K * Q)) :
  Permutation (insert_desc x l) (x :: l).
Proof.
  induction l as [| y l IH]; simpl; [reflexivity |].
  destruct (Qlt_bool (snd x) (snd y)); [| reflexivity].
  rewrite IH. apply perm_swap.
Qed.

Lemma sorted_desc_perm {K : Type} (l : list (K * Q)) :
  Permutation (sorted_desc l) l.
Proof.
  induction l as [| x l IH]; simpl; [reflexivity |].
  rewrite insert_desc_perm. by constructor.
Qed.

Lemma insert_desc_sorted {K : Type} (x : K * Q) (l : list (K * Q)) :
  StronglySorted (fun a b => snd b <= snd a) l ->
  StronglySorted (fun a b => snd b <= snd a) (insert_desc x l).
Proof.
  induction 1 as [| y l Hs IH Hall]; simpl.
  - constructor; constructor.
  - destruct (Qlt_bool (snd x) (snd y)) eqn:E.
    + apply Qlt_bool_iff in E. constructor; [exact IH |].
      rewrite (insert_desc_perm x l). constructor; [lra | exact Hall].
    + assert (snd y <= snd x) as Hle.
      { destruct (Qlt_le_dec (snd x) (snd y)) as [Hlt | Hle]; [| exact Hle].
        apply Qlt_bool_iff in Hlt. congruence. }
      constructor; [by constructor |].
      constructor; [exact Hle |].
      eapply Forall_impl; [exact Hall |]. intros z Hz. simpl in Hz. lra.
Qed.

Lemma insert_desc_head {K : Type} (x : K * Q) (l : list (K * Q)) :
  Forall (fun y => snd y <= snd x) l -> insert_desc x l = x :: l.
Proof.
  destruct l as [| y l]; [reflexivity |]. intros Hall.
  apply Forall_cons in Hall as [Hy _]. simpl.
  destruct (Qlt_bool (snd x) (snd y)) eqn:E; [| reflexivity].
  apply Qlt_bool_iff in E. lra.
Qed.

Lemma sorted_desc_sorted {K : Type} (l : list (K * Q)) :
  StronglySorted (fun a b => snd b <= snd a) (sorted_desc l).
Proof.
  unfold sorted_desc. induction l as [| x l IH]; cbn [fold_right];
    [constructor | by apply insert_desc_sorted].
Qed.

Lemma sorted_desc_id {K : Type} (l : list (K * Q)) :
  StronglySorted (fun a b => snd b <= snd a) l -> sorted_desc l = l.
Proof.
  unfold sorted_desc. induction 1 as [| x l Hs IH Hall]; cbn [fold_right];
    [reflexivity |].
  rewrite IH. by apply insert_desc_head.
Qed.

(** The category lines of the text report are the entries of the
    breakdown rearranged in descending order of amount, an already
    descending breakdown (ties included) being left in its order; and when
    the total is not positive every percentage shown is 0. *)
Theorem report_category_lines_sorted (breakdown : list (ExpenseCategory * Q)) :
  let lines := report_category_lines breakdown in
  Permutation (map fst lines) breakdown
  /\ StronglySorted (fun a b => snd b <= snd a) (map fst lines)
  /\ (StronglySorted (fun a b => snd b <= snd a) breakdown ->
      map fst lines = breakdown)
  /\ (~ 0 < py_sum (map snd breakdown) ->
      Forall (fun line => snd line = 0) lines).
Proof.
  intros lines. subst lines. unfold report_category_lines.
  set (total := py_sum (map snd breakdown)).
  assert (forall l : list (ExpenseCategory * Q),
            map fst
              (map (fun '(category, amount) =>
                      (category, amount,
                       if Qlt_bool 0 total then amount / total * 100 else 0)) l)
            = l) as Hfst.
  { induction l as [| [c a] l IH]; simpl; [reflexivity |]. by rewrite IH. }
  rewrite Hfst. split; [apply sorted_desc_perm |]. split; [| split].
  - apply sorted_desc_sorted.
  - apply sorted_desc_id.
  - intros Hnpos.
    assert (Qlt_bool 0 total = false) as ->.
    { destruct (Qlt_bool 0 total) eqn:E; [| reflexivity].
      apply Qlt_bool_iff in E. contradiction. }
    induction (sorted_desc breakdown) as [| [c a] l IH]; simpl;
      constructor; auto.
Qed.

(** A breakdown in enumeration order, as the breakdown returns it, comes
    out largest amount first. *)
Lemma report_category_lines_sorted_witness :
  map fst (map fst (report_category_lines
                      [(FOOD, 100); (EDUCATION, 45); (TRAVEL, 2500)]))
  = [TRAVEL; FOOD; EDUCATION]
  /\ map fst (report_category_lines [(TRAVEL, 2500); (FOOD, 100)])
     = [(TRAVEL, 2500); (FOOD, 100)].
Proof.
  split; [vm_compute; reflexivity |].
  refine (proj1 (proj2 (proj2
            (report_category_lines_sorted [(TRAVEL, 2500); (FOOD, 100)]))) _).
  repeat constructor; simpl; lra.
Defined.

(** ** Menus *)

(** A numbered menu accepts more than its numbers: typing [k] with
    [1 <= k <= n] picks the [k]-th of the [n] items, but [0] and the
    negative numbers down to [-(n-1)] are accepted too and pick what
    [k + n] picks (so 0 picks the last item); only numbers above [n] or at
    most [-n] are refused. *)
Theorem menu_pick_wraps {A : Type} (items : list A) (choice : Z) :
  let n := Z.of_nat (length items) in
  ((1 <= choice <= n)%Z ->
   ExpenseTrackerApp.menu_pick items choice
   = nth_error items (Z.to_nat (choice - 1))
   /\ is_Some (ExpenseTrackerApp.menu_pick items choice))
  /\ ((- n < choice <= 0)%Z ->
      ExpenseTrackerApp.menu_pick items choice
      = ExpenseTrackerApp.menu_pick items (choice + n)
      /\ is_Some (ExpenseTrackerApp.menu_pick items choice))
  /\ ((n < choice \/ choice <= - n)%Z ->
      ExpenseTrackerApp.menu_pick items choice = None).
Proof.
  intros n. unfold ExpenseTrackerApp.menu_pick, py_index. fold n.
  assert (forall k, (k < length items)%nat -> is_Some (nth_error items k)) as Hsome.
  { intros k Hk. destruct (nth_error items k) eqn:E; [eauto |].
    apply nth_error_None in E. lia. }
  split; [| split].
  - intros Hc. destruct (Z.leb_spec 0 (choice - 1)); [| lia].
    split; [reflexivity |]. apply Hsome. lia.
  - intros Hc. destruct (Z.leb_spec 0 (choice - 1)); [lia |].
    destruct (Z.leb_spec (- n) (choice - 1)); [| lia].
    destruct (Z.leb_spec 0 (choice + n - 1)); [| lia].
    replace (n + (choice - 1))%Z with (choice + n - 1)%Z by lia.
    split; [reflexivity |]. apply Hsome. lia.
  - intros [Hc | Hc].
    + destruct (Z.leb_spec 0 (choice - 1)); [| lia].
      apply nth_error_None. lia.
    + destruct (Z.leb_spec 0 (choice - 1)); [lia |].
      destruct (Z.leb_spec (- n) (choice - 1)); [lia | reflexivity].
Qed.

Lemma menu_pick_wraps_witness :
  ExpenseTrackerApp.menu_pick all_categories 0
  = ExpenseTrackerApp.menu_pick all_categories (0 + 11)
  /\ ExpenseTrackerApp.menu_pick all_categories 0 = Some OTHER.
Proof.
  split; [| reflexivity].
  refine (proj1 (proj1 (proj2 (menu_pick_wraps all_categories 0)) _)).
  simpl; lia.
Defined.

Lemma Currency_of_name_name (c : Currency) :
  Currency_of_name (Currency_name c) = Some c.
Proof. destruct c; reflexivity. Qed.

Lemma ExpenseCategory_of_name_name (c : ExpenseCategory) :
  ExpenseCategory_of_name (ExpenseCategory_name c) = Some c.
Proof. destruct c; reflexivity. Qed.

(** ** Saving and reloading *)

Lemma load_expenses_saved (rates : gmap string Q) (today : datetime.date)
    (es : list Expense.t) :
  forall u : User.t,
    User.budgets u = ∅ ->
    ExpenseTrackerApp.load_expenses rates today u
      (map ExpenseTrackerApp.expense_entry es)
    = (User.mk (User.name u) (User.default_currency u) (User.expenses u ++ es)
               (User.budgets u) (User.tags u) (User.payment_methods u),
       Ok tt).
Proof.
  induction es as [| e es IH]; intros u Hb.
  - simpl. rewrite app_nil_r. by destruct u.
  - cbn [map ExpenseTrackerApp.load_expenses].
    unfold ExpenseTrackerApp.expense_entry at 1 2.
    cbn [d_category d_currency d_amount d_description d_date d_is_recurring
         d_recurring_period_days d_tags d_payment_method].
    rewrite ExpenseCategory_of_name_name, Currency_of_name_name.
    unfold User.add_expense.
    cbn [User.budgets User.expenses User.tags User.name User.default_currency
         User.payment_methods default from_option id].
    rewrite Hb, lookup_empty.
    rewrite IH by reflexivity.
    cbn [User.budgets User.expenses User.tags User.name User.default_currency
         User.payment_methods].
    rewrite <- app_assoc. destruct e. reflexivity.
Qed.

Lemma load_budgets_saved (l : list (ExpenseCategory * Budget.t)) :
  forall u : User.t,
    ExpenseTrackerApp.load_budgets u (map ExpenseTrackerApp.budget_entry l)
    = (User.mk (User.name u) (User.default_currency u) (User.expenses u)
               (fold_left (fun m item => <[fst item := reloaded_budget (fst item) (snd item)]> m)
                          l (User.budgets u))
               (User.tags u) (User.payment_methods u),
       Ok tt).
Proof.
  induction l as [| [c b] l IH]; intros u.
  - simpl. by destruct u.
  - cbn [map ExpenseTrackerApp.load_budgets ExpenseTrackerApp.budget_entry
         bd_category bd_currency bd_monthly_limit bd_alert_threshold].
    rewrite ExpenseCategory_of_name_name, Currency_of_name_name.
    rewrite IH. reflexivity.
Qed.

Lemma load_tags_saved (l : list (string * ExpenseTag.t)) :
  forall u : User.t,
    ExpenseTrackerApp.load_tags u (map ExpenseTrackerApp.tag_entry l)
    = (User.mk (User.name u) (User.default_currency u) (User.expenses u)
               (User.budgets u)
               (fold_left
                  (fun reg item =>
                     odict_set (fst item)
                       (ExpenseTag.mk (fst item) (ExpenseTag.category (snd item)))
                       reg)
                  l (User.tags u))
               (User.payment_methods u),
       Ok tt).
Proof.
  induction l as [| [n t] l IH]; intros u.
  - simpl. by destruct u.
  - cbn [map ExpenseTrackerApp.load_tags ExpenseTrackerApp.tag_entry].
    rewrite ExpenseCategory_of_name_name, IH. reflexivity.
Qed.

Lemma fold_insert_lookup {V W : Type} (f : ExpenseCategory -> V -> W)
    (l : list (ExpenseCategory * V)) :
  NoDup (map fst l) ->
  forall (m : gmap ExpenseCategory W) (c : ExpenseCategory),
    fold_left (fun m item => <[fst item := f (fst item) (snd item)]> m) l m !! c
    = match odict_get c l with
      | Some v => Some (f c v)
      | None => m !! c
      end.
Proof.
  induction l as [| [k v] l IH]; intros Hnd m c; [reflexivity |].
  simpl in Hnd. apply NoDup_cons in Hnd as [Hk Hnd].
  cbn [fold_left fst snd odict_get]. rewrite (IH Hnd).
  destruct (decide (c = k)) as [-> | Hne].
  - apply odict_get_None in Hk. rewrite Hk. by rewrite lookup_insert_eq.
  - destruct (odict_get c l); [reflexivity |].
    rewrite lookup_insert_ne; [reflexivity | congruence].
Qed.

Lemma fold_odict_set_lookup (l : list (string * ExpenseTag.t)) :
  NoDup (map fst l) ->
  forall (reg : list (string * ExpenseTag.t)) (n : string),
    odict_get n
      (fold_left
         (fun reg item =>
            odict_set (fst item)
              (ExpenseTag.mk (fst item) (ExpenseTag.category (snd item))) reg)
         l reg)
    = match odict_get n l with
      | Some t => Some (ExpenseTag.mk n (ExpenseTag.category t))
      | None => odict_get n reg
      end.
Proof.
  induction l as [| [k t] l IH]; intros Hnd reg n; [reflexivity |].
  simpl in Hnd. apply NoDup_cons in Hnd as [Hk Hnd].
  cbn [fold_left fst snd odict_get]. rewrite (IH Hnd).
  destruct (decide (n = k)) as [-> | Hne].
  - apply odict_get_None in Hk. rewrite Hk. by rewrite odict_get_set_eq.
  - destruct (odict_get n l); [reflexivity |].
    rewrite odict_get_set_ne; [reflexivity | congruence].
Qed.

Lemma odict_get_map_to_list {V : Type} (m : gmap ExpenseCategory V)
    (c : ExpenseCategory) :
  odict_get c (map_to_list m) = m !! c.
Proof.
  pose proof (NoDup_fst_map_to_list m) as Hnd.
  destruct (m !! c) as [v |] eqn:E.
  - apply odict_elem_get; [exact Hnd |]. by apply elem_of_map_to_list.
  - apply odict_get_None. intros Hin.
    apply list_elem_of_fmap in Hin as ([c' v] & Heq & Hin).
    simpl in Heq. subst c'. apply elem_of_map_to_list in Hin. congruence.
Qed.

(** The user a reload of a saved user yields. *)
Lemma load_save (rates : gmap string Q) (today : datetime.date)
    (current_user : option User.t) (u : User.t) :
  exists u',
    ExpenseTrackerApp.load_data rates today current_user
      (ExpenseTrackerApp.save_data u) = (Some u', true)
    /\ User.name u' = User.name u
    /\ User.default_currency u' = User.default_currency u
    /\ User.expenses u' = User.expenses u
    /\ (forall c, User.budgets u' !! c
                  = reloaded_budget c <$> User.budgets u !! c)
    /\ (NoDup (map fst (User.tags u)) ->
        forall n,
          odict_get n (User.tags u')
          = match odict_get n (User.tags u) with
            | Some t => Some (ExpenseTag.mk n (ExpenseTag.category t))
            | None => odict_get n (User._initialize_default_tags [])
            end).
Proof.
  unfold ExpenseTrackerApp.load_data, ExpenseTrackerApp.save_data.
  cbn [s_name s_default_currency s_expenses s_budgets s_tags].
  rewrite Currency_of_name_name.
  rewrite load_expenses_saved by reflexivity.
  rewrite load_budgets_saved, load_tags_saved.
  eexists. split; [reflexivity |].
  cbn [User.budgets User.expenses User.tags User.name User.default_currency
       User.payment_methods User.__init__ app].
  repeat split.
  - intros c.
    rewrite (fold_insert_lookup reloaded_budget _ (NoDup_fst_map_to_list _)).
    rewrite odict_get_map_to_list, lookup_empty.
    by destruct (User.budgets u !! c).
  - intros Hnd n. by rewrite (fold_odict_set_lookup _ Hnd).
Qed.

(** Saving a user and loading the file again succeeds and gives back the
    same name, default currency and ledger, record for record - so every
    breakdown of the reloaded user is the breakdown of the saved one. *)
Theorem reload_keeps_ledger (rates : gmap string Q) (today : datetime.date)
    (current_user : option User.t) (u : User.t) :
  exists u',
    ExpenseTrackerApp.load_data rates today current_user
      (ExpenseTrackerApp.save_data u) = (Some u', true)
    /\ User.name u' = User.name u
    /\ User.default_currency u' = User.default_currency u
    /\ User.expenses u' = User.expenses u
    /\ forall rates' target start_date end_date,
         User.get_spending_breakdown rates' u' target start_date end_date
         = User.get_spending_breakdown rates' u target start_date end_date.
Proof.
  destruct (load_save rates today current_user u)
    as (u' & Hload & Hname & Hcur & Hexp & _).
  exists u'. repeat split; try assumption.
  intros rates' target s e. unfold User.get_spending_breakdown.
  by rewrite Hcur, Hexp.
Qed.

(** A reload keeps each policy's limit, currency and threshold but not its
    progress: every reloaded policy has spent 0 and has its alert re-armed,
    whatever the ledger holds for its category. *)
Theorem reload_resets_budgets (rates : gmap string Q) (today : datetime.date)
    (current_user : option User.t) (u : User.t) :
  exists u',
    ExpenseTrackerApp.load_data rates today current_user
      (ExpenseTrackerApp.save_data u) = (Some u', true)
    /\ forall c,
         match User.budgets u !! c with
         | None => User.budgets u' !! c = None
         | Some b =>
             exists b',
               User.budgets u' !! c = Some b'
               /\ Budget.category b' = c
               /\ Budget.monthly_limit b' = Budget.monthly_limit b
               /\ Budget.currency b' = Budget.currency b
               /\ Budget.alert_threshold b' = Budget.alert_threshold b
               /\ Budget.current_spending b' = 0
               /\ Budget.alerts_triggered b' = false
         end.
Proof.
  destruct (load_save rates today current_user u)
    as (u' & Hload & _ & _ & _ & Hb & _).
  exists u'. split; [exact Hload |]. intros c. rewrite (Hb c).
  destruct (User.budgets u !! c) as [b |]; [| reflexivity].
  eexists. split; [reflexivity |]. repeat split.
Qed.

Lemma default_registry_lookup :
  Forall (fun t => odict_get (ExpenseTag.name t) (User._initialize_default_tags [])
                   = Some t)
         User.default_tags.
Proof. repeat constructor. Qed.

(** After a reload every tag the saved registry held resolves to the
    category it had, and every built-in tag resolves again even if it had
    been deleted before saving: the file is laid over a fresh default
    registry. *)
Theorem reload_restores_default_tags (rates : gmap string Q)
    (today : datetime.date) (current_user : option User.t) (u : User.t) :
  NoDup (map fst (User.tags u)) ->
  exists u',
    ExpenseTrackerApp.load_data rates today current_user
      (ExpenseTrackerApp.save_data u) = (Some u', true)
    /\ (forall n t rest,
          odict_get n (User.tags u) = Some t ->
          User._categorize_from_tags (User.tags u') (n :: rest)
          = Some (ExpenseTag.category t))
    /\ (forall t rest,
          In t User.default_tags ->
          odict_get (ExpenseTag.name t) (User.tags u) = None ->
          User._categorize_from_tags (User.tags u') (ExpenseTag.name t :: rest)
          = Some (ExpenseTag.category t))
    /\ (forall n,
          odict_get n (User.tags u) = None ->
          (forall t, In t User.default_tags -> ExpenseTag.name t <> n) ->
          odict_get n (User.tags u') = None).
Proof.
  intros Hnd.
  destruct (load_save rates today current_user u)
    as (u' & Hload & _ & _ & _ & _ & Htags).
  specialize (Htags Hnd).
  exists u'. split; [exact Hload |]. split; [| split].
  - intros n t rest Hn. simpl. by rewrite Htags, Hn.
  - intros t rest Hin Hn. simpl. rewrite Htags, Hn.
    pose proof default_registry_lookup as Hdef.
    rewrite Forall_forall in Hdef.
    by rewrite (Hdef t (proj2 (list_elem_of_In _ _) Hin)).
  - intros n Hn Hnot. rewrite Htags, Hn.
    apply odict_get_None. intros Hin.
    change (map fst (User._initialize_default_tags []))
      with (map ExpenseTag.name User.default_tags) in Hin.
    apply list_elem_of_In, in_map_iff in Hin as (t & Heq & Hin).
    exact (Hnot t Hin Heq).
Qed.

Lemma reload_restores_default_tags_witness :
  let u := fst (ExpenseTrackerApp.delete_tag (User.__init__ "asha" INR) "rent") in
  User._categorize_from_tags (User.tags u) ["rent"%string] = None
  /\ exists u',
       ExpenseTrackerApp.load_data CurrencyConverter._rates example_today None
         (ExpenseTrackerApp.save_data u) = (Some u', true)
       /\ User._categorize_from_tags (User.tags u') ["rent"%string]
          = Some HOUSING.
Proof.
  intros u. split; [reflexivity |].
  destruct (reload_restores_default_tags CurrencyConverter._rates example_today
              None u) as (u' & Hload & _ & Hdef & _).
  - vm_compute. repeat (apply NoDup_cons_2;
      [rewrite ?not_elem_of_cons; repeat split; try discriminate;
       apply not_elem_of_nil |]). apply NoDup_nil_2.
  - exists u'. split; [exact Hload |].
    apply (Hdef (ExpenseTag.mk "rent" HOUSING) []); [| reflexivity].
    vm_compute. tauto.
Defined.

Lemma load_expenses_stops (rates : gmap string Q) (today : datetime.date)
    (es : list Expense.t) (bad : ExpenseData) (rest : list ExpenseData) :
  ExpenseCategory_of_name (d_category bad) = None
  \/ Currency_of_name (d_currency bad) = None ->
  forall u : User.t,
    User.budgets u = ∅ ->
    ExpenseTrackerApp.load_expenses rates today u
      (map ExpenseTrackerApp.expense_entry es ++ bad :: rest)
    = (User.mk (User.name u) (User.default_currency u) (User.expenses u ++ es)
               (User.budgets u) (User.tags u) (User.payment_methods u),
       Raise KeyError).
Proof.
  intros Hbad. induction es as [| e es IH]; intros u Hb.
  - cbn [map app ExpenseTrackerApp.load_expenses]. rewrite app_nil_r.
    destruct Hbad as [-> | Hc].
    + by destruct u.
    + destruct (ExpenseCategory_of_name (d_category bad)); rewrite ?Hc;
        by destruct u.
  - cbn [map app ExpenseTrackerApp.load_expenses].
    unfold ExpenseTrackerApp.expense_entry at 1 2.
    cbn [d_category d_currency d_amount d_description d_date d_is_recurring
         d_recurring_period_days d_tags d_payment_method].
    rewrite ExpenseCategory_of_name_name, Currency_of_name_name.
    unfold User.add_expense.
    cbn [User.budgets User.expenses User.tags User.name User.default_currency
         User.payment_methods default from_option id].
    rewrite Hb, lookup_empty.
    rewrite IH by reflexivity.
    cbn [User.budgets User.expenses User.tags User.name User.default_currency
         User.payment_methods].
    rewrite <- app_assoc. destruct e. reflexivity.
Qed.

(** A data file that names an unknown currency as the default leaves the
    current user as it was.  One whose list of expenses reaches an entry
    with an unknown category or currency name stops there: the load
    reports failure, yet the current user is replaced by one holding the
    expenses read up to that entry, no budget at all and the built-in tags
    only. *)
Theorem load_data_stops_at_bad_entry (rates : gmap string Q)
    (today : datetime.date) (current_user : option User.t) (data : Snapshot) :
  (Currency_of_name (s_default_currency data) = None ->
   ExpenseTrackerApp.load_data rates today current_user data
   = (current_user, false))
  /\ (forall default_currency es bad rest,
        Currency_of_name (s_default_currency data) = Some default_currency ->
        s_expenses data
        = map ExpenseTrackerApp.expense_entry es ++ bad :: rest ->
        ExpenseCategory_of_name (d_category bad) = None
        \/ Currency_of_name (d_currency bad) = None ->
        exists u',
          ExpenseTrackerApp.load_data rates today current_user data
          = (Some u', false)
          /\ User.expenses u' = es
          /\ User.budgets u' = ∅
          /\ User.tags u' = User.tags (User.__init__ (s_name data) default_currency)).
Proof.
  split.
  - intros Hcur. unfold ExpenseTrackerApp.load_data. by rewrite Hcur.
  - intros dc es bad rest Hcur Hexp Hbad.
    unfold ExpenseTrackerApp.load_data. rewrite Hcur, Hexp.
    rewrite (load_expenses_stops rates today es bad rest Hbad) by reflexivity.
    eexists. split; [reflexivity |]. repeat split.
Qed.

Lemma load_data_stops_at_bad_entry_witness :
  let data :=
    mkSnapshot "asha" "INR"
      [ExpenseTrackerApp.expense_entry
         (Expense.mk 100 FOOD "groceries" (datetime.mkDate 2024 1 20) INR
                     false 0 [] "Cash");
       mkExpenseData 30 "flight" (datetime.mkDate 2024 3 5) "Travel" "USD"
                     false 0 None None;
       mkExpenseData 45 "books" (datetime.mkDate 2023 12 30) "EDUCATION" "INR"
                     false 0 None None]
      [mkBudgetData "FOOD" 2000 "INR" None] [] in
  exists u',
    ExpenseTrackerApp.load_data CurrencyConverter._rates example_today None data
    = (Some u', false)
    /\ length (User.expenses u') = 1%nat
    /\ User.budgets u' = ∅.
Proof.
  intros data.
  destruct (proj2 (load_data_stops_at_bad_entry CurrencyConverter._rates
                     example_today None data) INR
              [Expense.mk 100 FOOD "groceries" (datetime.mkDate 2024 1 20) INR
                          false 0 [] "Cash"]
              (mkExpenseData 30 "flight" (datetime.mkDate 2024 3 5) "Travel"
                             "USD" false 0 None None)
              [mkExpenseData 45 "books" (datetime.mkDate 2023 12 30)
                             "EDUCATION" "INR" false 0 None None])
    as (u' & Hload & Hexp & Hb & _).
  - reflexivity.
  - reflexivity.
  - left. reflexivity.
  - exists u'. split; [exact Hload |]. split; [by rewrite Hexp | exact Hb].
Defined.

(** ** The currency the menu records an expense in *)

(** The menu records an expense in USD as soon as one of its tags is
    "travel", "flight" or "hotel" (spelled exactly so), whatever the user's
    default currency, and in the default currency otherwise. *)
Theorem expense_currency_travel_tags (default_currency : Currency)
    (tags : list string) :
  (Exists (fun tag => tag = "travel" \/ tag = "flight" \/ tag = "hotel")%string
          tags ->
   ExpenseTrackerApp.expense_currency default_currency tags = USD)
  /\ (Forall (fun tag => tag <> "travel" /\ tag <> "flight" /\ tag <> "hotel")%string
             tags ->
      ExpenseTrackerApp.expense_currency default_currency tags
      = default_currency).
Proof.
  split.
  - induction 1 as [tag rest Htag | tag rest _ IH]; simpl.
    + rewrite bool_decide_eq_true_2; [reflexivity |].
      rewrite !elem_of_cons. tauto.
    + by destruct (bool_decide _).
  - induction 1 as [| tag rest (H1 & H2 & H3) _ IH]; simpl; [reflexivity |].
    rewrite bool_decide_eq_false_2; [exact IH |].
    rewrite !elem_of_cons, elem_of_nil. tauto.
Qed.

Lemma expense_currency_travel_tags_witness :
  ExpenseTrackerApp.expense_currency INR ["work"; "hotel"]%string = USD.
Proof.
  refine (proj1 (expense_currency_travel_tags INR ["work"; "hotel"]%string) _).
  apply Exists_cons_tl, Exists_cons_hd. tauto.
Defined.

(** ** Further worked examples *)

Lemma remaining_budget_floor_witness :
  Budget.remaining_budget (Budget.mk FOOD 1000 INR 1200 80 true) == 0.
Proof.
  refine (proj1 (proj2 (proj2 (remaining_budget_floor
                                 (Budget.mk FOOD 1000 INR 1200 80 true)))) _).
  discriminate.
Defined.

Lemma add_expense_appends_even_on_error_witness :
  let rates : gmap string Q := delete "USD"%string CurrencyConverter._rates in
  let u := User.set_budget (User.__init__ "asha" INR) TRAVEL 50000 None 80 in
  let r := mkRequest 30 "flight to Goa" None None (Some USD) false 0 None None in
  snd (User_request rates example_today u r) = Raise ValueError
  /\ length (User.expenses (fst (User_request rates example_today u r))) = 1%nat
  /\ User.budgets (fst (User_request rates example_today u r)) = User.budgets u.
Proof.
  intros rates u r.
  destruct (add_expense_appends_even_on_error rates example_today u r)
    as (e & Hexp & _ & _ & _ & _ & _ & Hb).
  assert (snd (User_request rates example_today u r) = Raise ValueError) as Hr
    by (vm_compute; reflexivity).
  split; [exact Hr |]. split; [by rewrite Hexp | exact (Hb ValueError Hr)].
Defined.

Lemma add_tag_then_resolve_witness :
  User._categorize_from_tags
    (User.tags (User.add_tag (User.__init__ "asha" INR) "gym" HEALTH))
    ["rent"; "gym"]%string
  = User._categorize_from_tags (User.tags (User.__init__ "asha" INR))
      ["rent"]%string
  /\ User._categorize_from_tags
       (User.tags (User.add_tag (User.__init__ "asha" INR) "gym" HEALTH))
       ["gym"]%string = Some HEALTH.
Proof.
  split; [reflexivity |].
  exact (proj1 (add_tag_then_resolve (User.__init__ "asha" INR) "gym" HEALTH) []).
Defined.

Lemma delete_tag_then_resolve_witness :
  snd (ExpenseTrackerApp.delete_tag (User.__init__ "asha" INR) "gym") = false
  /\ fst (ExpenseTrackerApp.delete_tag (User.__init__ "asha" INR) "gym")
     = User.__init__ "asha" INR.
Proof.
  split; [reflexivity |].
  refine (proj2 (proj2 (proj2 (proj2
            (delete_tag_then_resolve (User.__init__ "asha" INR) "gym")))) _).
  reflexivity.
Defined.

Lemma spending_breakdown_error_behaviour_witness :
  User.get_spending_breakdown (delete "USD"%string CurrencyConverter._rates)
    example_user (Some INR) None None = Raise ValueError.
Proof.
  refine (proj2 (spending_breakdown_error_behaviour
                   (delete "USD"%string CurrencyConverter._rates)
                   example_user (Some INR) None None)
            [Expense.mk 100 FOOD "groceries" (datetime.mkDate 2024 1 20) INR
                        false 0 [] "Cash"]
            (Expense.mk 30 TRAVEL "flight to Goa" (datetime.mkDate 2024 3 5) USD
                        false 0 [] "Cash")
            [Expense.mk 45 EDUCATION "books" (datetime.mkDate 2023 12 30) INR
                        false 0 [] "Cash"]
            ValueError _ _ _).
  - reflexivity.
  - apply Forall_cons_2; [| apply Forall_nil_2]. eexists. reflexivity.
  - vm_compute. reflexivity.
Defined.

Lemma csv_report_rows_witness :
  exists rows,
    ReportGenerator_generate_csv_report CurrencyConverter._rates example_user
      (Some INR) None None = Ok (Some rows)
    /\ map csv_Category rows = ["Food"; "Travel"; "Education"]%string
    /\ map csv_Currency rows = ["INR"; "INR"; "INR"]%string
    /\ Forall2 Qeq (map csv_Amount rows) [100; 2500; 45].
Proof.
  destruct (ReportGenerator_generate_csv_report CurrencyConverter._rates
              example_user (Some INR) None None) as [out | err] eqn:E;
    [| vm_compute in E; discriminate E].
  rewrite (proj1 (csv_report_rows CurrencyConverter._rates example_user
                    (Some INR) None None) out E).
  eexists. split; [vm_compute; reflexivity |].
  split; [vm_compute; reflexivity |]. split; [vm_compute; reflexivity |].
  vm_compute. repeat constructor.
Defined.
